(** * ade_modelo_agricola: windowed raster processing

    A shallow embedding of the window loops of
    [scripts/2_procesar_ndvi_por_categoria.py] and
    [scripts/6_recortar_mnc_y_combinar.py], of the category-table parser
    and the month loops of script 2, of the band stacking of
    [scripts/5_combinar_rasters_ndvi.py] and of the checks and the output
    of [scripts/9_combinar_recortes_con_ndvi.py].

    Conventions.
    - Python [int] is [Z]; [//] is [Z.div] (both round towards minus
      infinity) and a zero divisor is written out where the source can
      meet one.
    - A NumPy [float64] value is an IEEE binary64 number
      ([PrimFloat.float]).  A [float32] value is the binary64 number of
      the same value; [Np.float32] rounds to the nearest of them, as
      [astype(np.float32)] does, and an operation on [float32] arrays is
      the binary64 operation followed by that rounding.  A Python float
      compared with a [float32] array is rounded to [float32] first.
    - The reducers of NumPy are written out from its implementation:
      the order of the additions of a sum, which starts from -0.0, and
      the steps of [nanmedian] and [nanstd].
    - A Python exception is a value [Raise e] of the type [exc]; a
      [try/except Exception] is a match on it.
    - rasterio and GDAL are not part of the repository: their operations
      are the fields of the class [Rasterio], each with the type of what
      the library returns and allowed to raise, and the properties hold
      for every instance of it.  [UnitGrid] is one instance, used to run
      the scripts on small rasters. *)

From Stdlib Require Import ZArith List Bool Lia Floats String Sorted.
From stdpp Require Import gmap.
Import ListNotations.
Local Open Scope Z_scope.

(** ** Python basics *)

Module Py.

Inductive exn : Type :=
| ZeroDivisionError
| ValueError
| AttributeError
| WindowError
| IOError
| IndexError
| UnboundLocalError
| TypeError
| SystemExit (code : Z).

Inductive exc (A : Type) : Type :=
| Ok (a : A)
| Raise (e : exn).
Arguments Ok {A} a.
Arguments Raise {A} e.

Definition bind {A B : Type} (m : exc A) (k : A -> exc B) : exc B :=
  match m with
  | Ok a => k a
  | Raise e => Raise e
  end.

(** [range(n)] for an integer [n]: empty when [n <= 0]. *)
Definition range (n : Z) : list Z := map Z.of_nat (seq 0 (Z.to_nat n)).

End Py.

Notation "'try!' x ':=' m 'in' k" := (Py.bind m (fun x => k))
  (at level 10, x name, m at level 100, k at level 200).

(** ** The window partition loop

    Both window loops (script 2, lines 119-147; script 6, lines 114-148)
    are the same code up to the names of the dimensions. *)

Record Window : Type := mkWindow
  { col_off : Z; row_off : Z; width : Z; height : Z }.

(** A [bool] used where the code goes on to read a window: the first
    attribute it asks for, [.width], is one a [bool] does not have. *)
Definition window_of_bool (b : bool) : Py.exc Window :=
  Py.Raise Py.AttributeError.

Module Partition.

(** [(size + chunk_size - 1) // chunk_size].  With [chunk_size = 0] Python
    raises [ZeroDivisionError] here; the stage functions test for it
    before they call this. *)
Definition n_chunks (size chunk_size : Z) : Z :=
  (size + chunk_size - 1) / chunk_size.

Definition total_chunks (height width chunk_size : Z) : Z :=
  n_chunks height chunk_size * n_chunks width chunk_size.

(** [(row_start, row_end, col_start, col_end)] of chunk [(i, j)]. *)
Definition chunk_limits (height width chunk_size i j : Z) : Z * Z * Z * Z :=
  (i * chunk_size, Z.min ((i + 1) * chunk_size) height,
   j * chunk_size, Z.min ((j + 1) * chunk_size) width).

(** The body of the loop up to [Window(...)]: [None] is the
    [pbar.update(1); continue] of a window with no extent. *)
Definition chunk_window (height width chunk_size i j : Z) : option Window :=
  let '(row_start, row_end, col_start, col_end) :=
    chunk_limits height width chunk_size i j in
  if (row_end <=? row_start) || (col_end <=? col_start) then None
  else Some (mkWindow col_start row_start
                      (col_end - col_start) (row_end - row_start)).

(** [for i in range(n_chunks_h): for j in range(n_chunks_w)]. *)
Definition chunk_indices (height width chunk_size : Z) : list (Z * Z) :=
  flat_map (fun i => map (fun j => (i, j))
                         (Py.range (n_chunks width chunk_size)))
           (Py.range (n_chunks height chunk_size)).

Definition emitted (o : option Window) : list Window :=
  match o with Some w => [w] | None => [] end.

(** The windows the loop goes on to process, in the order of the loop. *)
Definition partition (height width chunk_size : Z) : list Window :=
  flat_map (fun ij => emitted (chunk_window height width chunk_size
                                            (fst ij) (snd ij)))
           (chunk_indices height width chunk_size).

(** Pixel [(r, c)] of the raster lies in window [w]. *)
Definition in_window (w : Window) (r c : Z) : Prop :=
  row_off w <= r < row_off w + height w /\
  col_off w <= c < col_off w + width w.

(** The chunk of size [chunk_size] at row [i] and column [j] of the grid
    of chunks, cut at the raster edge: what the loop is expected to emit
    for [(i, j)]. *)
Definition window_of (height width chunk_size i j : Z) : Window :=
  mkWindow (j * chunk_size) (i * chunk_size)
           (Z.min chunk_size (width - j * chunk_size))
           (Z.min chunk_size (height - i * chunk_size)).

(** The chunk that holds pixel [(r, c)]. *)
Definition window_at (height width chunk_size r c : Z) : Window :=
  window_of height width chunk_size (r / chunk_size) (c / chunk_size).

(** Ceiling of [a / b] for [b > 0], independent of [n_chunks]. *)
Definition ceil_div (a b : Z) : Z := - ((- a) / b).

End Partition.

(** ** NumPy arrays and reducers *)

Module Np.

(** A two-dimensional array: its shape and its content.  Only the pixels
    inside the shape are ever looked at. *)
Record ndarray (A : Type) : Type := mkArr
  { nrows : Z; ncols : Z; px : Z -> Z -> A }.
Arguments mkArr {A} nrows ncols px.
Arguments nrows {A} n.
Arguments ncols {A} n.
Arguments px {A} n r c.

Definition in_shape {A : Type} (a : ndarray A) (r c : Z) : Prop :=
  0 <= r < nrows a /\ 0 <= c < ncols a.

Definition shape {A : Type} (a : ndarray A) : Z * Z := (nrows a, ncols a).

(** [np.empty(shape)]: the block holds whatever the allocator hands out;
    [garbage] is that content. *)
Definition empty (garbage : Z -> Z -> float) (rows cols : Z) : ndarray float :=
  mkArr rows cols garbage.

(** [np.zeros(shape)]. *)
Definition zeros (rows cols : Z) : ndarray float :=
  mkArr rows cols (fun _ _ => 0%float).

(** Row-major list of the pixel positions of a shape. *)
Definition indices (rows cols : Z) : list (Z * Z) :=
  flat_map (fun r => map (fun c => (r, c)) (Py.range cols)) (Py.range rows).

Definition to_lists {A : Type} (a : ndarray A) : list (list A) :=
  map (fun r => map (fun c => px a r c) (Py.range (ncols a)))
      (Py.range (nrows a)).

(** [np.any(mask)] for a mask of the given shape. *)
Definition any (rows cols : Z) (mask : Z -> Z -> bool) : bool :=
  existsb (fun rc => mask (fst rc) (snd rc)) (indices rows cols).

(** [a[mask]]: the selected values, in row-major order. *)
Definition take {A : Type} (a : ndarray A) (mask : Z -> Z -> bool) : list A :=
  map (fun rc => px a (fst rc) (snd rc))
      (List.filter (fun rc => mask (fst rc) (snd rc))
                   (indices (nrows a) (ncols a))).

Definition isnan (x : float) : bool := PrimFloat.is_nan x.

(** [np.isin(x, values)] for one element: [==] against each value. *)
Definition isin (x : float) (values : list float) : bool :=
  existsb (fun v => PrimFloat.eqb x v) values.

(** [x != y] on floats ([True] when either is NaN). *)
Definition ne (x y : float) : bool := negb (PrimFloat.eqb x y).

(** The float of a count. *)
Definition of_Z (n : Z) : float := PrimFloat.of_uint63 (Uint63.of_Z n).

(** *** [float32]

    [x.astype(np.float32)] for one value: the binary32 number nearest to
    [x], ties to the even mantissa, an infinity beyond the range. *)
Definition binary32 (x : spec_float) : spec_float :=
  match x with
  | S754_finite s m e => binary_round 24 128 s m e
  | _ => x
  end.

Definition float32 (x : float) : float := SF2Prim (binary32 (Prim2SF x)).

Definition astype_float32 (a : ndarray float) : ndarray float :=
  mkArr (nrows a) (ncols a) (fun r c => float32 (px a r c)).

(** The operations of NumPy on [float32] values. *)
Definition add32 (x y : float) : float := float32 (PrimFloat.add x y).
Definition sub32 (x y : float) : float := float32 (PrimFloat.sub x y).
Definition mul32 (x y : float) : float := float32 (PrimFloat.mul x y).
Definition div32 (x y : float) : float := float32 (PrimFloat.div x y).
Definition sqrt32 (x : float) : float := float32 (PrimFloat.sqrt x).

(** *** Sums

    [np.add.reduce] over a contiguous one-dimensional array adds
    pairwise: fewer than eight values one after the other from -0.0, up
    to 128 values on eight accumulators, more than that in two halves,
    the first of a length that is a multiple of eight. *)
Section Pairwise.
Variable add : float -> float -> float.

Definition suma_corta (l : list float) : float :=
  fold_left add l PrimFloat.neg_zero.

(** The unrolled loop: eight values at a time onto the accumulators
    [r], as long as eight values are left. *)
Fixpoint acumular8 (fuel : nat) (r l : list float)
  : list float * list float :=
  match fuel with
  | O => (r, l)
  | S fuel' =>
    if (List.length l <? 8)%nat then (r, l)
    else acumular8 fuel'
                   (map (fun p => add (fst p) (snd p))
                        (combine r (firstn 8 l)))
                   (skipn 8 l)
  end.

Definition suma_bloque (l : list float) : float :=
  let '(r, resto) :=
    acumular8 (List.length l) (firstn 8 l) (skipn 8 l) in
  match r with
  | [r0; r1; r2; r3; r4; r5; r6; r7] =>
    fold_left add resto
              (add (add (add r0 r1) (add r2 r3))
                   (add (add r4 r5) (add r6 r7)))
  | _ => suma_corta l
  end.

Fixpoint pairwise_sum (fuel : nat) (l : list float) : float :=
  let n := List.length l in
  if (n <? 8)%nat then suma_corta l
  else if (n <=? 128)%nat then suma_bloque l
  else match fuel with
       | O => suma_bloque l
       | S fuel' =>
         let n2 := (n / 2 - (n / 2) mod 8)%nat in
         add (pairwise_sum fuel' (firstn n2 l))
             (pairwise_sum fuel' (skipn n2 l))
       end.

(** A reduction along axis 0 of a stack of bands adds band after
    band. *)
Definition suma_secuencial (l : list float) : float :=
  fold_left add l PrimFloat.neg_zero.

End Pairwise.

(** [np.sum] of a one-dimensional [float64] sequence. *)
Definition sum (l : list float) : float :=
  pairwise_sum PrimFloat.add (List.length l) l.

(** [np.mean] of a one-dimensional [float64] sequence: the sum divided
    by the count. *)
Definition mean (l : list float) : float :=
  PrimFloat.div (sum l) (of_Z (Z.of_nat (List.length l))).

(** The values that are not NaN, in order. *)
Definition dropna (l : list float) : list float :=
  List.filter (fun x => negb (isnan x)) l.

Fixpoint insert_sorted (x : float) (l : list float) : list float :=
  match l with
  | [] => [x]
  | y :: l' => if PrimFloat.leb x y then x :: l else y :: insert_sorted x l'
  end.

Definition sort (l : list float) : list float :=
  fold_right insert_sorted [] l.

(** *** The reducers of script 5, on the [float32] values of one pixel
    across the bands

    [np.nanmedian] along the band axis: NaN when every value is NaN;
    otherwise the values that are not NaN are sorted and the two middle
    ones (twice the middle one when their number is odd) are added and
    halved.  From 600 bands on NumPy takes the median of each pixel on
    its own, and the median of an odd number of values is then the
    middle one itself. *)
Definition nanmedian (l : list float) : float :=
  let v := sort (dropna l) in
  let n := List.length v in
  match n with
  | O => PrimFloat.nan
  | _ =>
    if (600 <=? List.length l)%nat && Nat.odd n
    then List.nth (n / 2) v PrimFloat.nan
    else div32 (add32 (List.nth ((n - 1) / 2) v PrimFloat.nan)
                      (List.nth (n / 2) v PrimFloat.nan))
               2%float
  end.

(** [np.fmin], [np.fmax] on two values that are not NaN. *)
Definition fmin (x y : float) : float := if PrimFloat.ltb y x then y else x.
Definition fmax (x y : float) : float := if PrimFloat.ltb x y then y else x.

(** [np.nanmin], [np.nanmax]: NaN only when every value is NaN. *)
Definition nanmin (l : list float) : float :=
  match dropna l with
  | [] => PrimFloat.nan
  | x :: v => fold_left fmin v x
  end.

Definition nanmax (l : list float) : float :=
  match dropna l with
  | [] => PrimFloat.nan
  | x :: v => fold_left fmax v x
  end.

(** [np.nanstd] with the default [ddof = 0].  NumPy puts 0 where the
    values are NaN, divides the sum by the number of values that are
    not NaN, takes the deviations from that mean (0 again where the
    value was NaN), and returns the square root of the sum of their
    squares over the same number; NaN when that number is 0.  [suma] is
    the reduction along the axis. *)
Definition nanstd (suma : list float -> float) (l : list float) : float :=
  match dropna l with
  | [] => PrimFloat.nan
  | v =>
    let cnt := of_Z (Z.of_nat (List.length v)) in
    let arr := map (fun x => if isnan x then 0%float else x) l in
    let avg := div32 (suma arr) cnt in
    let sqr := map (fun x => if isnan x then 0%float
                             else mul32 (sub32 x avg) (sub32 x avg)) l in
    sqrt32 (div32 (suma sqr) cnt)
  end.

(** The sum along axis 0 of a [float32] stack of bands of [rows x cols]
    pixels: band after band, and pairwise when the stack is a single
    column of values. *)
Definition suma_axis0 (rows cols : Z) (l : list float) : float :=
  if rows * cols =? 1 then pairwise_sum add32 (List.length l) l
  else suma_secuencial add32 l.

(** A reducer applied along axis 0 of [np.stack(bands, axis=0)]; the
    result has the shape of the members. *)
Definition along_axis0 (reducer : list float -> float)
           (bands : list (ndarray float)) : ndarray float :=
  match bands with
  | [] => mkArr 0 0 (fun _ _ => PrimFloat.nan)
  | b :: _ =>
    mkArr (nrows b) (ncols b)
          (fun r c => reducer (map (fun a => px a r c) bands))
  end.

(** [np.nanstd(stack, axis=0)]. *)
Definition nanstd_axis0 (bands : list (ndarray float)) : ndarray float :=
  match bands with
  | [] => mkArr 0 0 (fun _ _ => PrimFloat.nan)
  | b :: _ => along_axis0 (nanstd (suma_axis0 (nrows b) (ncols b))) bands
  end.

(** [np.stack(arrays, axis=0)]: every array must have the shape of the
    first one. *)
Definition stack (arrays : list (ndarray float))
  : Py.exc (list (ndarray float)) :=
  match arrays with
  | [] => Py.Raise Py.ValueError
  | b :: rest =>
    if forallb (fun a => (nrows a =? nrows b) && (ncols a =? ncols b)) rest
    then Py.Ok arrays
    else Py.Raise Py.ValueError
  end.

End Np.

(** ** The rasterio operations the scripts call

    None of them is code of the repository.  Each is a field of the class
    below, with the type of what rasterio returns; a call that raises is
    [Raise]. *)

Inductive Resampling : Type := nearest | bilinear.

(** A window as [rasterio.windows.from_bounds] returns it: real offsets
    and lengths. *)
Record FWindow : Type := mkFWindow
  { fcol_off : float; frow_off : float; fwidth : float; fheight : float }.

(** [(left, bottom, right, top)]. *)
Definition Bounds : Type := (float * float * float * float)%type.

Class Rasterio : Type := {
  CRS : Type;
  crs_eqb : CRS -> CRS -> bool;
  Affine : Type;
  (** [rasterio.windows.bounds(window, transform)] *)
  windows_bounds : Window -> Affine -> Py.exc Bounds;
  (** [rasterio.warp.transform_bounds(src_crs, dst_crs, l, b, r, t)] *)
  transform_bounds : CRS -> CRS -> Bounds -> Py.exc Bounds;
  (** [rasterio.windows.from_bounds(l, b, r, t, transform)] *)
  windows_from_bounds : Bounds -> Affine -> Py.exc FWindow;
  (** [Window.round_lengths()], [Window.round_offsets()] *)
  round_lengths : FWindow -> Py.exc FWindow;
  round_offsets : FWindow -> Py.exc Window;
  (** [rasterio.windows.intersect(w1, w2)]: whether the windows
      intersect, a [bool] *)
  windows_intersect : Window -> Window -> Py.exc bool;
  (** [rasterio.transform.from_bounds(l, b, r, t, width, height)] *)
  transform_from_bounds : Bounds -> Z -> Z -> Py.exc Affine;
  (** [reproject(source, destination, src_transform, src_crs,
      dst_transform, dst_crs, resampling)]: the content of [destination]
      after the call. *)
  reproject : Np.ndarray float -> Np.ndarray float -> Affine -> CRS ->
              Affine -> CRS -> Resampling -> Py.exc (Z -> Z -> float)
}.

(** An open dataset.  [ds_read band window] is the content of
    [src.read(band, window=window)], indexed from the window's corner. *)
Record Dataset `{Rasterio} (A : Type) : Type := mkDataset
  { ds_height : Z;
    ds_width : Z;
    ds_count : Z;
    ds_crs : CRS;
    ds_transform : Affine;
    ds_nodata : option float;
    ds_read : Z -> Window -> Py.exc (Z -> Z -> A) }.
Arguments mkDataset {_ A}.
Arguments ds_height {_ A} d.
Arguments ds_width {_ A} d.
Arguments ds_count {_ A} d.
Arguments ds_crs {_ A} d.
Arguments ds_transform {_ A} d.
Arguments ds_nodata {_ A} d.
Arguments ds_read {_ A} d band window.

(** [src.read(band, window=window)]: an array of the window's shape. *)
Definition read `{Rasterio} {A : Type} (src : Dataset A) (band : Z)
           (window : Window) : Py.exc (Np.ndarray A) :=
  try! f := ds_read src band window in
  Py.Ok (Np.mkArr (height window) (width window) f).



(** ** Script 6: MNC season maps aligned to the combined NDVI raster *)

Module Stage6.
Import Np Partition.

(** The content of the output file: [None] where nothing was written. *)
Definition Written : Type := Z -> Z -> Z -> option float.

Definition unwritten : Written := fun _ _ _ => None.

Definition EXCLUDE_VALUES : list float := [0%float; 255%float].
Definition CHUNK_SIZE : Z := 2000.

(** [dst.write(block, band, window=window)]. *)
Definition write (out : Written) (band : Z) (window : Window)
           (block : ndarray float) : Written :=
  fun b r c =>
    if (b =? band)
       && (row_off window <=? r) && (r <? row_off window + height window)
       && (col_off window <=? c) && (c <? col_off window + width window)
    then Some (px block (r - row_off window) (c - col_off window))
    else out b r c.

(** [mask = ~np.isin(chunk, EXCLUDE_VALUES)], and
    [mask & (chunk != nodata)] when the raster declares a nodata value;
    the chunk is a [float32] array and NumPy compares in [float32]. *)
Definition mask_valido (nodata : option float) (x : float) : bool :=
  negb (isin x EXCLUDE_VALUES)
  && match nodata with
     | Some nd => ne x (float32 nd)
     | None => true
     end.

(** [banda = np.zeros(shape); banda[mask] = 1.0]. *)
Definition banda_binaria (nodata : option float) (chunk : ndarray float)
  : ndarray float :=
  mkArr (nrows chunk) (ncols chunk)
        (fun r c => if mask_valido nodata (px chunk r c)
                    then 1%float else px (zeros (nrows chunk) (ncols chunk)) r c).

Section Script.
Context `{R : Rasterio}.

(** The three open inputs, the write failures of the output and the
    content of each fresh [np.empty] block ([true]: the winter block). *)
Variable src_ndvi : Dataset float.
Variable src_inv src_ver : Dataset float.
Variable write_fails : Z -> Window -> bool.
Variable heap : bool -> Window -> Z -> Z -> float.

Definition ref_crs : CRS := ds_crs src_ndvi.
Definition ref_transform : Affine := ds_transform src_ndvi.
Definition ref_width : Z := ds_width src_ndvi.
Definition ref_height : Z := ds_height src_ndvi.
Definition ref_count : Z := ds_count src_ndvi.

(** Lines 161-169 (200-208): what [inv_window] ([ver_window]) is bound
    to after the window of the season map under the bounds of the
    reference window is computed and handed to
    [rasterio.windows.intersect]. *)
Definition season_window (src : Dataset float) (bounds : Bounds)
  : Py.exc bool :=
  try! season_bounds := transform_bounds ref_crs (ds_crs src) bounds in
  try! w0 := windows_from_bounds season_bounds (ds_transform src) in
  try! w1 := round_lengths w0 in
  try! w2 := round_offsets w1 in
  windows_intersect w2 (mkWindow 0 0 (ds_width src) (ds_height src)).

(** Lines 171-197 (210-236): the season map on the grid of the
    reference window, [rows x cols] pixels.  The chunks are [float32]
    arrays. *)
Definition season_chunk (src : Dataset float) (garbage : Z -> Z -> float)
           (bounds : Bounds) (rows cols : Z) : Py.exc (ndarray float) :=
  try! cruzan := season_window src bounds in
  try! w := window_of_bool cruzan in
  if (0 <? width w) && (0 <? height w) then
    try! leido := read src 1 w in
    let chunk_raw := astype_float32 leido in
    try! w_bounds := windows_bounds w (ds_transform src) in
    try! src_transform :=
      transform_from_bounds w_bounds (width w) (height w) in
    try! dst_transform := transform_from_bounds bounds cols rows in
    let destination := empty garbage rows cols in
    try! f := reproject chunk_raw destination src_transform (ds_crs src)
                        dst_transform ref_crs nearest in
    Py.Ok (astype_float32 (mkArr rows cols f))
  else Py.Ok (zeros rows cols).

(** Lines 151-154: every band of the reference raster, in order. *)
Fixpoint leer_bandas (window : Window) (band_idxs : list Z)
  : Py.exc (list (ndarray float)) :=
  match band_idxs with
  | [] => Py.Ok []
  | band_idx :: rest =>
    try! banda := read src_ndvi band_idx window in
    try! bandas := leer_bandas window rest in
    Py.Ok (banda :: bandas)
  end.

Definition band_range : list Z := map (fun k => k + 1) (Py.range ref_count).

Definition inv_chunk (window : Window) (bounds : Bounds)
  : Py.exc (ndarray float) :=
  season_chunk src_inv (heap true window) bounds
               (height window) (width window).

Definition ver_chunk (window : Window) (bounds : Bounds)
  : Py.exc (ndarray float) :=
  season_chunk src_ver (heap false window) bounds
               (height window) (width window).

(** Lines 150-251: everything the window computes before it writes. *)
Definition calcular (window : Window)
  : Py.exc (list (ndarray float) * ndarray float * ndarray float) :=
  try! bandas_ndvi_chunk := leer_bandas window band_range in
  try! window_bounds := windows_bounds window ref_transform in
  try! inv := inv_chunk window window_bounds in
  try! ver := ver_chunk window window_bounds in
  let banda_inv_chunk := banda_binaria (ds_nodata src_inv) inv in
  let banda_ver_chunk := banda_binaria (ds_nodata src_ver) ver in
  Py.Ok (bandas_ndvi_chunk, banda_inv_chunk, banda_ver_chunk).

(** Lines 254-258: the writes, one after the other; the first that
    raises ends the window and leaves the earlier ones in the file. *)
Fixpoint escribir (out : Written) (window : Window)
         (bloques : list (Z * ndarray float)) : Written :=
  match bloques with
  | [] => out
  | (band_idx, bloque) :: rest =>
    if write_fails band_idx window then out
    else escribir (write out band_idx window bloque) window rest
  end.

Definition enumerate1 {A : Type} (l : list A) : list (Z * A) :=
  combine (map (fun k => k + 1) (Py.range (Z.of_nat (List.length l)))) l.

(** The body of the loop with its [try/except Exception]. *)
Definition procesar_ventana (chunk_size : Z) (out : Written) (ij : Z * Z)
  : Written :=
  match chunk_window ref_height ref_width chunk_size (fst ij) (snd ij) with
  | None => out
  | Some window =>
    match calcular window with
    | Py.Raise _ => out
    | Py.Ok (bandas_ndvi_chunk, banda_inv_chunk, banda_ver_chunk) =>
      escribir out window
               (enumerate1 bandas_ndvi_chunk
                ++ [(ref_count + 1, banda_inv_chunk);
                    (ref_count + 2, banda_ver_chunk)])
    end
  end.

(** Lines 276-279: the description of every band of the output. *)
Definition nombres_finales (nombres_bandas : list string) : list string :=
  nombres_bandas ++ ["invierno"; "verano"]%string.

(** The two nested loops over the chunks.  The counts of valid pixels
    (lines 244, 251) only feed the printed summary and are left out. *)
Definition procesar_ventanas (chunk_size : Z) : Written :=
  fold_left (procesar_ventana chunk_size)
            (chunk_indices ref_height ref_width chunk_size)
            unwritten.

Definition recortar_mnc_y_combinar : Written :=
  procesar_ventanas CHUNK_SIZE.

End Script.
End Stage6.

(** ** Script 2: mean NDVI per category *)

Module Stage2.
Import Np Partition.

Definition CHUNK_SIZE : Z := 2000.
Definition EXCLUDE_VALUES : list Z := [255; 0].

(** [cat_val in exclude_values]. *)
Definition excluded (exclude_values : list Z) (cat_val : Z) : bool :=
  existsb (Z.eqb cat_val) exclude_values.

(** Lines 237-239: [~np.isnan(x)], and [x != nodata] when the NDVI raster
    declares a nodata value; the chunk is a [float32] array and NumPy
    compares in [float32]. *)
Definition ndvi_valid (nodata : option float) (x : float) : bool :=
  negb (isnan x)
  && match nodata with
     | Some nd => ne x (float32 nd)
     | None => true
     end.

(** [x] is the NDVI value of a valid pixel of the window whose category
    is [cat_val]. *)
Definition es_muestra (nodata : option float) (inta_chunk : ndarray Z)
           (ndvi_chunk : ndarray float) (cat_val : Z) (x : float) : Prop :=
  exists r c, in_shape ndvi_chunk r c /\ px inta_chunk r c = cat_val /\
              ndvi_valid nodata (px ndvi_chunk r c) = true /\
              x = px ndvi_chunk r c.

(** Category [cat_val] matches a valid pixel of the window. *)
Definition coincide (nodata : option float) (inta_chunk : ndarray Z)
           (ndvi_chunk : ndarray float) (cat_val : Z) : Prop :=
  exists x, es_muestra nodata inta_chunk ndvi_chunk cat_val x.

(** [ndvi_chunk[mask]] for the mask of one category (lines 247, 251). *)
Definition muestras (nodata : option float) (inta_chunk : ndarray Z)
           (ndvi_chunk : ndarray float) (cat_val : Z) : list float :=
  take ndvi_chunk
       (fun r c => (px inta_chunk r c =? cat_val)
                   && ndvi_valid nodata (px ndvi_chunk r c)).

(** [resultados = defaultdict(list)]. *)
Abbreviation Resultados := (gmap Z (list float)).

(** [resultados[cat_val].extend(values)] on a [defaultdict(list)]. *)
Definition extend (resultados : Resultados) (cat_val : Z)
           (values : list float) : Resultados :=
  <[cat_val := default [] (resultados !! cat_val) ++ values]> resultados.

(** The accumulator holds a list for exactly the categories of [P], and
    every list is a non-empty list of values of [Q]. *)
Definition acumulado (P : Z -> Prop) (Q : Z -> float -> Prop)
           (resultados : Resultados) : Prop :=
  forall cat_val,
    (is_Some (resultados !! cat_val) <-> P cat_val) /\
    forall valores, resultados !! cat_val = Some valores ->
                    valores <> [] /\ List.Forall (Q cat_val) valores.

(** Lines 247-255, for one category of one window. *)
Definition acumular_categoria (exclude_values : list Z)
           (nodata : option float) (inta_chunk : ndarray Z)
           (ndvi_chunk : ndarray float)
           (resultados : Resultados) (cat_val : Z) : Resultados :=
  if excluded exclude_values cat_val then resultados
  else
    let mask := fun r c =>
      (px inta_chunk r c =? cat_val) && ndvi_valid nodata (px ndvi_chunk r c) in
    if any (nrows ndvi_chunk) (ncols ndvi_chunk) mask then
      let ndvi_values := take ndvi_chunk mask in
      let ndvi_values := dropna ndvi_values in
      if (0 <? Z.of_nat (List.length ndvi_values))
      then extend resultados cat_val ndvi_values
      else resultados
    else resultados.

(** Lines 242-255: [for cat_val in categorias]. *)
Definition acumular (categorias exclude_values : list Z)
           (nodata : option float) (inta_chunk : ndarray Z)
           (ndvi_chunk : ndarray float) (resultados : Resultados)
  : Resultados :=
  fold_left (acumular_categoria exclude_values nodata inta_chunk ndvi_chunk)
            categorias resultados.

(** Lines 270-275: the mean of every list of [resultados]. *)
Definition finalizar (resultados : Resultados) : gmap Z float :=
  (fun valores : list float =>
     if (0 <? Z.of_nat (List.length valores)) then mean valores
     else PrimFloat.nan) <$> resultados.

Section Script.
Context `{R : Rasterio}.

Variable src_inta : Dataset Z.
Variable src_ndvi : Dataset float.
Variable heap : Window -> Z -> Z -> float.

Definition necesita_reproyeccion : bool :=
  negb (crs_eqb (ds_crs src_inta) (ds_crs src_ndvi))
  || negb (ds_height src_inta =? ds_height src_ndvi)
  || negb (ds_width src_inta =? ds_width src_ndvi).

(** Lines 188-190. *)
Definition fuera_del_raster (w : Window) : bool :=
  (col_off w <? 0) || (row_off w <? 0)
  || (ds_width src_ndvi <? col_off w + width w)
  || (ds_height src_ndvi <? row_off w + height w).

(** Lines 163-198: the window of the NDVI raster under the bounds of
    the INTA window; [None] is a [pbar.update(1); continue]. *)
Definition ventana_ndvi (bounds : Bounds) : Py.exc (option Window) :=
  try! ndvi_bounds :=
    transform_bounds (ds_crs src_inta) (ds_crs src_ndvi) bounds in
  let '(ndvi_left, ndvi_bottom, ndvi_right, ndvi_top) := ndvi_bounds in
  if PrimFloat.leb ndvi_right ndvi_left || PrimFloat.leb ndvi_top ndvi_bottom
  then Py.Ok None
  else
    try! w0 := windows_from_bounds ndvi_bounds (ds_transform src_ndvi) in
    if PrimFloat.leb (fwidth w0) 0 || PrimFloat.leb (fheight w0) 0
    then Py.Ok None
    else
      try! w1 := round_lengths w0 in
      try! w2 := round_offsets w1 in
      if fuera_del_raster w2 then
        try! cruzan := windows_intersect
                         w2 (mkWindow 0 0 (ds_width src_ndvi)
                                      (ds_height src_ndvi)) in
        try! w3 := window_of_bool cruzan in
        if (width w3 <=? 0) || (height w3 <=? 0) then Py.Ok None
        else Py.Ok (Some w3)
      else Py.Ok (Some w2).

(** Line 216: the block [np.empty] allocates for the window. *)
Definition destino (window : Window) : ndarray float :=
  empty (heap window) (height window) (width window).

(** Lines 162-229, the body of the inner [try]. *)
Definition reproyectar (window : Window) (bounds : Bounds)
  : Py.exc (option (ndarray float)) :=
  try! located := ventana_ndvi bounds in
  match located with
  | None => Py.Ok None
  | Some ndvi_window =>
    try! leido := read src_ndvi 1 ndvi_window in
    let ndvi_raw := astype_float32 leido in
    try! ndvi_window_bounds :=
      windows_bounds ndvi_window (ds_transform src_ndvi) in
    try! src_transform :=
      transform_from_bounds ndvi_window_bounds
                            (width ndvi_window) (height ndvi_window) in
    try! dst_transform :=
      transform_from_bounds bounds (width window) (height window) in
    let destination := destino window in
    try! f := reproject ndvi_raw destination src_transform
                        (ds_crs src_ndvi) dst_transform (ds_crs src_inta)
                        bilinear in
    Py.Ok (Some (astype_float32 (mkArr (height window) (width window) f)))
  end.

(** The window of the NDVI raster under [bounds] is empty or sticks out
    of the raster: the reprojected bounds are degenerate, or the window
    computed from them has no width or no height, or the rounded window
    does not lie inside the raster (a window away from the raster among
    them). *)
Inductive fuente_vacia (bounds : Bounds) : Prop :=
| vacia_bounds (ndvi_bounds : Bounds) :
    transform_bounds (ds_crs src_inta) (ds_crs src_ndvi) bounds
      = Py.Ok ndvi_bounds ->
    (let '(ndvi_left, ndvi_bottom, ndvi_right, ndvi_top) := ndvi_bounds in
     PrimFloat.leb ndvi_right ndvi_left || PrimFloat.leb ndvi_top ndvi_bottom)
      = true ->
    fuente_vacia bounds
| vacia_from_bounds (ndvi_bounds : Bounds) (w0 : FWindow) :
    transform_bounds (ds_crs src_inta) (ds_crs src_ndvi) bounds
      = Py.Ok ndvi_bounds ->
    windows_from_bounds ndvi_bounds (ds_transform src_ndvi) = Py.Ok w0 ->
    PrimFloat.leb (fwidth w0) 0 || PrimFloat.leb (fheight w0) 0 = true ->
    fuente_vacia bounds
| vacia_fuera (ndvi_bounds : Bounds) (w0 w1 : FWindow) (w2 : Window) :
    transform_bounds (ds_crs src_inta) (ds_crs src_ndvi) bounds
      = Py.Ok ndvi_bounds ->
    windows_from_bounds ndvi_bounds (ds_transform src_ndvi) = Py.Ok w0 ->
    round_lengths w0 = Py.Ok w1 ->
    round_offsets w1 = Py.Ok w2 ->
    fuera_del_raster w2 = true ->
    fuente_vacia bounds.

(** Lines 147-234: the two aligned chunks of a window, [None] when the
    window is left ([continue], or an exception caught by either
    [except Exception]). *)
Definition leer_ventana (window : Window)
  : option (ndarray Z * ndarray float) :=
  match read src_inta 1 window with
  | Py.Raise _ => None
  | Py.Ok inta_chunk =>
    match windows_bounds window (ds_transform src_inta) with
    | Py.Raise _ => None
    | Py.Ok window_bounds =>
      if negb necesita_reproyeccion then
        match read src_ndvi 1 window with
        | Py.Raise _ => None
        | Py.Ok leido => Some (inta_chunk, astype_float32 leido)
        end
      else
        match reproyectar window window_bounds with
        | Py.Raise _ => None
        | Py.Ok None => None
        | Py.Ok (Some ndvi_chunk) => Some (inta_chunk, ndvi_chunk)
        end
    end
  end.

(** The body of the loop over the chunks. *)
Definition procesar_ventana (categorias exclude_values : list Z)
           (chunk_size : Z) (resultados : Resultados) (ij : Z * Z)
  : Resultados :=
  match chunk_window (ds_height src_inta) (ds_width src_inta) chunk_size
                     (fst ij) (snd ij) with
  | None => resultados
  | Some window =>
    match leer_ventana window with
    | None => resultados
    | Some (inta_chunk, ndvi_chunk) =>
      acumular categorias exclude_values (ds_nodata src_ndvi)
               inta_chunk ndvi_chunk resultados
    end
  end.

Definition acumular_ventanas (categorias exclude_values : list Z)
           (chunk_size : Z) : Resultados :=
  fold_left (procesar_ventana categorias exclude_values chunk_size)
            (chunk_indices (ds_height src_inta) (ds_width src_inta)
                           chunk_size)
            ∅.

(** Chunk [ij] is read and category [k] matches in it. *)
Definition coincide_en (categorias exclude_values : list Z)
           (chunk_size : Z) (ij : Z * Z) (k : Z) : Prop :=
  exists window inta_chunk ndvi_chunk,
    chunk_window (ds_height src_inta) (ds_width src_inta) chunk_size
                 (fst ij) (snd ij) = Some window /\
    leer_ventana window = Some (inta_chunk, ndvi_chunk) /\
    In k categorias /\ excluded exclude_values k = false /\
    coincide (ds_nodata src_ndvi) inta_chunk ndvi_chunk k.

(** The loop reaches [window] and reads the two chunks. *)
Definition ventana_leida (chunk_size : Z) (window : Window)
           (inta_chunk : ndarray Z) (ndvi_chunk : ndarray float) : Prop :=
  In window (partition (ds_height src_inta) (ds_width src_inta) chunk_size)
  /\ leer_ventana window = Some (inta_chunk, ndvi_chunk).

(** [x] is the NDVI value of a valid pixel of category [cat_val] in one
    of the windows that are read. *)
Definition muestra_del_raster (chunk_size cat_val : Z) (x : float) : Prop :=
  exists window inta_chunk ndvi_chunk,
    ventana_leida chunk_size window inta_chunk ndvi_chunk /\
    es_muestra (ds_nodata src_ndvi) inta_chunk ndvi_chunk cat_val x.

(** [cat_val] is a category of the call, is not excluded, and matches a
    valid NDVI pixel in at least one window that is read. *)
Definition coincide_en_raster (categorias exclude_values : list Z)
           (chunk_size cat_val : Z) : Prop :=
  In cat_val categorias /\ excluded exclude_values cat_val = false /\
  exists x, muestra_del_raster chunk_size cat_val x.

(** [procesar_ndvi_por_categoria] once both rasters are open.  The
    number of chunks is computed outside every [try]: a zero
    [chunk_size] raises. *)
Definition procesar_ndvi_por_categoria (categorias exclude_values : list Z)
           (chunk_size : Z) : Py.exc (gmap Z float) :=
  if chunk_size =? 0 then Py.Raise Py.ZeroDivisionError
  else Py.Ok (finalizar (acumular_ventanas categorias exclude_values
                                           chunk_size)).

End Script.

(** Lines 296-297: [[v for v in vals if v not in EXCLUDE_VALUES]]. *)
Definition categorias_validas (vals : list Z) : list Z :=
  List.filter (fun v => negb (excluded EXCLUDE_VALUES v)) vals.

(** One month of [main] (lines 318-341): the values appended to
    [ndvi_por_categoria], one per valid category.  When the call raises,
    NaN is appended for every category and the [del promedios] that
    follows finds the name unbound. *)
Definition procesar_mes `{R : Rasterio}
           (abrir_inta : Py.exc (Dataset Z))
           (abrir_ndvi : Py.exc (Dataset float))
           (heap : Window -> Z -> Z -> float)
           (categorias : list Z) : Py.exc (list float) :=
  match (try! src_inta := abrir_inta in
         try! src_ndvi := abrir_ndvi in
         procesar_ndvi_por_categoria src_inta src_ndvi heap
                                     categorias EXCLUDE_VALUES
                                     CHUNK_SIZE) with
  | Py.Ok promedios =>
    Py.Ok (map (fun cat => default PrimFloat.nan (promedios !! cat))
               categorias)
  | Py.Raise _ => Py.Raise Py.UnboundLocalError
  end.

End Stage2.

(** ** Script 5: the NDVI rasters stacked into one file *)

Module Stage5.
Import Np.

(** [data[data == nodata] = np.nan] on a [float32] array: NumPy compares
    in [float32]. *)
Definition a_nan (nodata : float) (data : ndarray float) : ndarray float :=
  mkArr (nrows data) (ncols data)
        (fun r c => if PrimFloat.eqb (px data r c) (float32 nodata)
                    then PrimFloat.nan else px data r c).

(** Lines 93-96. *)
Definition manejar_nodata (ref_nodata meta_nodata : option float)
           (data : ndarray float) : ndarray float :=
  match ref_nodata with
  | Some nd => a_nan nd data
  | None =>
    match meta_nodata with
    | Some nd => a_nan nd data
    | None => data
    end
  end.

Definition nombres_estadisticos : list string :=
  ["mediana"; "min"; "max"; "sd"]%string.

Section Script.
Context `{R : Rasterio}.

(** The metadata the script looks at, and a single-band file. *)
Record Meta : Type := mkMeta
  { m_height : Z; m_width : Z; m_crs : CRS; m_transform : Affine;
    m_nodata : option float }.

Record Archivo : Type := mkArchivo
  { a_meta : Meta; a_px : Z -> Z -> float }.

(** [leer_banda_ndvi(raster_path)]; the argument is what opening and
    reading the path gives. *)
Definition leer_banda_ndvi (archivo : Py.exc Archivo)
  : Py.exc (ndarray float * Meta) :=
  try! a := archivo in
  Py.Ok (mkArr (m_height (a_meta a)) (m_width (a_meta a)) (a_px a),
         a_meta a).

(** Lines 82-104: the files that can be read, with their band names.
    A file is given by the period in its name and its content. *)
Fixpoint leer_rasters (ref_nodata : option float)
         (archivos : list (string * Py.exc Archivo))
  : list (ndarray float * string) :=
  match archivos with
  | [] => []
  | (nombre, archivo) :: rest =>
    match leer_banda_ndvi archivo with
    | Py.Ok (data, meta) =>
      (manejar_nodata ref_nodata (m_nodata meta) (astype_float32 data),
       ("NDVI_" ++ nombre)%string)
        :: leer_rasters ref_nodata rest
    | Py.Raise _ => leer_rasters ref_nodata rest
    end
  end.

(** The shape of the band of a file, and a file that cannot be read or
    has the shape of [a]. *)
Definition forma (a : Archivo) : Z * Z :=
  (m_height (a_meta a), m_width (a_meta a)).

Definition misma_forma (a : Archivo) (f : string * Py.exc Archivo) : bool :=
  match snd f with
  | Py.Ok b => (fst (forma b) =? fst (forma a))
               && (snd (forma b) =? snd (forma a))
  | Py.Raise _ => true
  end.

(** The files that can be read, in the order of the input. *)
Fixpoint legibles (archivos : list (string * Py.exc Archivo))
  : list (string * Archivo) :=
  match archivos with
  | [] => []
  | (nombre, Py.Ok a) :: rest => (nombre, a) :: legibles rest
  | (_, Py.Raise _) :: rest => legibles rest
  end.

(** The band a readable file becomes in [datos_rasters], with its name. *)
Definition banda_de (ref_nodata : option float) (f : string * Archivo)
  : ndarray float * string :=
  (manejar_nodata ref_nodata (m_nodata (a_meta (snd f)))
                  (astype_float32
                     (mkArr (m_height (a_meta (snd f)))
                            (m_width (a_meta (snd f))) (a_px (snd f)))),
   ("NDVI_" ++ fst f)%string).

(** The file written at the end: its bands with their descriptions, in
    band order, and the geometry copied from the first input. *)
Record Combinado : Type := mkCombinado
  { bandas : list (string * ndarray float);
    meta_final : Meta }.

(** The whole script, lines 48-166. *)
Definition combinar_rasters_ndvi
           (ndvi_files : list (string * Py.exc Archivo))
  : Py.exc Combinado :=
  match ndvi_files with
  | [] => Py.Raise Py.IndexError
  | (_, primero) :: _ =>
    try! primer := leer_banda_ndvi primero in
    let primer_meta := snd primer in
    let ref_nodata := m_nodata primer_meta in
    let leidos := leer_rasters ref_nodata ndvi_files in
    let datos_rasters := map fst leidos in
    let nombres_validos := map snd leidos in
    match datos_rasters with
    | [] => Py.Raise (Py.SystemExit 1)
    | _ =>
      try! stack := Np.stack datos_rasters in
      let mediana := along_axis0 nanmedian stack in
      let minimo := along_axis0 nanmin stack in
      let maximo := along_axis0 nanmax stack in
      let desviacion := nanstd_axis0 stack in
      let bandas_finales :=
        [mediana; minimo; maximo; desviacion] ++ datos_rasters in
      let nombres_finales := nombres_estadisticos ++ nombres_validos in
      Py.Ok (mkCombinado
               (combine nombres_finales bandas_finales)
               (mkMeta (m_height primer_meta) (m_width primer_meta)
                       (m_crs primer_meta) (m_transform primer_meta)
                       (Some PrimFloat.nan)))
    end
  end.

End Script.
End Stage5.

(** ** Script 9: the clipped season rasters put before the NDVI bands *)

Module Stage9.
Import Np.

Section Script.
Context `{R : Rasterio}.

Variable existe_ndvi existe_invierno existe_verano : bool.
Variable src_ndvi src_inv src_ver : Dataset float.
(** The description of a band of the NDVI raster, or its ["Banda_i"]. *)
Variable nombre_banda : Z -> string.

(** Lines 109-112. *)
Definition dimensiones_distintas : bool :=
  negb (ds_width src_inv =? ds_width src_ndvi)
  || negb (ds_height src_inv =? ds_height src_ndvi)
  || negb (ds_width src_ver =? ds_width src_ndvi)
  || negb (ds_height src_ver =? ds_height src_ndvi).

(** Lines 114-116. *)
Definition crs_distintos : bool :=
  negb (crs_eqb (ds_crs src_inv) (ds_crs src_ndvi))
  || negb (crs_eqb (ds_crs src_ver) (ds_crs src_ndvi)).

(** [src.read(band)]: the whole band. *)
Definition read_all (src : Dataset float) (band : Z)
  : Py.exc (ndarray float) :=
  read src band (mkWindow 0 0 (ds_width src) (ds_height src)).

(** Lines 129-133 (139-143). *)
Definition leer_recorte (src : Dataset float) : Py.exc (ndarray float) :=
  try! leido := read_all src 1 in
  let banda := astype_float32 leido in
  match ds_nodata src with
  | Some nd => Py.Ok (Stage5.a_nan nd banda)
  | None => Py.Ok banda
  end.

(** Lines 150-160; [np.isnan(None)] raises. *)
Fixpoint leer_bandas_ndvi (band_idxs : list Z)
  : Py.exc (list (ndarray float)) :=
  match band_idxs with
  | [] => Py.Ok []
  | i :: rest =>
    try! leido := read_all src_ndvi i in
    let banda := astype_float32 leido in
    try! banda := match ds_nodata src_ndvi with
                  | Some nd => Py.Ok (Stage5.a_nan nd banda)
                  | None => Py.Raise Py.TypeError
                  end in
    try! bandas := leer_bandas_ndvi rest in
    Py.Ok (banda :: bandas)
  end.

Definition band_range : list Z :=
  map (fun k => k + 1) (Py.range (ds_count src_ndvi)).

(** The whole script: the bands of the output with their names. *)
Definition combinar_recortes_con_ndvi
  : Py.exc (list (string * ndarray float)) :=
  if negb existe_ndvi || negb existe_invierno || negb existe_verano
  then Py.Raise (Py.SystemExit 1)
  else if dimensiones_distintas then Py.Raise (Py.SystemExit 1)
  else if crs_distintos then Py.Raise (Py.SystemExit 1)
  else
    try! banda_invierno := leer_recorte src_inv in
    try! banda_verano := leer_recorte src_ver in
    try! bandas_ndvi := leer_bandas_ndvi band_range in
    Py.Ok (combine (["invierno"; "verano"]%string
                      ++ map nombre_banda band_range)
                   ([banda_invierno; banda_verano] ++ bandas_ndvi)).

End Script.
End Stage9.

(** ** A rasterio for the examples

    Every raster of the examples lies on one grid of unit pixels with a
    single CRS family; a transform is the position [(col, row)] of a
    raster's corner on that grid, the [y] coordinate of row [r] is [-r],
    and a warp initialises the destination to 0.0 and copies the source
    pixel that lies under a destination pixel.  It is used to run the
    scripts on small inputs, nowhere else. *)

Module UnitGrid.
Import Np.

Definition to_float (z : Z) : float :=
  if z <? 0 then PrimFloat.opp (Np.of_Z (- z)) else Np.of_Z z.

(** The integer below a float; [None] for NaN and the infinities. *)
Definition floor (x : float) : option Z :=
  match Prim2SF x with
  | S754_zero _ => Some 0
  | S754_finite s m e =>
    let v := if 0 <=? e then Z.pos m * 2 ^ e
             else if s then - ((- Z.pos m) / 2 ^ (- e))
                  else Z.pos m / 2 ^ (- e) in
    Some (if s then - v else v)
  | _ => None
  end.

Definition floor_exc (x : float) : Py.exc Z :=
  match floor x with
  | Some z => Py.Ok z
  | None => Py.Raise Py.ValueError
  end.

Definition bounds_of (w : Window) (corner : Z * Z) : Bounds :=
  (to_float (fst corner + col_off w),
   to_float (- (snd corner + row_off w + height w)),
   to_float (fst corner + col_off w + width w),
   to_float (- (snd corner + row_off w))).

Definition window_under (b : Bounds) (corner : Z * Z) : FWindow :=
  let '(west, south, east, north) := b in
  mkFWindow (PrimFloat.sub west (to_float (fst corner)))
            (PrimFloat.sub (PrimFloat.opp north) (to_float (snd corner)))
            (PrimFloat.sub east west) (PrimFloat.sub north south).

Definition rounded (w : FWindow) : Py.exc Window :=
  try! c := floor_exc (fcol_off w) in
  try! r := floor_exc (frow_off w) in
  try! wd := floor_exc (fwidth w) in
  try! h := floor_exc (fheight w) in
  Py.Ok (mkWindow c r wd h).

(** Whether two windows have a pixel in common. *)
Definition cruzan (w1 w2 : Window) : bool :=
  (Z.max (col_off w1) (col_off w2)
   <? Z.min (col_off w1 + width w1) (col_off w2 + width w2))
  && (Z.max (row_off w1) (row_off w2)
      <? Z.min (row_off w1 + height w1) (row_off w2 + height w2)).

Definition corner_of (b : Bounds) (wd h : Z) : Py.exc (Z * Z) :=
  let '(west, south, east, north) := b in
  if (wd =? 0) || (h =? 0) then Py.Raise Py.ZeroDivisionError
  else
    try! c := floor_exc west in
    try! r := floor_exc (PrimFloat.opp north) in
    Py.Ok (c, r).

(** A source pixel lies under pixel [(r, c)] of the destination. *)
Definition under (source : ndarray float) (src_corner dst_corner : Z * Z)
           (r c : Z) : bool :=
  let sr := r + snd dst_corner - snd src_corner in
  let sc := c + fst dst_corner - fst src_corner in
  (0 <=? sr) && (sr <? nrows source) && (0 <=? sc) && (sc <? ncols source).

(** The destination after the warp: the source pixel where there is
    one, 0.0 elsewhere, whatever the block held. *)
Definition copy_under (source : ndarray float)
           (src_corner dst_corner : Z * Z) : Z -> Z -> float :=
  fun r c =>
    let sr := r + snd dst_corner - snd src_corner in
    let sc := c + fst dst_corner - fst src_corner in
    if under source src_corner dst_corner r c
    then px source sr sc
    else 0%float.

#[export] Instance rasterio : Rasterio :=
  {| CRS := Z;
     crs_eqb := Z.eqb;
     Affine := Z * Z;
     windows_bounds := fun w t => Py.Ok (bounds_of w t);
     transform_bounds := fun _ _ b => Py.Ok b;
     windows_from_bounds := fun b t => Py.Ok (window_under b t);
     round_lengths := fun w => Py.Ok w;
     round_offsets := rounded;
     windows_intersect := fun w1 w2 => Py.Ok (cruzan w1 w2);
     transform_from_bounds := corner_of;
     reproject := fun source _ st _ dt _ _ =>
                    Py.Ok (copy_under source st dt) |}.

(** A raster of the grid: its corner, its size and its pixels. *)
Definition raster {A : Type} (corner : Z * Z) (h wd : Z) (crs : Z)
           (nodata : option float) (pixels : Z -> Z -> A) : Dataset A :=
  mkDataset h wd 1 crs corner nodata
            (fun _ w => Py.Ok (fun r c => pixels (row_off w + r) (col_off w + c))).

(** The pixels of a raster given as the list of its rows. *)
Definition of_rows {A : Type} (d : A) (rows : list (list A)) : Z -> Z -> A :=
  fun r c => List.nth (Z.to_nat c) (List.nth (Z.to_nat r) rows []) d.

End UnitGrid.

(** ** Small rasters for the examples *)

Module Ejemplos.
Import Np UnitGrid.

(** A reference raster of 2 x 2 pixels, one band, NaN as nodata. *)
Definition t_ref : Dataset float :=
  raster (0, 0) 2 2 0 (Some PrimFloat.nan) (fun _ _ => 0.5%float).

(** A season map of 2 x 2 pixels of code 5, one column to the right of
    the reference raster: it lies under its second column only. *)
Definition t_inv : Dataset float :=
  raster (1, 0) 2 2 0 None (fun _ _ => 5%float).

(** A season map away from the reference raster. *)
Definition t_ver : Dataset float :=
  raster (5, 5) 2 2 0 None (fun _ _ => 3%float).

Definition ventana : Window := mkWindow 0 0 2 2.
Definition limites : Bounds := bounds_of ventana (0, 0).

Definition nunca_falla : Z -> Window -> bool := fun _ _ => false.
Definition basura (x : float) : bool -> Window -> Z -> Z -> float :=
  fun _ _ _ _ => x.

(** A category raster and two NDVI rasters, 1 x 2 pixels. *)
Definition t_inta : Dataset Z :=
  raster (0, 0) 1 2 0 None (fun _ _ => 1).

Definition t_ndvi : Dataset float :=
  raster (0, 0) 1 2 0 None (fun _ _ => 0.5%float).

Definition t_ndvi_inf : Dataset float :=
  raster (0, 0) 1 2 0 None
         (of_rows 0%float [[PrimFloat.infinity; PrimFloat.neg_infinity]]).

(** The two bands of 2 x 2 pixels of scenario B, and a band of the same
    size on another grid. *)
Definition meta_b : Stage5.Meta := Stage5.mkMeta 2 2 0 (0, 0) None.

Definition banda_1 : Stage5.Archivo :=
  Stage5.mkArchivo meta_b (of_rows 0%float [[1; 2]; [3; 4]]%float).

Definition banda_2 : Stage5.Archivo :=
  Stage5.mkArchivo
    meta_b (of_rows 0%float [[PrimFloat.nan; 2]; [3; 6]]%float).

(** The arrays of the two bands. *)
Definition b1 : ndarray float :=
  mkArr 2 2 (of_rows 0%float [[1; 2]; [3; 4]]%float).

Definition b2 : ndarray float :=
  mkArr 2 2 (of_rows 0%float [[PrimFloat.nan; 2]; [3; 6]]%float).

Definition banda_otra_grilla : Stage5.Archivo :=
  Stage5.mkArchivo (Stage5.mkMeta 2 2 1 (40, 40) None)
                   (of_rows 0%float [[9; 9]; [9; 9]]%float).

(** An NDVI raster of another size, away from the category raster. *)
Definition t_ndvi_lejos : Dataset float :=
  raster (7, 7) 3 3 0 None (fun _ _ => 0.5%float).

End Ejemplos.

(** ** Script 2: the category table of a QML file *)

Module Stage2Qml.
Import Ascii.

(** The attributes of an [<item>] element that the parser reads;
    [None] is an attribute the element does not have. *)
Record Item : Type := mkItem
  { label : option string; value : option string; color : option string }.

(** The truth value of [it.get(...)]: neither [None] nor the empty
    string. *)
Definition truthy (s : option string) : bool :=
  match s with
  | Some (String _ _) => true
  | _ => false
  end.

(** [c in s] for a character. *)
Fixpoint contiene (c : ascii) (s : string) : bool :=
  match s with
  | EmptyString => false
  | String x s' => Ascii.eqb x c || contiene c s'
  end.

(** [s.split(sep)] for a separator of one character. *)
Fixpoint split (sep : ascii) (s : string) : list string :=
  match s with
  | EmptyString => [EmptyString]
  | String x s' =>
    if Ascii.eqb x sep then EmptyString :: split sep s'
    else match split sep s' with
         | campo :: resto => String x campo :: resto
         | [] => [String x EmptyString]
         end
  end.

(** A row [(value, colour, label)] of [zip(vals, hex_colors, labels)]. *)
Definition Fila : Type := (Z * string * string)%type.

Definition valor (t : Fila) : Z := fst (fst t).

(** [sorted(rows, key=lambda t: t[0])]: ascending by value, the rows of
    one value in their order of arrival (Python's sort is stable). *)
Fixpoint insertar (t : Fila) (l : list Fila) : list Fila :=
  match l with
  | [] => [t]
  | u :: l' => if valor t <=? valor u then t :: l else u :: insertar t l'
  end.

Definition sorted_por_valor (l : list Fila) : list Fila :=
  fold_right insertar [] l.

Section Parser.

(** Two conversions of Python that are not code of the repository:
    [int(float(value))], which can raise, and the body of the inner
    [try] (lines 81-83), which turns each of the parts into an [int]
    and formats the three as two hexadecimal digits each after a hash
    sign; [None] when it raises. *)
Variable int_float : string -> Py.exc Z.
Variable hex_de_rgb : list string -> option string.

(** Lines 75-87: the colour appended for an item. *)
Definition color_hex (color : option string) : string :=
  match color with
  | None => "#888888"%string
  | Some c =>
    if String.prefix "#" c then c
    else if contiene ","%char c then
      match hex_de_rgb (firstn 3 (split ","%char c)) with
      | Some h => h
      | None => "#888888"%string
      end
    else "#888888"%string
  end.

(** An item that has a label and a value. *)
Definition con_datos (it : Item) : bool :=
  truthy (label it) && truthy (value it).

(** Lines 66-87: the loop over the items. *)
Fixpoint leer_items (items : list Item) : Py.exc (list Fila) :=
  match items with
  | [] => Py.Ok []
  | it :: rest =>
    match label it, value it with
    | Some l, Some v =>
      if con_datos it then
        try! n := int_float v in
        try! filas := leer_items rest in
        Py.Ok ((n, color_hex (color it), l) :: filas)
      else leer_items rest
    | _, _ => leer_items rest
    end
  end.

(** An item and the row it becomes. *)
Definition fila_de (it : Item) (t : Fila) : Prop :=
  exists l v, label it = Some l /\ value it = Some v /\
              int_float v = Py.Ok (valor t) /\ snd t = l /\
              snd (fst t) = color_hex (color it).

(** [parsear_categorias_qml]; the argument is what parsing the file and
    iterating over its items gives.  The result is
    [(vals, labels, hex_colors)]; the unpacking of the transposed
    rows into three names (line 91) raises when there is no row. *)
Definition parsear_categorias_qml (arbol : Py.exc (list Item))
  : Py.exc (list Z * list string * list string) :=
  try! items := arbol in
  try! filas := leer_items items in
  match sorted_por_valor filas with
  | [] => Py.Raise Py.ValueError
  | z => Py.Ok (map valor z, map snd z, map (fun t => snd (fst t)) z)
  end.

End Parser.
End Stage2Qml.

(** ** Script 2: the samples of a category, window by window *)

Module Stage2Muestras.
Import Np Partition Stage2.

Section Script.
Context `{R : Rasterio}.
Variable src_inta : Dataset Z.
Variable src_ndvi : Dataset float.
Variable heap : Window -> Z -> Z -> float.

(** The valid NDVI values of category [cat_val] in chunk [ij], in
    row-major order; none when the chunk has no extent or is left
    unread. *)
Definition muestras_ventana (chunk_size : Z) (ij : Z * Z) (cat_val : Z)
  : list float :=
  match chunk_window (ds_height src_inta) (ds_width src_inta) chunk_size
                     (fst ij) (snd ij) with
  | None => []
  | Some window =>
    match leer_ventana src_inta src_ndvi heap window with
    | None => []
    | Some (inta_chunk, ndvi_chunk) =>
      muestras (ds_nodata src_ndvi) inta_chunk ndvi_chunk cat_val
    end
  end.

(** The same over the whole raster, the chunks in the order of the
    loop. *)
Definition muestras_raster (chunk_size cat_val : Z) : list float :=
  flat_map (fun ij => muestras_ventana chunk_size ij cat_val)
           (chunk_indices (ds_height src_inta) (ds_width src_inta)
                          chunk_size).

End Script.
End Stage2Muestras.

(** ** Script 2: the loops of [main] over the months *)

Module Stage2Main.
Import Stage2.

(** The exceptions that can leave a loop of [main]. *)
Inductive error : Type := UnboundLocalError | KeyError.

Inductive paso (A : Type) : Type :=
| Sigue (a : A)
| Sale (e : error).
Arguments Sigue {A} a.
Arguments Sale {A} e.

(** [ndvi_por_categoria]: a list of monthly values per category. *)
Abbreviation Series := (gmap Z (list float)).

(** Lines 303-304: [{cat: [] for cat in categorias}]. *)
Definition series_vacias (categorias : list Z) : Series :=
  fold_left (fun d cat => <[cat := []]> d) categorias ∅.

(** [for cat in categorias: d[cat].append(valor(cat))]: the dict when
    the loop ends, and whether it ended on a missing key. *)
Fixpoint guardar (valor : Z -> float) (categorias : list Z) (d : Series)
  : Series * bool :=
  match categorias with
  | [] => (d, false)
  | cat :: rest =>
    match d !! cat with
    | Some l => guardar valor rest (<[cat := l ++ [valor cat]]> d)
    | None => (d, true)
    end
  end.

(** The locals of [main] a loop works on: the series of the season, and
    [promedios], [None] while the name is unbound. *)
Record Locales : Type := mkLocales
  { ndvi_por_categoria : Series; promedios : option (gmap Z float) }.

(** Lines 318-337 (359-378): the [try] and its [except Exception]. *)
Definition intentar (categorias : list Z) (llamada : Py.exc (gmap Z float))
           (st : Locales) : paso Locales :=
  match llamada with
  | Py.Ok p =>
    let '(d, falta) :=
      guardar (fun cat => default PrimFloat.nan (p !! cat)) categorias
              (ndvi_por_categoria st) in
    if falta then
      let '(d', falta') := guardar (fun _ => PrimFloat.nan) categorias d in
      if falta' then Sale KeyError else Sigue (mkLocales d' (Some p))
    else Sigue (mkLocales d (Some p))
  | Py.Raise _ =>
    let '(d', falta') :=
      guardar (fun _ => PrimFloat.nan) categorias (ndvi_por_categoria st) in
    if falta' then Sale KeyError else Sigue (mkLocales d' (promedios st))
  end.

(** Lines 314-341 (355-382): one turn of the loop, which ends with
    [del promedios]. *)
Definition mes (categorias : list Z) (llamada : Py.exc (gmap Z float))
           (st : Locales) : paso Locales :=
  match intentar categorias llamada st with
  | Sale e => Sale e
  | Sigue st' =>
    match promedios st' with
    | Some _ => Sigue (mkLocales (ndvi_por_categoria st') None)
    | None => Sale UnboundLocalError
    end
  end.

Fixpoint meses (categorias : list Z) (llamadas : list (Py.exc (gmap Z float)))
         (st : Locales) : paso Locales :=
  match llamadas with
  | [] => Sigue st
  | llamada :: rest =>
    match mes categorias llamada st with
    | Sigue st' => meses categorias rest st'
    | Sale e => Sale e
    end
  end.

Section Main.
Context `{R : Rasterio}.

(** What a month gives to the call: the result of opening the category
    raster, the result of opening the NDVI raster of the month, and the
    content of the blocks [np.empty] hands out during the call. *)
Definition Mes : Type :=
  (Py.exc (Dataset Z) * Py.exc (Dataset float)
   * (Window -> Z -> Z -> float))%type.

(** Lines 319-323 (360-364): the call of one month. *)
Definition llamada (categorias : list Z) (m : Mes)
  : Py.exc (gmap Z float) :=
  try! src_inta := fst (fst m) in
  try! src_ndvi := snd (fst m) in
  procesar_ndvi_por_categoria src_inta src_ndvi (snd m)
                              categorias EXCLUDE_VALUES CHUNK_SIZE.

(** The value a month appends for a category when its call returns:
    the mean of the month, NaN when the category has no key. *)
Definition valor_del_mes (categorias : list Z) (cat : Z) (m : Mes) : float :=
  match llamada categorias m with
  | Py.Ok p => default PrimFloat.nan (p !! cat)
  | Py.Raise _ => PrimFloat.nan
  end.

(** The loop of one season, entered with [promedios] as [promedios0]. *)
Definition temporada (categorias : list Z) (archivos : list Mes)
           (promedios0 : option (gmap Z float)) : paso Locales :=
  meses categorias (map (llamada categorias) archivos)
        (mkLocales (series_vacias categorias) promedios0).

(** [main], lines 296-382, once the two category tables are parsed: the
    series of the winter and of the summer categories. *)
Definition main (vals_inv vals_ver : list Z)
           (archivos_inv archivos_ver : list Mes) : paso (Series * Series) :=
  let categorias_inv_validas := categorias_validas vals_inv in
  let categorias_ver_validas := categorias_validas vals_ver in
  match temporada categorias_inv_validas archivos_inv None with
  | Sale e => Sale e
  | Sigue st_inv =>
    match temporada categorias_ver_validas archivos_ver
                    (promedios st_inv) with
    | Sale e => Sale e
    | Sigue st_ver =>
      Sigue (ndvi_por_categoria st_inv, ndvi_por_categoria st_ver)
    end
  end.

End Main.
End Stage2Main.

(** ** Script 5: the values that count at a pixel *)

Module Stage5Datos.
Import Np Stage5.

(** A value of a file that, as a [float32] number, is neither NaN nor
    equal to the nodata value. *)
Definition es_dato (nodata : option float) (x : float) : bool :=
  negb (isnan (float32 x))
  && match nodata with
     | Some nd => negb (PrimFloat.eqb (float32 x) (float32 nd))
     | None => true
     end.

Section Script.
Context `{R : Rasterio}.

(** Lines 93-96: the nodata value applied to a file, the one of the
    first file when it declares one. *)
Definition nodata_aplicado (primero f : Archivo) : option float :=
  match m_nodata (a_meta primero) with
  | Some nd => Some nd
  | None => m_nodata (a_meta f)
  end.

(** The [float32] values of pixel [(r, c)] across the files, without
    those that are NaN or nodata. *)
Definition datos_pixel (primero : Archivo) (archivos : list (string * Archivo))
           (r c : Z) : list float :=
  flat_map (fun f =>
              if es_dato (nodata_aplicado primero (snd f)) (a_px (snd f) r c)
              then [float32 (a_px (snd f) r c)] else [])
           archivos.

(** The same with NaN in the place of a value that is NaN or nodata:
    the pixel across the bands of the stack. *)
Definition valores_pixel (primero : Archivo)
           (archivos : list (string * Archivo)) (r c : Z) : list float :=
  map (fun f =>
         if es_dato (nodata_aplicado primero (snd f)) (a_px (snd f) r c)
         then float32 (a_px (snd f) r c) else PrimFloat.nan)
      archivos.

End Script.
End Stage5Datos.

(** ** Script 9: a band of the NDVI raster in the output *)

Module Stage9Bandas.
Import Np Stage9.

(** The value the script keeps for a pixel of a band it has read: the
    [float32] number nearest to the value of the file, and NaN in its
    place when that number is equal to the nodata value of the raster
    as a [float32] number. *)
Definition guardado (nodata : option float) (x : float) : float :=
  match nodata with
  | Some nd => if PrimFloat.eqb (float32 x) (float32 nd)
               then PrimFloat.nan else float32 x
  | None => float32 x
  end.

(** [banda] has the shape of [raw] and holds, pixel by pixel, the values
    the script keeps. *)
Definition banda_guardada (nodata : option float) (raw banda : ndarray float)
  : Prop :=
  shape banda = shape raw /\
  forall r c, px banda r c = guardado nodata (px raw r c).

Section Script.
Context `{R : Rasterio}.
Variable src_ndvi : Dataset float.

(** Lines 151-155: band [i] as the script keeps it. *)
Definition banda_leida (i : Z) (banda : ndarray float) : Prop :=
  exists nd raw, ds_nodata src_ndvi = Some nd /\
                 read_all src_ndvi i = Py.Ok raw /\
                 banda_guardada (Some nd) raw banda.

End Script.
End Stage9Bandas.

(** ** More small inputs *)

Module Casos.
Import Np UnitGrid Ejemplos Stage2Qml Stage2Main.

(** A category table of four items: one with a colour in hexadecimal,
    one without a label, one without a colour, one with a colour given
    as numbers; and conversions that know its strings. *)
Definition items_qml : list Item :=
  [mkItem (Some "Soja") (Some "2") (Some "#00ff00");
   mkItem None (Some "7") (Some "#ffffff");
   mkItem (Some "Maiz") (Some "1.0") None;
   mkItem (Some "Trigo") (Some "2") (Some "255,0,0,255")]%string.

Definition int_float_qml (s : string) : Py.exc Z :=
  if String.eqb s "2" then Py.Ok 2
  else if String.eqb s "1.0" then Py.Ok 1
  else if String.eqb s "7" then Py.Ok 7
  else Py.Raise Py.ValueError.

Definition hex_de_rgb_qml (parts : list string) : option string :=
  match parts with
  | [rojo; verde; azul] =>
    if String.eqb rojo "255" && String.eqb verde "0" && String.eqb azul "0"
    then Some "#ff0000"%string else None
  | _ => None
  end.

(** Two contents of the blocks [np.empty] hands out. *)
Definition heap_ceros : Window -> Z -> Z -> float := fun _ _ _ => 0%float.
Definition heap_sietes : Window -> Z -> Z -> float := fun _ _ _ => 7%float.

(** Items without a label or without a value. *)
Definition items_sin_datos : list Item :=
  [mkItem None (Some "7") (Some "#ffffff");
   mkItem (Some "") (Some "3") None;
   mkItem (Some "Soja") None None]%string.


(** A month whose rasters open, and one whose NDVI raster does not. *)
Definition mes_bueno : Mes (R := UnitGrid.rasterio) :=
  (Py.Ok t_inta, Py.Ok t_ndvi, fun _ _ _ => 0%float).

Definition mes_roto : Mes (R := UnitGrid.rasterio) :=
  (Py.Ok t_inta, Py.Raise Py.IOError, fun _ _ _ => 0%float).

(** A clipped raster of 1 x 2 pixels whose first value, 16777217, is not
    a [float32] number: it becomes 16777216, the nodata value.  And an
    NDVI raster of that size with NaN as nodata. *)
Definition t_recorte : Dataset float :=
  raster (0, 0) 1 2 0 (Some 16777216%float)
         (of_rows 0%float [[16777217; 5]]%float).

Definition t_ndvi_nan : Dataset float :=
  raster (0, 0) 1 2 0 (Some PrimFloat.nan) (fun _ _ => 0.5%float).

(** A category raster and an NDVI raster of 1 x 8 pixels: one category,
    and eight values whose sum depends on the order of the additions. *)
Definition t_inta_8 : Dataset Z :=
  raster (0, 0) 1 8 0 None (fun _ _ => 1).

Definition t_ndvi_8 : Dataset float :=
  raster (0, 0) 1 8 0 None
         (of_rows 0%float [[9007199254740992; 1; 1; 1; 1; 1; 1; 1]]%float).





(** A band whose file declares 3 as its nodata value. *)
Definition banda_con_nodata : Stage5.Archivo :=
  Stage5.mkArchivo (Stage5.mkMeta 2 2 0 (0, 0) (Some 3%float))
                   (of_rows 0%float [[1; 2]; [3; 4]]%float).

End Casos.

(** ** The order of the floats as an order of integers

    A key on which the comparison of two values that are not NaN is
    the lexicographic order of three integers. *)

Module Orden.

Definition clave (a : spec_float) : Z * Z * Z :=
  match a with
  | S754_infinity true => (-2, 0, 0)
  | S754_finite true m e => (-1, - e, - Z.pos m)
  | S754_zero _ => (0, 0, 0)
  | S754_finite false m e => (1, e, Z.pos m)
  | S754_infinity false => (2, 0, 0)
  | S754_nan => (3, 0, 0)
  end.

Definition lex (p q : Z * Z * Z) : Prop :=
  fst (fst p) < fst (fst q)
  \/ (fst (fst p) = fst (fst q)
      /\ (snd (fst p) < snd (fst q)
          \/ (snd (fst p) = snd (fst q) /\ snd p <= snd q))).

End Orden.

(** ** The four statistics, in words

    What a minimum, a maximum, a median and a population standard
    deviation of [float32] values are, stated apart from the reducers
    of [Np]. *)

Module Estadisticos.
Import Np.

Definition menor_o_igual (x y : float) : Prop := PrimFloat.leb x y = true.

(** [v] is one of the values and none is smaller (larger). *)
Definition es_minimo (datos : list float) (v : float) : Prop :=
  In v datos /\ List.Forall (fun x => menor_o_igual v x) datos.

Definition es_maximo (datos : list float) (v : float) : Prop :=
  In v datos /\ List.Forall (fun x => menor_o_igual x v) datos.

(** [v] is the half of the sum of the two middle values of the data put
    in ascending order; with an odd number of values the two are the
    same one. *)
Definition es_mediana (datos : list float) (v : float) : Prop :=
  exists ordenados,
    Permutation ordenados datos /\
    StronglySorted menor_o_igual ordenados /\
    v = div32 (add32 (List.nth ((List.length datos - 1) / 2) ordenados
                               PrimFloat.nan)
                     (List.nth (List.length datos / 2) ordenados
                               PrimFloat.nan))
              2%float.

(** [v] is the middle one of an odd number of data put in ascending
    order. *)
Definition es_central (datos : list float) (v : float) : Prop :=
  exists ordenados,
    Permutation ordenados datos /\
    StronglySorted menor_o_igual ordenados /\
    Nat.odd (List.length datos) = true /\
    v = List.nth (List.length datos / 2) ordenados PrimFloat.nan.

(** [v] is the square root of the mean squared deviation from the mean,
    over the [n] values of [valores] that are not NaN; a NaN adds 0.0 to
    either sum.  [suma] adds the terms in the order of the reduction. *)
Definition es_desviacion (suma : list float -> float)
           (valores : list float) (v : float) : Prop :=
  exists n media,
    n = of_Z (Z.of_nat (List.length (dropna valores))) /\
    media = div32 (suma (map (fun x => if isnan x then 0%float else x)
                             valores)) n /\
    v = sqrt32
          (div32 (suma (map (fun x => if isnan x then 0%float
                                      else mul32 (sub32 x media)
                                                 (sub32 x media))
                            valores)) n).

End Estadisticos.

(** * Properties *)

(** ** Lists built by nested loops *)

Section NestedLoops.
Context {A B : Type}.

Lemma length_flat_map_const (f : A -> list B) (n : nat) (l : list A) :
  (forall a, In a l -> List.length (f a) = n) ->
  List.length (flat_map f l) = (List.length l * n)%nat.
Proof.
  induction l as [|a l IH]; intros Hn; simpl; [reflexivity|].
  rewrite List.length_app, (Hn a) by (left; reflexivity).
  rewrite IH; [reflexivity|].
  intros b Hb. apply Hn. right. exact Hb.
Qed.

Lemma nth_error_flat_map_const (f : A -> list B) (n : nat) (l : list A) :
  (forall a, In a l -> List.length (f a) = n) ->
  forall i j a, nth_error l i = Some a -> (j < n)%nat ->
  nth_error (flat_map f l) (i * n + j) = nth_error (f a) j.
Proof.
  induction l as [|x l IH]; intros Hn i j a Hi Hj.
  - destruct i; discriminate.
  - destruct i as [|i]; simpl in *.
    + injection Hi as ->.
      rewrite nth_error_app1; [reflexivity|].
      rewrite (Hn a); [exact Hj | left; reflexivity].
    + assert (Hx : List.length (f x) = n) by (apply Hn; left; reflexivity).
      rewrite nth_error_app2 by lia.
      rewrite Hx.
      replace (n + i * n + j - n)%nat with (i * n + j)%nat by lia.
      apply IH; [|exact Hi|exact Hj].
      intros b Hb. apply Hn. right. exact Hb.
Qed.
End NestedLoops.

Lemma nth_error_range (n : Z) (k : nat) :
  (k < Z.to_nat n)%nat -> nth_error (Py.range n) k = Some (Z.of_nat k).
Proof.
  intros Hk. unfold Py.range.
  rewrite nth_error_map, nth_error_seq.
  destruct (Nat.ltb_spec k (Z.to_nat n)); [reflexivity | lia].
Qed.

Lemma length_range (n : Z) : List.length (Py.range n) = Z.to_nat n.
Proof. unfold Py.range. now rewrite List.length_map, List.length_seq. Qed.

Lemma In_range (n x : Z) : In x (Py.range n) <-> 0 <= x < n.
Proof.
  unfold Py.range. rewrite in_map_iff. split.
  - intros (k & <- & Hk). apply in_seq in Hk. lia.
  - intros Hx. exists (Z.to_nat x). split; [lia|]. apply in_seq. lia.
Qed.

Lemma flat_map_flat_map {A B C : Type} (f : A -> list B) (g : B -> list C)
      (l : list A) :
  flat_map g (flat_map f l) = flat_map (fun a => flat_map g (f a)) l.
Proof.
  induction l as [|a l IH]; simpl; [reflexivity|].
  now rewrite flat_map_app, IH.
Qed.

Lemma flat_map_map {A B C : Type} (f : A -> B) (g : B -> list C)
      (l : list A) :
  flat_map g (map f l) = flat_map (fun a => g (f a)) l.
Proof.
  induction l as [|a l IH]; simpl; [reflexivity|].
  now rewrite IH.
Qed.

Lemma bind_Ok {A B : Type} (m : Py.exc A) (k : A -> Py.exc B) (b : B) :
  Py.bind m k = Py.Ok b -> exists a, m = Py.Ok a /\ k a = Py.Ok b.
Proof. destruct m as [a|e]; simpl; [eauto | discriminate]. Qed.


(** ** The window partition *)

Module PartitionFacts.
Import Partition.

Lemma n_chunks_ceil (size chunk_size : Z) :
  0 < chunk_size -> n_chunks size chunk_size = ceil_div size chunk_size.
Proof.
  intros Hc. unfold n_chunks, ceil_div.
  pose proof (Z.div_mod (size + chunk_size - 1) chunk_size ltac:(lia)) as E.
  pose proof (Z.mod_pos_bound (size + chunk_size - 1) chunk_size Hc) as B.
  set (q := (size + chunk_size - 1) / chunk_size) in *.
  symmetry. apply Z.opp_inj. rewrite Z.opp_involutive. symmetry.
  apply (Z.div_unique_pos (- size) chunk_size (- q)
                          (- size + chunk_size * q)); lia.
Qed.

(** The last chunk index still starts inside the raster. *)
Lemma chunk_start_inside (size chunk_size i : Z) :
  0 < chunk_size -> 0 <= i < n_chunks size chunk_size ->
  i * chunk_size < size.
Proof.
  intros Hc Hi. unfold n_chunks in Hi.
  pose proof (Z.div_mod (size + chunk_size - 1) chunk_size ltac:(lia)) as E.
  pose proof (Z.mod_pos_bound (size + chunk_size - 1) chunk_size Hc) as B.
  nia.
Qed.

(** Every pixel row (column) has a chunk index. *)
Lemma chunk_of_pixel (size chunk_size r : Z) :
  0 < chunk_size -> 0 <= r < size ->
  0 <= r / chunk_size < n_chunks size chunk_size.
Proof.
  intros Hc Hr. split; [apply Z.div_pos; lia|].
  unfold n_chunks.
  pose proof (Z.div_mod r chunk_size ltac:(lia)) as E1.
  pose proof (Z.mod_pos_bound r chunk_size Hc) as B1.
  pose proof (Z.div_mod (size + chunk_size - 1) chunk_size ltac:(lia)) as E.
  pose proof (Z.mod_pos_bound (size + chunk_size - 1) chunk_size Hc) as B.
  nia.
Qed.

Lemma chunk_window_inside (height width chunk_size i j : Z) :
  0 < chunk_size ->
  0 <= i < n_chunks height chunk_size ->
  0 <= j < n_chunks width chunk_size ->
  chunk_window height width chunk_size i j
  = Some (window_of height width chunk_size i j).
Proof.
  intros Hc Hi Hj.
  pose proof (chunk_start_inside height chunk_size i Hc Hi).
  pose proof (chunk_start_inside width chunk_size j Hc Hj).
  unfold chunk_window, chunk_limits, window_of.
  destruct (Z.leb_spec (Z.min ((i + 1) * chunk_size) height) (i * chunk_size));
    [lia|].
  destruct (Z.leb_spec (Z.min ((j + 1) * chunk_size) width) (j * chunk_size));
    [lia|].
  simpl. f_equal. f_equal; lia.
Qed.

(** A window that is emitted has extent, whatever the configuration. *)
Lemma chunk_window_extent (h wd chunk_size i j : Z) (w : Window) :
  chunk_window h wd chunk_size i j = Some w ->
  0 < width w /\ 0 < height w.
Proof.
  unfold chunk_window, chunk_limits.
  destruct (Z.leb_spec (Z.min ((i + 1) * chunk_size) h) (i * chunk_size));
    [discriminate|].
  destruct (Z.leb_spec (Z.min ((j + 1) * chunk_size) wd) (j * chunk_size));
    [discriminate|].
  simpl. intros [= <-]. simpl. lia.
Qed.

Lemma partition_rows (height width chunk_size : Z) :
  partition height width chunk_size
  = flat_map (fun i =>
        flat_map (fun j => emitted (chunk_window height width chunk_size i j))
                 (Py.range (n_chunks width chunk_size)))
      (Py.range (n_chunks height chunk_size)).
Proof.
  unfold partition, chunk_indices.
  rewrite flat_map_flat_map.
  apply flat_map_ext. intros i. now rewrite flat_map_map.
Qed.

Lemma partition_In (height width chunk_size : Z) (w : Window) :
  In w (partition height width chunk_size) <->
  exists i j, 0 <= i < n_chunks height chunk_size /\
              0 <= j < n_chunks width chunk_size /\
              chunk_window height width chunk_size i j = Some w.
Proof.
  rewrite partition_rows, in_flat_map. split.
  - intros (i & Hi & Hw). apply in_flat_map in Hw as (j & Hj & Hw).
    apply In_range in Hi, Hj. exists i, j. repeat split; try lia.
    destruct (chunk_window height width chunk_size i j); simpl in Hw;
      [destruct Hw as [->|[]]; reflexivity | destruct Hw].
  - intros (i & j & Hi & Hj & Hw). exists i. split; [now apply In_range|].
    apply in_flat_map. exists j. split; [now apply In_range|].
    rewrite Hw. now left.
Qed.

Lemma row_windows (height width chunk_size i : Z) :
  0 < chunk_size -> 0 <= i < n_chunks height chunk_size ->
  flat_map (fun j => emitted (chunk_window height width chunk_size i j))
           (Py.range (n_chunks width chunk_size))
  = map (window_of height width chunk_size i)
        (Py.range (n_chunks width chunk_size)).
Proof.
  intros Hc Hi.
  assert (forall l, (forall j, In j l -> 0 <= j < n_chunks width chunk_size) ->
            flat_map (fun j => emitted (chunk_window height width chunk_size i j)) l
            = map (window_of height width chunk_size i) l) as G.
  { induction l as [|j l IH]; intros Hl; simpl; [reflexivity|].
    rewrite chunk_window_inside by (auto; apply Hl; now left).
    simpl. f_equal. apply IH. intros; apply Hl; now right. }
  apply G. intros j. apply In_range.
Qed.

Lemma partition_nth (height width chunk_size i j : Z) :
  0 < chunk_size ->
  0 <= i < n_chunks height chunk_size ->
  0 <= j < n_chunks width chunk_size ->
  nth_error (partition height width chunk_size)
            (Z.to_nat (i * n_chunks width chunk_size + j))
  = Some (window_of height width chunk_size i j).
Proof.
  intros Hc Hi Hj. rewrite partition_rows.
  replace (Z.to_nat (i * n_chunks width chunk_size + j))
    with (Z.to_nat i * Z.to_nat (n_chunks width chunk_size) + Z.to_nat j)%nat
    by nia.
  assert (Hlen : forall a, In a (Py.range (n_chunks height chunk_size)) ->
            List.length
              (flat_map (fun j => emitted (chunk_window height width chunk_size a j))
                        (Py.range (n_chunks width chunk_size)))
            = Z.to_nat (n_chunks width chunk_size)).
  { intros a Ha. apply In_range in Ha.
    rewrite row_windows by assumption.
    now rewrite List.length_map, length_range. }
  rewrite (nth_error_flat_map_const _ _ _ Hlen _ _ i).
  - rewrite row_windows by assumption.
    rewrite nth_error_map, nth_error_range by lia.
    simpl. now rewrite Z2Nat.id by lia.
  - rewrite nth_error_range by lia. now rewrite Z2Nat.id by lia.
  - lia.
Qed.

Lemma In_chunk_indices (h wd chunk_size i j : Z) :
  In (i, j) (chunk_indices h wd chunk_size) <->
  0 <= i < n_chunks h chunk_size /\ 0 <= j < n_chunks wd chunk_size.
Proof.
  unfold chunk_indices. rewrite in_flat_map. split.
  - intros (i' & Hi & Hj). apply in_map_iff in Hj as (j' & [= <- <-] & Hj).
    apply In_range in Hi, Hj. tauto.
  - intros [Hi Hj]. exists i. split; [now apply In_range|].
    apply in_map_iff. exists j. split; [reflexivity | now apply In_range].
Qed.

Lemma partition_length (height width chunk_size : Z) :
  0 < chunk_size ->
  List.length (partition height width chunk_size)
  = (Z.to_nat (n_chunks height chunk_size)
     * Z.to_nat (n_chunks width chunk_size))%nat.
Proof.
  intros Hc. rewrite partition_rows.
  rewrite (length_flat_map_const _ (Z.to_nat (n_chunks width chunk_size))).
  - now rewrite length_range.
  - intros a Ha. apply In_range in Ha.
    rewrite row_windows by assumption.
    now rewrite List.length_map, length_range.
Qed.

End PartitionFacts.

Module PartitionCoverage.
Import Partition PartitionFacts.

Lemma in_window_of (h wd chunk_size i j r c : Z) :
  0 < chunk_size -> 0 <= i -> 0 <= j ->
  in_window (window_of h wd chunk_size i j) r c <->
  (0 <= r < h /\ r / chunk_size = i) /\ (0 <= c < wd /\ c / chunk_size = j).
Proof.
  intros Hc Hi Hj. unfold in_window, window_of. simpl.
  pose proof (Z.div_mod r chunk_size ltac:(lia)) as Er.
  pose proof (Z.mod_pos_bound r chunk_size Hc) as Br.
  pose proof (Z.div_mod c chunk_size ltac:(lia)) as Ec.
  pose proof (Z.mod_pos_bound c chunk_size Hc) as Bc.
  split.
  - intros [Hr Hcol]. split; (split; [nia|]).
    + symmetry. apply (Z.div_unique_pos r chunk_size i (r - chunk_size * i)); lia.
    + symmetry. apply (Z.div_unique_pos c chunk_size j (c - chunk_size * j)); lia.
  - intros [[Hr <-] [Hcol <-]]. nia.
Qed.

(** C1. For positive [height], [width] and [chunk_size] the window loop
    emits exactly ceil(height/chunk_size) * ceil(width/chunk_size) windows;
    the window at position [i * n_w + j] of the sequence is the chunk of
    row [i] and column [j] (row-major order), of size [chunk_size] cut at
    the raster edge; every window lies inside the raster; every pixel of
    [0,height) x [0,width) lies in the window at exactly one position of the
    sequence (no gap, no overlap); and, for any configuration, a window
    without extent is dropped, never emitted and never an error.  The
    sequence is a function of the three inputs. *)
Theorem partition_covers_grid (h wd chunk_size : Z) :
  0 < h -> 0 < wd -> 0 < chunk_size ->
  Z.of_nat (List.length (partition h wd chunk_size))
    = ceil_div h chunk_size * ceil_div wd chunk_size
  /\ (forall i j,
        0 <= i < ceil_div h chunk_size -> 0 <= j < ceil_div wd chunk_size ->
        nth_error (partition h wd chunk_size)
                  (Z.to_nat (i * ceil_div wd chunk_size + j))
        = Some (mkWindow (j * chunk_size) (i * chunk_size)
                         (Z.min chunk_size (wd - j * chunk_size))
                         (Z.min chunk_size (h - i * chunk_size))))
  /\ (forall win r c,
        In win (partition h wd chunk_size) -> in_window win r c ->
        0 <= r < h /\ 0 <= c < wd)
  /\ (forall r c, 0 <= r < h -> 0 <= c < wd ->
        exists k win,
          nth_error (partition h wd chunk_size) k = Some win /\
          in_window win r c /\
          forall k' win',
            nth_error (partition h wd chunk_size) k' = Some win' ->
            in_window win' r c -> k' = k)
  /\ (forall h' wd' chunk_size' win,
        In win (partition h' wd' chunk_size') ->
        0 < width win /\ 0 < height win).
Proof.
  intros Hh Hw Hc.
  rewrite <- !n_chunks_ceil by assumption.
  set (nh := n_chunks h chunk_size). set (nw := n_chunks wd chunk_size).
  assert (Hnh : 0 <= nh)
    by (pose proof (chunk_of_pixel h chunk_size 0 Hc ltac:(lia)); lia).
  assert (Hnw : 0 <= nw)
    by (pose proof (chunk_of_pixel wd chunk_size 0 Hc ltac:(lia)); lia).
  split; [|split; [|split; [|split]]].
  - rewrite partition_length by assumption. fold nh nw. lia.
  - intros i j Hi Hj. now apply partition_nth.
  - intros win r c Hin Hwin.
    apply partition_In in Hin as (i & j & Hi & Hj & E).
    rewrite chunk_window_inside in E by assumption. injection E as <-.
    apply in_window_of in Hwin; [tauto | lia..].
  - intros r c Hr Hcol.
    pose proof (chunk_of_pixel h chunk_size r Hc Hr) as Hi.
    pose proof (chunk_of_pixel wd chunk_size c Hc Hcol) as Hj.
    fold nh in Hi. fold nw in Hj.
    exists (Z.to_nat (r / chunk_size * nw + c / chunk_size)),
           (window_of h wd chunk_size (r / chunk_size) (c / chunk_size)).
    split; [now apply partition_nth|].
    split; [apply in_window_of; [lia..|tauto]|].
    intros k' win' Hk' Hwin'.
    assert (Hlt : (k' < List.length (partition h wd chunk_size))%nat)
      by (apply nth_error_Some; congruence).
    rewrite partition_length in Hlt by assumption. fold nh nw in Hlt.
    assert (Hnwpos : 0 < nw) by nia.
    pose proof (Z.div_mod (Z.of_nat k') nw ltac:(lia)) as Ek.
    pose proof (Z.mod_pos_bound (Z.of_nat k') nw Hnwpos) as Bk.
    assert (Hi' : 0 <= Z.of_nat k' / nw < nh).
    { split; [apply Z.div_pos; lia|]. apply Z.div_lt_upper_bound; nia. }
    pose proof (partition_nth h wd chunk_size _ _ Hc Hi' Bk) as Hnth.
    fold nw in Hnth.
    replace (Z.to_nat (Z.of_nat k' / nw * nw + Z.of_nat k' mod nw))
      with k' in Hnth by lia.
    rewrite Hk' in Hnth. injection Hnth as ->.
    apply in_window_of in Hwin' as [[_ Ei] [_ Ej]]; [|lia..].
    rewrite Ei, Ej. lia.
  - intros h' wd' c' win Hin.
    apply partition_In in Hin as (i & j & _ & _ & E).
    now apply chunk_window_extent in E.
Qed.

Lemma partition_covers_grid_witness :
  Z.of_nat (List.length (partition 5 3 2)) = ceil_div 5 2 * ceil_div 3 2
  /\ nth_error (partition 5 3 2) 5 = Some (mkWindow 2 4 1 1)
  /\ (exists k win, nth_error (partition 5 3 2) k = Some win /\
                    in_window win 4 2).
Proof.
  destruct (partition_covers_grid 5 3 2 ltac:(lia) ltac:(lia) ltac:(lia))
    as (Hlen & Hnth & _ & Hcov & _).
  split; [exact Hlen|]. split.
  - exact (Hnth 2 1 ltac:(vm_compute; split; [discriminate|reflexivity])
                    ltac:(vm_compute; split; [discriminate|reflexivity])).
  - destruct (Hcov 4 2 ltac:(lia) ltac:(lia)) as (k & win & Hk & Hin & _).
    exists k, win. split; assumption.
Defined.

(** A misconfigured chunk size takes the no-extent branch of the loop:
    the chunk is dropped and nothing is raised. *)
Example partition_skips_empty_chunk :
  n_chunks 1 (-2) = 1 /\ chunk_window 1 1 (-2) 0 0 = None
  /\ partition 1 1 (-2) = [].
Proof. repeat split. Qed.

End PartitionCoverage.


(** ** Script 6: what a window computes *)

Lemma fold_left_same {A B : Type} (f g : A -> B -> A) (l : list B) (a : A) :
  (forall x y, f x y = g x y) -> fold_left f l a = fold_left g l a.
Proof.
  intros H. revert a. induction l as [|y l IH]; intros a; simpl;
    [reflexivity|]. now rewrite H, IH.
Qed.

Lemma fold_left_fixed {A B : Type} (f : A -> B -> A) (l : list B) (a : A) :
  (forall x y, f x y = x) -> fold_left f l a = a.
Proof.
  intros H. induction l as [|y l IH]; simpl; [reflexivity|].
  now rewrite H.
Qed.

Module Stage6Facts.
Import Np Partition Stage6.

Section Script.
Context `{R : Rasterio}.
Variable src_ndvi src_inv src_ver : Dataset float.
Variable write_fails : Z -> Window -> bool.
Variable heap : bool -> Window -> Z -> Z -> float.

(** Line 171 (210) asks the result of [rasterio.windows.intersect], a
    [bool], for its width: whatever the answer, the chunk of a season
    map is not computed. *)
Lemma season_chunk_raises (src : Dataset float) (garbage : Z -> Z -> float)
      (bounds : Bounds) (rows cols : Z) :
  season_chunk src_ndvi src garbage bounds rows cols
  = match season_window src_ndvi src bounds with
    | Py.Ok _ => Py.Raise Py.AttributeError
    | Py.Raise e => Py.Raise e
    end.
Proof. unfold season_chunk. now destruct (season_window _ _ _). Qed.

Lemma calcular_raises (window : Window) :
  exists e, calcular src_ndvi src_inv src_ver heap window = Py.Raise e.
Proof.
  unfold calcular.
  destruct (leer_bandas _ _ _) as [bs|e]; simpl; [|eauto].
  destruct (windows_bounds _ _) as [b|e]; simpl; [|eauto].
  unfold inv_chunk. rewrite season_chunk_raises.
  destruct (season_window _ _ _); simpl; eauto.
Qed.

(** The [except] of line 267 leaves the file as it was. *)
Lemma procesar_ventana_nothing (chunk_size : Z) (out : Written)
      (ij : Z * Z) :
  procesar_ventana src_ndvi src_inv src_ver write_fails heap chunk_size
                   out ij
  = out.
Proof.
  unfold procesar_ventana.
  destruct (chunk_window _ _ _ _ _) as [window|]; [|reflexivity].
  destruct (calcular_raises window) as [e ->]. reflexivity.
Qed.

Lemma procesar_ventanas_nothing (chunk_size : Z) :
  procesar_ventanas src_ndvi src_inv src_ver write_fails heap chunk_size
  = unwritten.
Proof.
  unfold procesar_ventanas. apply fold_left_fixed.
  apply procesar_ventana_nothing.
Qed.

End Script.
End Stage6Facts.

(** ** Script 2: what the accumulator holds *)

Module Stage2Facts.
Import Np Partition PartitionFacts Stage2.

Lemma In_indices (rows cols r c : Z) :
  In (r, c) (indices rows cols) <-> 0 <= r < rows /\ 0 <= c < cols.
Proof.
  unfold indices. rewrite in_flat_map. split.
  - intros (r' & Hr & Hc). apply in_map_iff in Hc as (c' & [= <- <-] & Hc).
    apply In_range in Hr, Hc. tauto.
  - intros [Hr Hc]. exists r. split; [now apply In_range|].
    apply in_map_iff. exists c. split; [reflexivity | now apply In_range].
Qed.

Lemma any_true (rows cols : Z) (mask : Z -> Z -> bool) :
  any rows cols mask = true <->
  exists r c, (0 <= r < rows /\ 0 <= c < cols) /\ mask r c = true.
Proof.
  unfold any. rewrite existsb_exists. split.
  - intros ([r c] & Hin & Hm). apply In_indices in Hin. eauto.
  - intros (r & c & Hin & Hm). exists (r, c).
    split; [now apply In_indices | exact Hm].
Qed.

Lemma In_take {A : Type} (a : ndarray A) (mask : Z -> Z -> bool) (x : A) :
  In x (take a mask) <->
  exists r c, in_shape a r c /\ mask r c = true /\ x = px a r c.
Proof.
  unfold take. rewrite in_map_iff. split.
  - intros ([r c] & <- & Hin). apply filter_In in Hin as [Hin Hm].
    apply In_indices in Hin. exists r, c. auto.
  - intros (r & c & Hin & Hm & ->). exists (r, c).
    split; [reflexivity|]. apply filter_In.
    split; [now apply In_indices | exact Hm].
Qed.

Lemma dropna_all (l : list float) :
  Forall (fun x => isnan x = false) l -> dropna l = l.
Proof.
  induction 1 as [|x l Hx _ IH]; simpl; [reflexivity|].
  rewrite Hx. simpl. now rewrite IH.
Qed.

Lemma ndvi_valid_not_nan (nodata : option float) (x : float) :
  ndvi_valid nodata x = true -> isnan x = false.
Proof.
  unfold ndvi_valid. destruct (isnan x); [discriminate | reflexivity].
Qed.

Lemma In_muestras (nodata : option float) (inta_chunk : ndarray Z)
      (ndvi_chunk : ndarray float) (cat_val : Z) (x : float) :
  In x (muestras nodata inta_chunk ndvi_chunk cat_val) <->
  es_muestra nodata inta_chunk ndvi_chunk cat_val x.
Proof.
  unfold muestras, es_muestra. rewrite In_take.
  split; intros (r & c & Hin & H); exists r, c; (split; [exact Hin|]).
  - destruct H as [H ->]. apply andb_true_iff in H as [H1 H2].
    apply Z.eqb_eq in H1. auto.
  - destruct H as (H1 & H2 & ->). split; [|reflexivity].
    apply andb_true_iff. split; [now apply Z.eqb_eq | exact H2].
Qed.

(** Lines 247-255 as a whole: the list of the category grows by the
    samples of the window, and only when there is one. *)
Lemma acumular_categoria_eq (exclude_values : list Z)
      (nodata : option float) (inta_chunk : ndarray Z)
      (ndvi_chunk : ndarray float) (resultados : Resultados) (cat_val : Z) :
  acumular_categoria exclude_values nodata inta_chunk ndvi_chunk
                     resultados cat_val
  = if excluded exclude_values cat_val then resultados
    else match muestras nodata inta_chunk ndvi_chunk cat_val with
         | [] => resultados
         | x :: l => extend resultados cat_val (x :: l)
         end.
Proof.
  unfold acumular_categoria.
  destruct (excluded exclude_values cat_val); [reflexivity|].
  fold (muestras nodata inta_chunk ndvi_chunk cat_val).
  assert (Hall : Forall (fun x => isnan x = false)
                        (muestras nodata inta_chunk ndvi_chunk cat_val)).
  { apply List.Forall_forall. intros x Hx. apply In_muestras in Hx.
    destruct Hx as (r & c & _ & _ & Hv & ->).
    now apply ndvi_valid_not_nan in Hv. }
  rewrite (dropna_all _ Hall).
  destruct (any _ _ _) eqn:Hany.
  - destruct (muestras nodata inta_chunk ndvi_chunk cat_val) as [|x l];
      reflexivity.
  - destruct (muestras nodata inta_chunk ndvi_chunk cat_val) as [|x l] eqn:E;
      [reflexivity|].
    exfalso. assert (Hx : In x (muestras nodata inta_chunk ndvi_chunk cat_val))
      by (rewrite E; now left).
    unfold muestras in Hx. apply In_take in Hx as (r & c & Hin & Hm & _).
    assert (any (nrows ndvi_chunk) (ncols ndvi_chunk)
                (fun r c => (px inta_chunk r c =? cat_val)
                            && ndvi_valid nodata (px ndvi_chunk r c)) = true)
      by (apply any_true; exists r, c; auto).
    congruence.
Qed.

(** *** The invariant of the accumulator *)

Lemma acumulado_empty (Q : Z -> float -> Prop) :
  acumulado (fun _ => False) Q ∅.
Proof.
  intros cat. rewrite lookup_empty. split.
  - split; [intros [x Hx]; discriminate | tauto].
  - discriminate.
Qed.

Lemma acumulado_iff (P P' : Z -> Prop) (Q : Z -> float -> Prop)
      (resultados : Resultados) :
  (forall k, P k <-> P' k) ->
  acumulado P Q resultados -> acumulado P' Q resultados.
Proof.
  intros HP H cat. destruct (H cat) as [H1 H2].
  split; [rewrite <- HP; exact H1 | exact H2].
Qed.

Lemma acumulado_extend (P : Z -> Prop) (Q : Z -> float -> Prop)
      (resultados : Resultados) (cat_val : Z) (values : list float) :
  acumulado P Q resultados ->
  values <> [] -> List.Forall (Q cat_val) values ->
  acumulado (fun k => P k \/ k = cat_val) Q
            (extend resultados cat_val values).
Proof.
  intros H Hne HQ k. unfold extend.
  destruct (decide (cat_val = k)) as [<-|Hk].
  - rewrite lookup_insert_eq. split.
    + split; [auto | intros _; eauto].
    + intros l [= <-]. split.
      * destruct (resultados !! cat_val) as [old|]; simpl;
          [destruct old; [exact Hne | discriminate] | exact Hne].
      * apply List.Forall_app. split; [|exact HQ].
        destruct (resultados !! cat_val) as [old|] eqn:E; simpl;
          [|constructor].
        now apply (H cat_val).
  - rewrite lookup_insert_ne by exact Hk.
    destruct (H k) as [H1 H2]. split; [|exact H2].
    rewrite H1. split; [auto | intros [?|?]; [assumption | congruence]].
Qed.

Lemma acumulado_categoria (P : Z -> Prop) (Q : Z -> float -> Prop)
      (exclude_values : list Z) (nodata : option float)
      (inta_chunk : ndarray Z) (ndvi_chunk : ndarray float)
      (resultados : Resultados) (cat_val : Z) :
  acumulado P Q resultados ->
  (forall x, es_muestra nodata inta_chunk ndvi_chunk cat_val x ->
             Q cat_val x) ->
  acumulado (fun k => P k \/
               (k = cat_val /\ excluded exclude_values cat_val = false /\
                coincide nodata inta_chunk ndvi_chunk cat_val))
            Q
            (acumular_categoria exclude_values nodata inta_chunk ndvi_chunk
                                resultados cat_val).
Proof.
  intros H HQ. rewrite acumular_categoria_eq.
  destruct (excluded exclude_values cat_val) eqn:Hex.
  - apply (acumulado_iff P); [|exact H].
    intros k. split; [auto | intros [?|(_ & ? & _)]; [assumption|discriminate]].
  - destruct (muestras nodata inta_chunk ndvi_chunk cat_val) as [|x l] eqn:E.
    + apply (acumulado_iff P); [|exact H].
      intros k. split; [auto|]. intros [?|(_ & _ & y & Hy)]; [assumption|].
      apply In_muestras in Hy. rewrite E in Hy. destruct Hy.
    + apply (acumulado_iff (fun k => P k \/ k = cat_val)).
      * intros k. split; [|tauto]. intros [? | ->]; [auto|].
        right. split; [reflexivity|]. split; [reflexivity|].
        exists x. apply In_muestras. rewrite E. now left.
      * apply acumulado_extend; [exact H | discriminate |].
        rewrite <- E. apply List.Forall_forall. intros y Hy.
        apply HQ. now apply In_muestras.
Qed.

Lemma acumulado_acumular (Q : Z -> float -> Prop)
      (exclude_values : list Z) (nodata : option float)
      (inta_chunk : ndarray Z) (ndvi_chunk : ndarray float)
      (categorias : list Z) :
  (forall k x, es_muestra nodata inta_chunk ndvi_chunk k x -> Q k x) ->
  forall (P : Z -> Prop) (resultados : Resultados),
  acumulado P Q resultados ->
  acumulado (fun k => P k \/
               (In k categorias /\ excluded exclude_values k = false /\
                coincide nodata inta_chunk ndvi_chunk k))
            Q
            (acumular categorias exclude_values nodata inta_chunk ndvi_chunk
                      resultados).
Proof.
  intros HQ. unfold acumular.
  induction categorias as [|cat cats IH]; intros P resultados H; simpl.
  - apply (acumulado_iff P); [|exact H]. intros k. tauto.
  - eapply acumulado_iff;
      [|apply IH, acumulado_categoria; [exact H | apply HQ]].
    intros k. simpl. split.
    + intros [[?|(-> & ? & ?)]|(? & ? & ?)]; auto.
    + intros [?|([<-|?] & ? & ?)]; auto.
Qed.

Section Script.
Context `{R : Rasterio}.
Variable src_inta : Dataset Z.
Variable src_ndvi : Dataset float.
Variable heap : Window -> Z -> Z -> float.
Variable categorias exclude_values : list Z.
Variable chunk_size : Z.

Abbreviation Q := (muestra_del_raster src_inta src_ndvi heap chunk_size).
Abbreviation coincide_en :=
  (Stage2.coincide_en src_inta src_ndvi heap categorias exclude_values
                      chunk_size).

Lemma acumulado_ventana (P : Z -> Prop) (resultados : Resultados)
      (ij : Z * Z) :
  In ij (chunk_indices (ds_height src_inta) (ds_width src_inta) chunk_size) ->
  acumulado P Q resultados ->
  acumulado (fun k => P k \/ coincide_en ij k) Q
            (procesar_ventana src_inta src_ndvi heap categorias
                              exclude_values chunk_size resultados ij).
Proof.
  intros Hij H. unfold procesar_ventana.
  destruct (chunk_window _ _ _ _ _) as [window|] eqn:Hw.
  - destruct (leer_ventana _ _ _ _) as [[inta ndvi]|] eqn:Hread.
    + eapply acumulado_iff; [|apply acumulado_acumular; [|exact H]].
      * intros k. split.
        -- intros [?|(? & ? & ?)]; [auto|].
           right. exists window, inta, ndvi. rewrite Hw. auto.
        -- intros [?|(w' & i' & n' & Hw' & Hr' & ? & ? & ?)]; [auto|].
           rewrite Hw in Hw'. injection Hw' as <-.
           rewrite Hread in Hr'. injection Hr' as <- <-. auto.
      * intros k x Hx. exists window, inta, ndvi. split; [|exact Hx].
        split; [|exact Hread]. apply partition_In.
        destruct ij as [i j]. apply In_chunk_indices in Hij.
        exists i, j. tauto.
    + apply (acumulado_iff P); [|exact H]. intros k. split; [auto|].
      intros [?|(w' & i' & n' & Hw' & Hr' & _)]; [assumption|].
      rewrite Hw in Hw'. injection Hw' as <-. congruence.
  - apply (acumulado_iff P); [|exact H]. intros k. split; [auto|].
    intros [?|(w' & i' & n' & Hw' & _)]; [assumption | congruence].
Qed.

Lemma acumulado_ventanas_list (l : list (Z * Z)) :
  (forall ij, In ij l ->
     In ij (chunk_indices (ds_height src_inta) (ds_width src_inta)
                          chunk_size)) ->
  forall (P : Z -> Prop) (resultados : Resultados),
  acumulado P Q resultados ->
  acumulado (fun k => P k \/ exists ij, In ij l /\ coincide_en ij k) Q
            (fold_left (procesar_ventana src_inta src_ndvi heap categorias
                                         exclude_values chunk_size)
                       l resultados).
Proof.
  induction l as [|ij l IH]; intros Hl P resultados H; simpl.
  - apply (acumulado_iff P); [|exact H]. intros k. split; [auto|].
    intros [?|(? & [] & _)]. assumption.
  - eapply acumulado_iff; [|apply IH; [|apply acumulado_ventana;
                                         [|exact H]]].
    + intros k. simpl. split.
      * intros [[?|?]|(ij' & ? & ?)]; eauto 6.
      * intros [?|(ij' & [<-|?] & ?)]; eauto 6.
    + intros; apply Hl; now right.
    + apply Hl; now left.
Qed.

(** The accumulator at the end of the loop. *)
Lemma acumulado_ventanas :
  acumulado (coincide_en_raster src_inta src_ndvi heap categorias
                                exclude_values chunk_size)
            Q
            (acumular_ventanas src_inta src_ndvi heap categorias
                               exclude_values chunk_size).
Proof.
  unfold acumular_ventanas.
  eapply acumulado_iff;
    [|apply acumulado_ventanas_list; [auto | apply acumulado_empty]].
  intros k. simpl. split.
  - intros [[]|([i j] & Hij & w & inta & ndvi & Hw & Hr & Hk & Hex & x & Hx)].
    split; [exact Hk|]. split; [exact Hex|].
    exists x, w, inta, ndvi. split; [|exact Hx]. split; [|exact Hr].
    apply partition_In. apply In_chunk_indices in Hij.
    exists i, j. tauto.
  - intros (Hk & Hex & x & w & inta & ndvi & [Hin Hr] & Hx). right.
    apply partition_In in Hin as (i & j & Hi & Hj & Hw).
    exists (i, j). split; [now apply In_chunk_indices|].
    exists w, inta, ndvi. repeat split; try assumption. now exists x.
Qed.

End Script.
End Stage2Facts.

(** ** The destination block of the resampler *)

Module Stage2Reproject.
Import Np Stage2.

Section Script.
Context `{R : Rasterio}.
Variable src_inta : Dataset Z.
Variable src_ndvi : Dataset float.



End Script.
End Stage2Reproject.

Module Destination.
Import Np Stage2 UnitGrid Ejemplos Casos.





End Destination.

(** ** Categorical resampling *)

Module Categorical.
Import Np Stage6 UnitGrid Ejemplos.


End Categorical.

(** ** The season bands of the output of script 6 *)

Module SeasonBands.
Import Np Partition Stage6 UnitGrid Ejemplos.

(** The two bands after those of the reference raster are described as
    'invierno' and 'verano'. *)
Lemma season_band_names (nombres_bandas : list string) :
  nth_error (nombres_finales nombres_bandas) (List.length nombres_bandas)
    = Some "invierno"%string /\
  nth_error (nombres_finales nombres_bandas)
            (S (List.length nombres_bandas))
    = Some "verano"%string.
Proof.
  unfold nombres_finales.
  rewrite !nth_error_app2 by lia.
  replace (List.length nombres_bandas - List.length nombres_bandas)%nat
    with 0%nat by lia.
  replace (S (List.length nombres_bandas) - List.length nombres_bandas)%nat
    with 1%nat by lia.
  split; reflexivity.
Qed.

(** C10, on the code.  Script 6 writes no season band, and no band at
    all: the computation of every window raises (line 171 asks the
    [bool] returned by [rasterio.windows.intersect] for its width), the
    [except] of line 267 catches the exception, and the window is left
    without a write.  Whatever the inputs, the output holds nothing at
    any band and pixel; the bands 'invierno' and 'verano' hold neither
    0.0 nor 1.0.  On the example the exception is [AttributeError]. *)
Theorem season_bands_never_written :
  (forall `{R : Rasterio} (src_ndvi src_inv src_ver : Dataset float)
          (write_fails : Z -> Window -> bool)
          (heap : bool -> Window -> Z -> Z -> float),
      (forall window,
          exists e,
            calcular src_ndvi src_inv src_ver heap window = Py.Raise e) /\
      (forall b r c,
          recortar_mnc_y_combinar src_ndvi src_inv src_ver write_fails heap
                                  b r c = None))
  /\ calcular t_ref t_inv t_ver (basura 0%float) ventana
     = Py.Raise Py.AttributeError
  /\ recortar_mnc_y_combinar t_ref t_inv t_ver nunca_falla (basura 0%float)
                             (ref_count t_ref + 1) 0 1 = None.
Proof.
  split; [|split; reflexivity].
  intros R src_ndvi src_inv src_ver write_fails heap. split.
  - apply Stage6Facts.calcular_raises.
  - intros b r c. unfold recortar_mnc_y_combinar.
    now rewrite Stage6Facts.procesar_ventanas_nothing.
Qed.

End SeasonBands.

(** ** The mapping returned by [procesar_ndvi_por_categoria] *)

Module Promedios.
Import Np Stage2 UnitGrid Ejemplos Casos.

Section Script.
Context `{R : Rasterio}.
Variable src_inta : Dataset Z.
Variable src_ndvi : Dataset float.
Variable heap : Window -> Z -> Z -> float.

(** The call returns once the rasters are open and the chunk size is not
    zero; its keys and values are those of the accumulator. *)
Lemma procesar_returns (categorias exclude_values : list Z)
      (chunk_size : Z) :
  chunk_size <> 0 ->
  procesar_ndvi_por_categoria src_inta src_ndvi heap categorias
                              exclude_values chunk_size
  = Py.Ok (finalizar (acumular_ventanas src_inta src_ndvi heap categorias
                                        exclude_values chunk_size)).
Proof.
  intros Hc. unfold procesar_ndvi_por_categoria.
  destruct (Z.eqb_spec chunk_size 0); [contradiction | reflexivity].
Qed.

Lemma finalizar_lookup (resultados : Resultados) (cat_val : Z) :
  finalizar resultados !! cat_val
  = (fun valores : list float =>
       if (0 <? Z.of_nat (List.length valores)) then mean valores
       else PrimFloat.nan) <$> (resultados !! cat_val).
Proof. unfold finalizar. apply lookup_fmap. Qed.

Lemma sin_muestras_sin_clave (categorias exclude_values : list Z)
      (chunk_size cat_val : Z) :
  (forall x, ~ muestra_del_raster src_inta src_ndvi heap chunk_size
                                  cat_val x) ->
  finalizar (acumular_ventanas src_inta src_ndvi heap categorias
                               exclude_values chunk_size) !! cat_val = None.
Proof.
  intros Hno. rewrite finalizar_lookup.
  destruct (Stage2Facts.acumulado_ventanas src_inta src_ndvi heap categorias
              exclude_values chunk_size cat_val) as [Hkey _].
  destruct (acumular_ventanas _ _ _ _ _ _ !! cat_val) as [l|] eqn:E;
    [|reflexivity].
  exfalso. destruct (proj1 Hkey (ex_intro _ l eq_refl)) as (_ & _ & x & Hx).
  exact (Hno x Hx).
Qed.

(** A valid NDVI value is not NaN and not the nodata value as a
    [float32] number. *)
Lemma ndvi_valid_spec (nodata : option float) (x : float) :
  ndvi_valid nodata x = true <->
  isnan x = false /\
  forall nd, nodata = Some nd -> PrimFloat.eqb x (float32 nd) = false.
Proof.
  unfold ndvi_valid, ne. destruct (isnan x); simpl.
  - split; [discriminate | intros [H _]; discriminate].
  - destruct nodata as [nd|].
    + rewrite negb_true_iff. split.
      * intros H. split; [reflexivity|]. now intros nd' [= <-].
      * intros [_ H]. now apply H.
    + split; [|reflexivity]. intros _. split; [reflexivity | discriminate].
Qed.

(** The two chunks of a window that is read: the category chunk is the
    window of the category raster, and the NDVI chunk holds the
    [float32] values of the same window of the NDVI raster when the
    rasters are aligned, and otherwise those of the block in which
    [reproject] leaves, with bilinear resampling, a window of the NDVI
    raster turned into [float32]. *)
Lemma leer_ventana_spec (window : Window) (inta_chunk : ndarray Z)
      (ndvi_chunk : ndarray float) :
  leer_ventana src_inta src_ndvi heap window = Some (inta_chunk, ndvi_chunk) ->
  read src_inta 1 window = Py.Ok inta_chunk /\
  shape ndvi_chunk = (height window, width window) /\
  ((necesita_reproyeccion src_inta src_ndvi = false /\
    exists leido,
      read src_ndvi 1 window = Py.Ok leido /\
      forall r c, px ndvi_chunk r c = float32 (px leido r c))
   \/ (necesita_reproyeccion src_inta src_ndvi = true /\
       exists bounds ndvi_window leido src_transform dst_transform f,
         windows_bounds window (ds_transform src_inta) = Py.Ok bounds /\
         read src_ndvi 1 ndvi_window = Py.Ok leido /\
         reproject (mkArr (nrows leido) (ncols leido)
                          (fun r c => float32 (px leido r c)))
                   (empty (heap window) (height window) (width window))
                   src_transform (ds_crs src_ndvi)
                   dst_transform (ds_crs src_inta) bilinear
         = Py.Ok f /\
         forall r c, px ndvi_chunk r c = float32 (f r c))).
Proof.
  unfold leer_ventana. intros H.
  destruct (read src_inta 1 window) as [inta|e] eqn:Hinta; [|discriminate].
  destruct (windows_bounds window _) as [bounds|e] eqn:Hb; [|discriminate].
  destruct (necesita_reproyeccion src_inta src_ndvi) eqn:Hnec; simpl in H.
  - destruct (reproyectar _ _ _ _ _) as [[chunk|]|e] eqn:Hrep;
      try discriminate.
    injection H as <- <-. split; [reflexivity|].
    unfold reproyectar in Hrep.
    apply bind_Ok in Hrep as ([w|] & _ & Hrep); [|discriminate].
    apply bind_Ok in Hrep as (leido & Hleido & Hrep).
    apply bind_Ok in Hrep as (wb & _ & Hrep).
    apply bind_Ok in Hrep as (st & _ & Hrep).
    apply bind_Ok in Hrep as (dt & _ & Hrep).
    apply bind_Ok in Hrep as (f & Hf & Hrep).
    injection Hrep as <-. split; [reflexivity|]. right.
    split; [reflexivity|].
    exists bounds, w, leido, st, dt, f.
    split; [reflexivity|]. split; [exact Hleido|]. split; [exact Hf|].
    reflexivity.
  - destruct (read src_ndvi 1 window) as [leido|e] eqn:Hleido;
      [|discriminate].
    injection H as <- <-. split; [reflexivity|].
    assert (Hs : shape leido = (height window, width window)).
    { unfold read in Hleido. apply bind_Ok in Hleido as (g & _ & Hleido).
      injection Hleido as <-. reflexivity. }
    split; [exact Hs|]. left.
    split; [reflexivity|]. exists leido. split; reflexivity.
Qed.

End Script.

(** C9, as the script has it.  With a chunk size other than zero the
    call returns a mapping whose keys are exactly the categories of the
    call that are not excluded and match a valid (not NaN, not nodata)
    NDVI pixel in a window that is read; every value is [np.mean] of a
    non-empty list of samples, none of them NaN, each the NDVI value of
    such a pixel, so the NaN of the empty branch of the final loop is
    never taken; a category without such a pixel has no key.  A value
    is valid when it is not NaN and not the nodata value as a [float32]
    number, and the NDVI values of a window are the [float32] values of
    what is read from the NDVI raster, or of what [reproject] leaves
    of them in the block of the window. *)
Theorem promedios_keys_and_values `{R : Rasterio}
        (src_inta : Dataset Z) (src_ndvi : Dataset float)
        (heap : Window -> Z -> Z -> float)
        (categorias exclude_values : list Z) (chunk_size : Z) :
  chunk_size <> 0 ->
  exists promedios,
    procesar_ndvi_por_categoria src_inta src_ndvi heap categorias
                                exclude_values chunk_size
      = Py.Ok promedios /\
    (forall cat_val,
        is_Some (promedios !! cat_val) <->
        coincide_en_raster src_inta src_ndvi heap categorias exclude_values
                           chunk_size cat_val) /\
    (forall cat_val v,
        promedios !! cat_val = Some v ->
        exists valores,
          valores <> [] /\
          List.Forall
            (fun x => isnan x = false /\
                      muestra_del_raster src_inta src_ndvi heap chunk_size
                                         cat_val x) valores /\
          v = mean valores) /\
    (forall cat_val,
        ~ coincide_en_raster src_inta src_ndvi heap categorias
                             exclude_values chunk_size cat_val ->
        promedios !! cat_val = None) /\
    (forall nodata x,
        ndvi_valid nodata x = true <->
        isnan x = false /\
        forall nd, nodata = Some nd ->
                   PrimFloat.eqb x (float32 nd) = false) /\
    (forall window inta_chunk ndvi_chunk,
        leer_ventana src_inta src_ndvi heap window
        = Some (inta_chunk, ndvi_chunk) ->
        read src_inta 1 window = Py.Ok inta_chunk /\
        shape ndvi_chunk = (height window, width window) /\
        ((necesita_reproyeccion src_inta src_ndvi = false /\
          exists leido,
            read src_ndvi 1 window = Py.Ok leido /\
            forall r c, px ndvi_chunk r c = float32 (px leido r c))
         \/ (necesita_reproyeccion src_inta src_ndvi = true /\
             exists bounds ndvi_window leido src_transform dst_transform f,
               windows_bounds window (ds_transform src_inta)
               = Py.Ok bounds /\
               read src_ndvi 1 ndvi_window = Py.Ok leido /\
               reproject (mkArr (nrows leido) (ncols leido)
                                (fun r c => float32 (px leido r c)))
                         (empty (heap window) (height window)
                                (width window))
                         src_transform (ds_crs src_ndvi)
                         dst_transform (ds_crs src_inta) bilinear
               = Py.Ok f /\
               forall r c, px ndvi_chunk r c = float32 (f r c)))).
Proof.
  intros Hc. eexists. split; [now apply procesar_returns|].
  pose proof (Stage2Facts.acumulado_ventanas src_inta src_ndvi heap
                categorias exclude_values chunk_size) as Hacc.
  set (res := acumular_ventanas _ _ _ _ _ _) in *.
  assert (Hkeys : forall cat_val,
             is_Some (finalizar res !! cat_val) <->
             coincide_en_raster src_inta src_ndvi heap categorias
                                exclude_values chunk_size cat_val).
  { intros cat. rewrite finalizar_lookup, fmap_is_Some.
    apply (Hacc cat). }
  split; [exact Hkeys|]. split.
  - intros cat v Hv. rewrite finalizar_lookup in Hv.
    destruct (res !! cat) as [l|] eqn:E; [|discriminate].
    simpl in Hv. injection Hv as <-.
    destruct (Hacc cat) as [_ Hl]. destruct (Hl l E) as [Hne Hall].
    exists l. split; [exact Hne|]. split.
    + apply List.Forall_forall. intros x Hx.
      pose proof (proj1 (List.Forall_forall _ _) Hall x Hx) as Hm.
      split; [|exact Hm].
      destruct Hm as (w & inta & ndvi & _ & r & c & _ & _ & Hvalid & ->).
      now apply Stage2Facts.ndvi_valid_not_nan in Hvalid.
    + destruct l as [|x l]; [contradiction|]. reflexivity.
  - split; [|split; [apply ndvi_valid_spec | apply leer_ventana_spec]].
    intros cat Hno. destruct (finalizar res !! cat) eqn:E; [|reflexivity].
    exfalso. apply Hno, Hkeys. now exists f.
Qed.

Lemma promedios_keys_and_values_witness :
  (exists promedios,
     procesar_ndvi_por_categoria t_inta_8 t_ndvi_8 (fun _ _ _ => 0%float)
                                 [1] [255; 0] 2000
       = Py.Ok promedios /\
     promedios !! 1 = Some 1125899906842624.75%float) /\
  exists promedios,
    procesar_ndvi_por_categoria t_inta t_ndvi (fun _ _ _ => 0%float)
                                [1; 2] [255; 0] 2000
      = Py.Ok promedios /\
    (forall cat_val,
        is_Some (promedios !! cat_val) <->
        coincide_en_raster t_inta t_ndvi (fun _ _ _ => 0%float)
                           [1; 2] [255; 0] 2000 cat_val) /\
    (forall cat_val v,
        promedios !! cat_val = Some v ->
        exists valores,
          valores <> [] /\
          List.Forall
            (fun x => isnan x = false /\
                      muestra_del_raster t_inta t_ndvi
                                         (fun _ _ _ => 0%float) 2000
                                         cat_val x) valores /\
          v = mean valores) /\
    (forall cat_val,
        ~ coincide_en_raster t_inta t_ndvi (fun _ _ _ => 0%float)
                             [1; 2] [255; 0] 2000 cat_val ->
        promedios !! cat_val = None) /\
    promedios !! 1 = Some 0.5%float /\ promedios !! 2 = None.
Proof.
  split.
  - eexists. split; [reflexivity|]. vm_compute. reflexivity.
  - destruct (promedios_keys_and_values t_inta t_ndvi (fun _ _ _ => 0%float)
                                        [1; 2] [255; 0] 2000
                                        ltac:(discriminate))
      as (promedios & E & H1 & H2 & H3 & _).
    exists promedios. split; [exact E|]. split; [exact H1|].
    split; [exact H2|]. split; [exact H3|].
    injection E as <-. split; vm_compute; reflexivity.
Defined.

(** C9 does not hold as stated: the mapping can hold NaN.  The two
    pixels of category 1 have the NDVI values +inf and -inf; neither is
    NaN, both are accumulated, and their mean is NaN. *)
Lemma promedios_can_hold_nan :
  isnan PrimFloat.infinity = false /\
  isnan PrimFloat.neg_infinity = false /\
  exists promedios v,
    procesar_ndvi_por_categoria t_inta t_ndvi_inf (fun _ _ _ => 0%float)
                                [1] [255; 0] 2000
      = Py.Ok promedios /\
    promedios !! 1 = Some v /\ isnan v = true.
Proof.
  split; [reflexivity|]. split; [reflexivity|].
  eexists. exists PrimFloat.nan. split; [reflexivity|].
  split; [vm_compute; reflexivity | reflexivity].
Qed.

(** C6.  A category of the definition that is not excluded and never
    matches a valid NDVI pixel in any window of the raster pair gets NaN
    as its value of the month: the call returns, the category has no key
    in the mapping, and [promedios.get(cat, np.nan)] supplies NaN, which
    is not zero. *)
Theorem categoria_sin_muestras_es_nan `{R : Rasterio}
        (src_inta : Dataset Z) (src_ndvi : Dataset float)
        (heap : Window -> Z -> Z -> float)
        (vals : list Z) (k : nat) (cat : Z) :
  nth_error (categorias_validas vals) k = Some cat ->
  (forall x, ~ muestra_del_raster src_inta src_ndvi heap CHUNK_SIZE cat x) ->
  In cat vals /\ excluded EXCLUDE_VALUES cat = false /\
  exists valores v,
    procesar_mes (Py.Ok src_inta) (Py.Ok src_ndvi) heap
                 (categorias_validas vals)
      = Py.Ok valores /\
    nth_error valores k = Some v /\
    isnan v = true /\ PrimFloat.eqb v 0%float = false.
Proof.
  intros Hk Hno.
  assert (Hin : In cat (categorias_validas vals))
    by (eapply nth_error_In; exact Hk).
  apply filter_In in Hin as [Hin Hex]. apply negb_true_iff in Hex.
  split; [exact Hin|]. split; [exact Hex|].
  unfold procesar_mes. simpl Py.bind.
  rewrite procesar_returns by discriminate.
  eexists. exists PrimFloat.nan. split; [reflexivity|].
  split; [|split; reflexivity].
  rewrite nth_error_map, Hk. simpl.
  now rewrite (sin_muestras_sin_clave src_inta src_ndvi heap _ _ _ _ Hno).
Qed.

Lemma categoria_sin_muestras_es_nan_witness :
  In 2 [0; 1; 2; 255] /\ excluded EXCLUDE_VALUES 2 = false /\
  exists valores v,
    procesar_mes (Py.Ok t_inta) (Py.Ok t_ndvi) (fun _ _ _ => 0%float)
                 (categorias_validas [0; 1; 2; 255])
      = Py.Ok valores /\
    nth_error valores 1 = Some v /\
    isnan v = true /\ PrimFloat.eqb v 0%float = false.
Proof.
  apply (categoria_sin_muestras_es_nan
           t_inta t_ndvi (fun _ _ _ => 0%float) [0; 1; 2; 255] 1 2 eq_refl).
  intros x (w & inta & ndvi & [Hin Hread] & r & c & _ & Hcat & _).
  vm_compute in Hin. destruct Hin as [<-|[]].
  vm_compute in Hread. injection Hread as <- <-.
  simpl in Hcat. discriminate.
Defined.

End Promedios.

(** ** Source windows without extent *)

Module EmptySource.
Import Np Partition UnitGrid Ejemplos.

Section Script2.
Context `{R : Rasterio}.
Variable src_inta : Dataset Z.
Variable src_ndvi : Dataset float.
Variable heap : Window -> Z -> Z -> float.

Lemma fuente_vacia_no_chunk (window : Window) (bounds : Bounds) :
  Stage2.fuente_vacia src_inta src_ndvi bounds ->
  forall chunk,
    Stage2.reproyectar src_inta src_ndvi heap window bounds
    <> Py.Ok (Some chunk).
Proof.
  intros Hv chunk. unfold Stage2.reproyectar, Stage2.ventana_ndvi.
  destruct Hv as [nb Hnb Hdeg
                 |nb w0 Hnb Hw0 He
                 |nb w0 w1 w2 Hnb Hw0 Hw1 Hw2 Hout];
    rewrite Hnb; simpl; destruct nb as [[[l b] r] t].
  - simpl in Hdeg. rewrite Hdeg. simpl. congruence.
  - destruct (PrimFloat.leb r l || PrimFloat.leb t b); simpl; [congruence|].
    rewrite Hw0. simpl. rewrite He. simpl. congruence.
  - destruct (PrimFloat.leb r l || PrimFloat.leb t b); simpl; [congruence|].
    rewrite Hw0. simpl.
    destruct (PrimFloat.leb (fwidth w0) 0 || PrimFloat.leb (fheight w0) 0);
      simpl; [congruence|].
    rewrite Hw1. simpl. rewrite Hw2. simpl. rewrite Hout. simpl.
    destruct (windows_intersect _ _); simpl; congruence.
Qed.

Lemma fuente_vacia_leer_ventana (window : Window) (bounds : Bounds) :
  Stage2.necesita_reproyeccion src_inta src_ndvi = true ->
  windows_bounds window (ds_transform src_inta) = Py.Ok bounds ->
  Stage2.fuente_vacia src_inta src_ndvi bounds ->
  Stage2.leer_ventana src_inta src_ndvi heap window = None.
Proof.
  intros Hnec Hb Hv. unfold Stage2.leer_ventana.
  destruct (read src_inta 1 window); [|reflexivity].
  rewrite Hb, Hnec. simpl.
  pose proof (fuente_vacia_no_chunk window bounds Hv) as Hno.
  destruct (Stage2.reproyectar _ _ _ _ _) as [[chunk|]|];
    [exfalso; now apply (Hno chunk) | reflexivity | reflexivity].
Qed.

End Script2.

(** C3, on the code.  The statistics stage does what the claim says:
    when the window of the NDVI raster under a reference window is
    empty or does not lie inside the raster, script 2 leaves the window
    without reading a chunk, the accumulator is unchanged and the pass
    goes on.  The output stage does not: in script 6 the computation of
    a window raises [AttributeError] at line 171 (the result of
    [rasterio.windows.intersect] is a [bool]) before the block of zeros
    of line 197 is built; the exception is caught, so none propagates
    and the loop goes on, but nothing is written for the window.  On
    the example the summer map lies away from the reference raster, the
    two windows do not intersect, and the output holds nothing at the
    pixels of the window, where the claim has 0.0. *)
Theorem empty_source_window_left_unwritten :
  (forall `{R : Rasterio} (src_inta : Dataset Z) (src_ndvi : Dataset float)
          (heap : Window -> Z -> Z -> float)
          (categorias exclude_values : list Z) (chunk_size : Z)
          (resultados : gmap Z (list float)) (ij : Z * Z)
          (window : Window) (bounds : Bounds),
      Stage2.necesita_reproyeccion src_inta src_ndvi = true ->
      chunk_window (ds_height src_inta) (ds_width src_inta) chunk_size
                   (fst ij) (snd ij) = Some window ->
      windows_bounds window (ds_transform src_inta) = Py.Ok bounds ->
      Stage2.fuente_vacia src_inta src_ndvi bounds ->
      Stage2.leer_ventana src_inta src_ndvi heap window = None /\
      Stage2.procesar_ventana src_inta src_ndvi heap categorias
                              exclude_values chunk_size resultados ij
      = resultados)
  /\ (Stage2.leer_ventana t_inta t_ndvi_lejos (fun _ _ _ => 0%float)
                          (mkWindow 0 0 2 1) = None /\
      Stage2.procesar_ndvi_por_categoria t_inta t_ndvi_lejos
                                         (fun _ _ _ => 0%float)
                                         [1; 2] [255; 0] 2000
      = Py.Ok ∅)
  /\ (Stage6.season_window t_ref t_ver limites = Py.Ok false /\
      Stage6.ver_chunk t_ref t_ver (basura 0%float) ventana limites
      = Py.Raise Py.AttributeError /\
      Stage6.calcular t_ref t_inv t_ver (basura 0%float) ventana
      = Py.Raise Py.AttributeError /\
      forall r c,
        Stage6.recortar_mnc_y_combinar t_ref t_inv t_ver nunca_falla
                                       (basura 0%float)
                                       (Stage6.ref_count t_ref + 2) r c
        = None).
Proof.
  split; [|split].
  - intros R src_inta src_ndvi heap categorias exclude_values chunk_size
           resultados ij window bounds Hnec Hw Hb Hv.
    assert (Hread : Stage2.leer_ventana src_inta src_ndvi heap window = None)
      by now apply (fuente_vacia_leer_ventana _ _ _ window bounds).
    split; [exact Hread|].
    unfold Stage2.procesar_ventana. now rewrite Hw, Hread.
  - split; vm_compute; reflexivity.
  - split; [reflexivity|]. split; [reflexivity|]. split; [reflexivity|].
    intros r c. unfold Stage6.recortar_mnc_y_combinar.
    now rewrite Stage6Facts.procesar_ventanas_nothing.
Qed.

End EmptySource.

(** ** The order of the floats that are not NaN *)

Module FloatOrder.
Import Np Estadisticos Orden.

Lemma SFleb_clave (a b : spec_float) :
  a <> S754_nan -> b <> S754_nan ->
  (SFleb a b = true <-> lex (clave a) (clave b)).
Proof.
  intros Ha Hb. unfold SFleb, SFcompare, lex.
  destruct a as [sa|sa| |sa ma ea], b as [sb|sb| |sb mb eb];
    try contradiction;
    try (destruct sa); try (destruct sb); simpl;
    try (split; [intros _; lia | reflexivity]);
    try (split; [discriminate | lia]).
  - change (Pos.compare_cont Eq ma mb) with (Pos.compare ma mb).
    destruct (Z.compare_spec ea eb), (Pos.compare_spec ma mb); simpl;
      split; intros H'; try discriminate; try reflexivity; lia.
  - change (Pos.compare_cont Eq ma mb) with (Pos.compare ma mb).
    destruct (Z.compare_spec ea eb), (Pos.compare_spec ma mb); simpl;
      split; intros H'; try discriminate; try reflexivity; lia.
Qed.

Lemma SFltb_clave (a b : spec_float) :
  a <> S754_nan -> b <> S754_nan ->
  (SFltb a b = true <-> ~ lex (clave b) (clave a)).
Proof.
  intros Ha Hb. unfold SFltb, SFcompare, lex.
  destruct a as [sa|sa| |sa ma ea], b as [sb|sb| |sb mb eb];
    try contradiction;
    try (destruct sa); try (destruct sb); simpl;
    try (split; [intros _; lia | reflexivity]);
    try (split; [discriminate | lia]).
  - change (Pos.compare_cont Eq ma mb) with (Pos.compare ma mb).
    destruct (Z.compare_spec ea eb), (Pos.compare_spec ma mb); simpl;
      split; intros H'; try discriminate; try reflexivity; lia.
  - change (Pos.compare_cont Eq ma mb) with (Pos.compare ma mb).
    destruct (Z.compare_spec ea eb), (Pos.compare_spec ma mb); simpl;
      split; intros H'; try discriminate; try reflexivity; lia.
Qed.

Lemma not_nan_spec (x : float) : isnan x = false -> Prim2SF x <> S754_nan.
Proof.
  unfold isnan, PrimFloat.is_nan. rewrite FloatAxioms.eqb_spec. intros H E.
  rewrite E in H. discriminate.
Qed.

Lemma leb_trans (x y z : float) :
  isnan x = false -> isnan y = false -> isnan z = false ->
  menor_o_igual x y -> menor_o_igual y z -> menor_o_igual x z.
Proof.
  unfold menor_o_igual. rewrite !FloatAxioms.leb_spec. intros Hx Hy Hz.
  apply not_nan_spec in Hx, Hy, Hz.
  rewrite !SFleb_clave by assumption. unfold lex. lia.
Qed.

Lemma leb_refl (x : float) : isnan x = false -> menor_o_igual x x.
Proof.
  unfold menor_o_igual. rewrite FloatAxioms.leb_spec. intros Hx.
  apply not_nan_spec in Hx. rewrite SFleb_clave by assumption.
  unfold lex. lia.
Qed.

(** Of two values that are not NaN one is below the other. *)
Lemma leb_total (x y : float) :
  isnan x = false -> isnan y = false ->
  PrimFloat.leb x y = false -> menor_o_igual y x.
Proof.
  unfold menor_o_igual. rewrite !FloatAxioms.leb_spec. intros Hx Hy.
  apply not_nan_spec in Hx, Hy. intros H.
  apply SFleb_clave; [assumption..|].
  assert (Hn : ~ lex (clave (Prim2SF x)) (clave (Prim2SF y))).
  { intros L. apply (SFleb_clave _ _ Hx Hy) in L. congruence. }
  unfold lex in *. lia.
Qed.

Lemma ltb_leb (x y : float) :
  isnan x = false -> isnan y = false ->
  PrimFloat.ltb x y = true -> menor_o_igual x y.
Proof.
  unfold menor_o_igual. rewrite FloatAxioms.ltb_spec, FloatAxioms.leb_spec. intros Hx Hy.
  apply not_nan_spec in Hx, Hy. intros H.
  apply SFltb_clave in H; [|assumption..].
  apply SFleb_clave; [assumption..|]. unfold lex in *. lia.
Qed.

Lemma not_ltb_leb (x y : float) :
  isnan x = false -> isnan y = false ->
  PrimFloat.ltb x y = false -> menor_o_igual y x.
Proof.
  unfold menor_o_igual. rewrite FloatAxioms.ltb_spec, FloatAxioms.leb_spec.
  intros Hx Hy. apply not_nan_spec in Hx, Hy. intros H.
  destruct (SFleb (Prim2SF y) (Prim2SF x)) eqn:E; [reflexivity|].
  exfalso.
  assert (Hn : ~ lex (clave (Prim2SF y)) (clave (Prim2SF x))).
  { intros L. apply (SFleb_clave _ _ Hy Hx) in L. congruence. }
  apply (SFltb_clave _ _ Hx Hy) in Hn. congruence.
Qed.

End FloatOrder.

(** ** The reducers of script 5 *)

Module Reducers.
Import Np Estadisticos FloatOrder.

Lemma dropna_not_nan (l : list float) :
  List.Forall (fun x => isnan x = false) (dropna l).
Proof.
  apply List.Forall_forall. intros x Hx. apply filter_In in Hx as [_ Hx].
  now apply negb_true_iff in Hx.
Qed.

(** *** Minimum and maximum *)

Lemma fold_fmin (v seen : list float) (acc : float) :
  List.Forall (fun x => isnan x = false) (seen ++ v) ->
  isnan acc = false -> In acc seen ->
  List.Forall (fun x => menor_o_igual acc x) seen ->
  es_minimo (seen ++ v) (fold_left fmin v acc).
Proof.
  revert seen acc. induction v as [|y v IH]; intros seen acc Hnan Hacc Hin Hle.
  - rewrite app_nil_r. split; assumption.
  - simpl. replace (seen ++ y :: v) with ((seen ++ [y]) ++ v) in *
      by now rewrite <- app_assoc.
    assert (Hy : isnan y = false).
    { apply List.Forall_app in Hnan as [Hnan _].
      apply List.Forall_app in Hnan as [_ Hnan]. now inversion Hnan. }
    assert (Hseen : List.Forall (fun x => isnan x = false) seen).
    { apply List.Forall_app in Hnan as [Hnan _].
      now apply List.Forall_app in Hnan as [Hnan _]. }
    unfold fmin at 2. destruct (PrimFloat.ltb y acc) eqn:E.
    + apply IH; [exact Hnan | exact Hy | apply in_or_app; right; now left |].
      apply List.Forall_app. split.
      * apply List.Forall_forall. intros x Hx.
        apply (leb_trans y acc x); try assumption.
        -- exact (proj1 (List.Forall_forall _ _) Hseen x Hx).
        -- now apply ltb_leb.
        -- exact (proj1 (List.Forall_forall _ _) Hle x Hx).
      * constructor; [now apply leb_refl | constructor].
    + apply IH; [exact Hnan | exact Hacc | apply in_or_app; now left |].
      apply List.Forall_app. split; [exact Hle|].
      constructor; [now apply not_ltb_leb | constructor].
Qed.

Lemma fold_fmax (v seen : list float) (acc : float) :
  List.Forall (fun x => isnan x = false) (seen ++ v) ->
  isnan acc = false -> In acc seen ->
  List.Forall (fun x => menor_o_igual x acc) seen ->
  es_maximo (seen ++ v) (fold_left fmax v acc).
Proof.
  revert seen acc. induction v as [|y v IH]; intros seen acc Hnan Hacc Hin Hle.
  - rewrite app_nil_r. split; assumption.
  - simpl. replace (seen ++ y :: v) with ((seen ++ [y]) ++ v) in *
      by now rewrite <- app_assoc.
    assert (Hy : isnan y = false).
    { apply List.Forall_app in Hnan as [Hnan _].
      apply List.Forall_app in Hnan as [_ Hnan]. now inversion Hnan. }
    assert (Hseen : List.Forall (fun x => isnan x = false) seen).
    { apply List.Forall_app in Hnan as [Hnan _].
      now apply List.Forall_app in Hnan as [Hnan _]. }
    unfold fmax at 2. destruct (PrimFloat.ltb acc y) eqn:E.
    + apply IH; [exact Hnan | exact Hy | apply in_or_app; right; now left |].
      apply List.Forall_app. split.
      * apply List.Forall_forall. intros x Hx.
        apply (leb_trans x acc y); try assumption.
        -- exact (proj1 (List.Forall_forall _ _) Hseen x Hx).
        -- exact (proj1 (List.Forall_forall _ _) Hle x Hx).
        -- now apply ltb_leb.
      * constructor; [now apply leb_refl | constructor].
    + apply IH; [exact Hnan | exact Hacc | apply in_or_app; now left |].
      apply List.Forall_app. split; [exact Hle|].
      constructor; [now apply not_ltb_leb | constructor].
Qed.

Lemma nanmin_spec (l : list float) :
  match dropna l with
  | [] => isnan (nanmin l) = true
  | datos => es_minimo datos (nanmin l)
  end.
Proof.
  unfold nanmin. pose proof (dropna_not_nan l) as Hnan.
  destruct (dropna l) as [|x v]; [reflexivity|].
  apply (fold_fmin v [x] x); [exact Hnan | now inversion Hnan | now left |].
  constructor; [apply leb_refl; now inversion Hnan | constructor].
Qed.

Lemma nanmax_spec (l : list float) :
  match dropna l with
  | [] => isnan (nanmax l) = true
  | datos => es_maximo datos (nanmax l)
  end.
Proof.
  unfold nanmax. pose proof (dropna_not_nan l) as Hnan.
  destruct (dropna l) as [|x v]; [reflexivity|].
  apply (fold_fmax v [x] x); [exact Hnan | now inversion Hnan | now left |].
  constructor; [apply leb_refl; now inversion Hnan | constructor].
Qed.

(** *** Median *)

Lemma insert_sorted_perm (x : float) (l : list float) :
  Permutation (insert_sorted x l) (x :: l).
Proof.
  induction l as [|y l IH]; simpl; [reflexivity|].
  destruct (PrimFloat.leb x y); [reflexivity|].
  rewrite IH. apply perm_swap.
Qed.

Lemma sort_perm (l : list float) : Permutation (sort l) l.
Proof.
  induction l as [|x l IH]; simpl; [reflexivity|].
  rewrite insert_sorted_perm. now apply perm_skip.
Qed.

Lemma insert_sorted_sorted (x : float) (l : list float) :
  isnan x = false -> List.Forall (fun y => isnan y = false) l ->
  StronglySorted menor_o_igual l ->
  StronglySorted menor_o_igual (insert_sorted x l).
Proof.
  intros Hx Hnan Hs. induction Hs as [|y l Hl IH Hy]; simpl.
  - constructor; constructor.
  - assert (Hy' : isnan y = false) by now inversion Hnan.
    assert (Hl' : List.Forall (fun z => isnan z = false) l)
      by now inversion Hnan.
    destruct (PrimFloat.leb x y) eqn:E.
    + constructor; [now constructor|].
      constructor; [exact E|].
      apply List.Forall_forall. intros z Hz.
      apply (leb_trans x y z); try assumption.
      * exact (proj1 (List.Forall_forall _ _) Hl' z Hz).
      * exact (proj1 (List.Forall_forall _ _) Hy z Hz).
    + constructor; [now apply IH|].
      eapply Permutation_Forall; [symmetry; apply insert_sorted_perm|].
      constructor; [now apply leb_total | exact Hy].
Qed.

Lemma sort_sorted (l : list float) :
  List.Forall (fun y => isnan y = false) l ->
  StronglySorted menor_o_igual (sort l).
Proof.
  induction 1 as [|x l Hx Hl IH]; simpl; [constructor|].
  apply insert_sorted_sorted; [exact Hx | | exact IH].
  eapply Permutation_Forall; [symmetry; apply sort_perm | exact Hl].
Qed.

Lemma nanmedian_spec (l : list float) :
  match dropna l with
  | [] => isnan (nanmedian l) = true
  | datos =>
    if (600 <=? List.length l)%nat && Nat.odd (List.length datos)
    then es_central datos (nanmedian l)
    else es_mediana datos (nanmedian l)
  end.
Proof.
  unfold nanmedian. pose proof (dropna_not_nan l) as Hnan.
  pose proof (sort_perm (dropna l)) as Hperm.
  pose proof (sort_sorted (dropna l) Hnan) as Hsorted.
  pose proof (Permutation_length Hperm) as Hlen.
  destruct (dropna l) as [|x v] eqn:E.
  - simpl. reflexivity.
  - rewrite Hlen. cbn [List.length].
    destruct ((600 <=? List.length l)%nat && Nat.odd (S (List.length v)))
      eqn:C.
    + exists (sort (x :: v)). split; [exact Hperm|]. split; [exact Hsorted|].
      apply andb_true_iff in C as [_ C]. split; [exact C | reflexivity].
    + exists (sort (x :: v)). split; [exact Hperm|]. split; [exact Hsorted|].
      reflexivity.
Qed.




(** *** Standard deviation *)

Lemma nanstd_spec (suma : list float -> float) (l : list float) :
  match dropna l with
  | [] => isnan (nanstd suma l) = true
  | _ => es_desviacion suma l (nanstd suma l)
  end.
Proof.
  unfold nanstd, es_desviacion.
  destruct (dropna l) as [|x v] eqn:E; [reflexivity|].
  do 2 eexists. split; [reflexivity|]. split; reflexivity.
Qed.

End Reducers.

(** ** Script 5: the stacked bands *)

Module Stage5Facts.
Import Np Stage5 Stage5Datos.


(** There is one NaN. *)
Lemma isnan_is_nan (x : float) : isnan x = true -> x = PrimFloat.nan.
Proof.
  intros H. apply Prim2SF_inj. unfold Prim2SF at 1.
  unfold isnan in H. now rewrite H.
Qed.

Section Script.
Context `{R : Rasterio}.

(** The value of a band of [datos_rasters] at a pixel: the [float32]
    value of the file when it is a datum of the file, NaN otherwise. *)
Lemma px_banda (primero : Archivo) (f : string * Archivo) (r c : Z) :
  px (fst (banda_de (m_nodata (a_meta primero)) f)) r c
  = if es_dato (nodata_aplicado primero (snd f)) (a_px (snd f) r c)
    then float32 (a_px (snd f) r c) else PrimFloat.nan.
Proof.
  assert (G : forall x nd,
             (if PrimFloat.eqb (float32 x) (float32 nd)
              then PrimFloat.nan else float32 x)
             = if negb (isnan (float32 x))
                  && negb (PrimFloat.eqb (float32 x) (float32 nd))
               then float32 x else PrimFloat.nan).
  { intros x nd. destruct (PrimFloat.eqb (float32 x) (float32 nd)).
    - now rewrite andb_false_r.
    - rewrite andb_true_r. destruct (isnan (float32 x)) eqn:N;
        [now apply isnan_is_nan | reflexivity]. }
  unfold banda_de, manejar_nodata, nodata_aplicado, es_dato, a_nan.
  simpl.
  destruct (m_nodata (a_meta primero)) as [nd|]; simpl; [apply G|].
  destruct (m_nodata (a_meta (snd f))) as [nd|]; simpl; [apply G|].
  rewrite andb_true_r.
  destruct (isnan (float32 (a_px (snd f) r c))) eqn:N;
    [now apply isnan_is_nan | reflexivity].
Qed.


(** Reading keeps the order of the files and drops those that fail. *)
Lemma leer_rasters_legibles (ref_nodata : option float)
      (archivos : list (string * Py.exc Archivo)) :
  leer_rasters ref_nodata archivos
  = map (banda_de ref_nodata) (legibles archivos).
Proof.
  induction archivos as [|[nombre [a|e]] rest IH]; simpl;
    [reflexivity | now rewrite IH | exact IH].
Qed.

Lemma manejar_nodata_shape (ref_nodata meta_nodata : option float)
      (data : ndarray float) :
  nrows (manejar_nodata ref_nodata meta_nodata data) = nrows data /\
  ncols (manejar_nodata ref_nodata meta_nodata data) = ncols data.
Proof.
  unfold manejar_nodata.
  destruct ref_nodata; [split; reflexivity|].
  destruct meta_nodata; split; reflexivity.
Qed.

Lemma combine_swap {A B : Type} (l : list (A * B)) :
  combine (map snd l) (map fst l) = map (fun p => (snd p, fst p)) l.
Proof. induction l as [|[a b] l IH]; simpl; [reflexivity | now rewrite IH]. Qed.

(** The shapes [np.stack] compares are those of the files. *)
Lemma stack_shapes (ref_nodata : option float) (a : Archivo)
      (rest : list (string * Py.exc Archivo)) (d0 : ndarray float) :
  nrows d0 = m_height (a_meta a) -> ncols d0 = m_width (a_meta a) ->
  forallb (fun x => (nrows x =? nrows d0) && (ncols x =? ncols d0))
          (map fst (leer_rasters ref_nodata rest))
  = forallb (misma_forma a) rest.
Proof.
  intros Hr Hc.
  induction rest as [|[nombre [b|e]] rest IH]; simpl; [reflexivity| |exact IH].
  rewrite IH. f_equal. unfold misma_forma, forma. simpl.
  destruct (manejar_nodata_shape ref_nodata (m_nodata (a_meta b))
              (astype_float32
                 (mkArr (m_height (a_meta b)) (m_width (a_meta b)) (a_px b))))
    as [-> ->].
  simpl. now rewrite Hr, Hc.
Qed.

(** The script on a list of files whose first one can be read. *)
Lemma combinar_first_legible (nombre : string) (a : Archivo)
      (rest : list (string * Py.exc Archivo)) :
  combinar_rasters_ndvi ((nombre, Py.Ok a) :: rest)
  = let leidos := leer_rasters (m_nodata (a_meta a))
                               ((nombre, Py.Ok a) :: rest) in
    let datos_rasters := map fst leidos in
    if forallb (misma_forma a) rest
    then Py.Ok (mkCombinado
                  ([("mediana", along_axis0 nanmedian datos_rasters);
                    ("min", along_axis0 nanmin datos_rasters);
                    ("max", along_axis0 nanmax datos_rasters);
                    ("sd", nanstd_axis0 datos_rasters)]%string
                   ++ map (fun p => (snd p, fst p)) leidos)
                  (mkMeta (m_height (a_meta a)) (m_width (a_meta a))
                          (m_crs (a_meta a)) (m_transform (a_meta a))
                          (Some PrimFloat.nan)))
    else Py.Raise Py.ValueError.
Proof.
  unfold combinar_rasters_ndvi. simpl.
  set (d0 := manejar_nodata _ _ _).
  assert (Hs : nrows d0 = m_height (a_meta a) /\
               ncols d0 = m_width (a_meta a))
    by apply manejar_nodata_shape.
  destruct Hs as [Hr Hc].
  rewrite (stack_shapes _ a rest d0 Hr Hc).
  destruct (forallb (misma_forma a) rest); simpl; [|reflexivity].
  now rewrite combine_swap.
Qed.

End Script.
End Stage5Facts.

Module BandStack.
Import Np Stage5 Stage5Datos Estadisticos UnitGrid Ejemplos Casos.



End BandStack.

(** ** Geometry checks before stacking *)

Module Geometry.
Import Np UnitGrid Ejemplos.

(** C5, as the scripts have it.  Script 5 compares no geometry: it takes
    height, width, CRS and transform from the first file and stacks
    whatever it reads; the only thing that stops it is a band of another
    shape, on which [np.stack] raises and the script ends.  Script 9
    compares, once and before any band is read, the widths, the heights
    and the CRS of the two clipped rasters with those of the NDVI raster,
    and exits with status 1 when one of them differs. *)
Theorem geometry_checks `{R : Rasterio} :
  (forall (nombre : string) (a : Stage5.Archivo)
          (rest : list (string * Py.exc Stage5.Archivo)),
      (forallb (Stage5.misma_forma a) rest = true ->
       exists out,
         Stage5.combinar_rasters_ndvi ((nombre, Py.Ok a) :: rest)
           = Py.Ok out /\
         Stage5.meta_final out
         = Stage5.mkMeta (Stage5.m_height (Stage5.a_meta a))
                         (Stage5.m_width (Stage5.a_meta a))
                         (Stage5.m_crs (Stage5.a_meta a))
                         (Stage5.m_transform (Stage5.a_meta a))
                         (Some PrimFloat.nan)) /\
      (forallb (Stage5.misma_forma a) rest = false ->
       Stage5.combinar_rasters_ndvi ((nombre, Py.Ok a) :: rest)
         = Py.Raise Py.ValueError))
  /\ (forall (existe_ndvi existe_invierno existe_verano : bool)
             (src_ndvi src_inv src_ver : Dataset float)
             (nombre_banda : Z -> string),
         (Stage9.dimensiones_distintas src_ndvi src_inv src_ver = false <->
          ds_width src_inv = ds_width src_ndvi /\
          ds_height src_inv = ds_height src_ndvi /\
          ds_width src_ver = ds_width src_ndvi /\
          ds_height src_ver = ds_height src_ndvi) /\
         (Stage9.crs_distintos src_ndvi src_inv src_ver = false <->
          crs_eqb (ds_crs src_inv) (ds_crs src_ndvi) = true /\
          crs_eqb (ds_crs src_ver) (ds_crs src_ndvi) = true) /\
         (Stage9.dimensiones_distintas src_ndvi src_inv src_ver = true \/
          Stage9.crs_distintos src_ndvi src_inv src_ver = true ->
          Stage9.combinar_recortes_con_ndvi
            existe_ndvi existe_invierno existe_verano
            src_ndvi src_inv src_ver nombre_banda
          = Py.Raise (Py.SystemExit 1)) /\
         (existe_ndvi = true -> existe_invierno = true ->
          existe_verano = true ->
          Stage9.dimensiones_distintas src_ndvi src_inv src_ver = false ->
          Stage9.crs_distintos src_ndvi src_inv src_ver = false ->
          Stage9.combinar_recortes_con_ndvi
            existe_ndvi existe_invierno existe_verano
            src_ndvi src_inv src_ver nombre_banda
          = (try! banda_invierno := Stage9.leer_recorte src_inv in
             try! banda_verano := Stage9.leer_recorte src_ver in
             try! bandas_ndvi :=
               Stage9.leer_bandas_ndvi src_ndvi (Stage9.band_range src_ndvi) in
             Py.Ok (combine (["invierno"; "verano"]%string
                               ++ map nombre_banda (Stage9.band_range src_ndvi))
                            ([banda_invierno; banda_verano] ++ bandas_ndvi))))).
Proof.
  split.
  - intros nombre a rest. split; intros H.
    + rewrite Stage5Facts.combinar_first_legible. cbv zeta. rewrite H.
      eexists. split; reflexivity.
    + rewrite Stage5Facts.combinar_first_legible. cbv zeta. now rewrite H.
  - intros e1 e2 e3 src_ndvi src_inv src_ver nombre_banda.
    split; [|split; [|split]].
    + unfold Stage9.dimensiones_distintas.
      rewrite !orb_false_iff, !negb_false_iff, !Z.eqb_eq. tauto.
    + unfold Stage9.crs_distintos.
      rewrite !orb_false_iff, !negb_false_iff. tauto.
    + intros H. unfold Stage9.combinar_recortes_con_ndvi.
      destruct (negb e1 || negb e2 || negb e3); [reflexivity|].
      destruct (Stage9.dimensiones_distintas _ _ _); [reflexivity|].
      destruct H as [H|H]; [discriminate | now rewrite H].
    + intros -> -> -> Hd Hc. unfold Stage9.combinar_recortes_con_ndvi.
      simpl. now rewrite Hd, Hc.
Qed.

Lemma geometry_checks_witness :
  exists out,
    Stage5.combinar_rasters_ndvi
      [("2023-01", Py.Ok banda_1); ("2023-02", Py.Ok banda_2)]%string
      = Py.Ok out /\
    Stage5.meta_final out
    = Stage5.mkMeta 2 2 0 (0, 0) (Some PrimFloat.nan).
Proof.
  exact (proj1 (proj1 (geometry_checks (R := UnitGrid.rasterio))
                      "2023-01"%string banda_1
                      [("2023-02", Py.Ok banda_2)]%string)
               eq_refl).
Defined.

(** C5 does not hold as stated.  The second band lies on another grid
    (another CRS, another transform) and has the shape of the first;
    script 5 stacks the two and produces its file. *)
Lemma stacker_accepts_other_grid :
  Stage5.m_crs (Stage5.a_meta banda_1)
    <> Stage5.m_crs (Stage5.a_meta banda_otra_grilla) /\
  Stage5.m_transform (Stage5.a_meta banda_1)
    <> Stage5.m_transform (Stage5.a_meta banda_otra_grilla) /\
  exists out,
    Stage5.combinar_rasters_ndvi
      [("2023-01", Py.Ok banda_1);
       ("2023-02", Py.Ok banda_otra_grilla)]%string
    = Py.Ok out.
Proof.
  split; [simpl; discriminate|]. split; [simpl; intros [=]|].
  rewrite Stage5Facts.combinar_first_legible. cbv zeta. simpl forallb.
  eexists. reflexivity.
Qed.

End Geometry.

(** A loop over a list without repeats in which one element only
    contributes. *)
Lemma flat_map_solo {A : Type} (f : Z -> list A) (l : list Z) (k : Z) :
  List.NoDup l -> In k l -> (forall x, x <> k -> f x = []) ->
  flat_map f l = f k.
Proof.
  intros Hnd Hin Hf.
  assert (Hout : forall l', ~ In k l' -> flat_map f l' = []).
  { induction l' as [|x l' IH]; intros Hk; simpl; [reflexivity|].
    rewrite Hf by (intros ->; apply Hk; now left).
    apply IH. intros H. apply Hk. now right. }
  induction l as [|x l IH]; [destruct Hin|].
  apply List.NoDup_cons_iff in Hnd as [Hx Hnd]. simpl.
  destruct Hin as [->|Hin].
  - rewrite (Hout l Hx). apply app_nil_r.
  - rewrite Hf by (intros ->; contradiction). now apply IH.
Qed.

(** The same for an element that occurs once, whatever else repeats. *)
Lemma flat_map_una_vez {A : Type} (f : Z -> list A) (l : list Z) (k : Z) :
  count_occ Z.eq_dec l k = 1%nat -> (forall x, x <> k -> f x = []) ->
  flat_map f l = f k.
Proof.
  intros Hone Hf.
  assert (Hout : forall l', count_occ Z.eq_dec l' k = 0%nat ->
                            flat_map f l' = []).
  { induction l' as [|x l' IH]; simpl; [reflexivity|].
    destruct (Z.eq_dec x k) as [->|Hne]; [discriminate|].
    intros H. rewrite (Hf x Hne). now apply IH. }
  induction l as [|x l IH]; [discriminate|]. simpl in *.
  destruct (Z.eq_dec x k) as [->|Hne].
  - rewrite Hout by lia. apply app_nil_r.
  - rewrite (Hf x Hne). now apply IH.
Qed.

(** ** Script 2: the samples behind a mean *)

Module Stage2Samples.
Import Np Partition Stage2 Stage2Facts Stage2Muestras UnitGrid Ejemplos Casos.

Lemma lookup_extend (resultados : Resultados) (k : Z) (values : list float)
      (cat : Z) :
  default [] (extend resultados k values !! cat)
  = default [] (resultados !! cat) ++ (if k =? cat then values else []).
Proof.
  unfold extend. destruct (Z.eqb_spec k cat) as [->|Hne].
  - now rewrite lookup_insert_eq.
  - rewrite lookup_insert_ne by exact Hne. now rewrite app_nil_r.
Qed.

Lemma lookup_acumular_categoria (exclude_values : list Z)
      (nodata : option float) (inta_chunk : ndarray Z)
      (ndvi_chunk : ndarray float) (resultados : Resultados) (k cat : Z) :
  default [] (acumular_categoria exclude_values nodata inta_chunk ndvi_chunk
                                 resultados k !! cat)
  = default [] (resultados !! cat)
    ++ (if (k =? cat) && negb (excluded exclude_values k)
        then muestras nodata inta_chunk ndvi_chunk cat else []).
Proof.
  rewrite acumular_categoria_eq.
  destruct (excluded exclude_values k);
    [now rewrite andb_false_r, app_nil_r|].
  rewrite andb_true_r.
  destruct (muestras nodata inta_chunk ndvi_chunk k) as [|x l] eqn:E.
  - destruct (Z.eqb_spec k cat) as [->|]; [rewrite E|]; now rewrite app_nil_r.
  - rewrite lookup_extend.
    destruct (Z.eqb_spec k cat) as [->|]; [now rewrite E | reflexivity].
Qed.

Lemma lookup_acumular (categorias exclude_values : list Z)
      (nodata : option float) (inta_chunk : ndarray Z)
      (ndvi_chunk : ndarray float) (resultados : Resultados) (cat : Z) :
  default [] (acumular categorias exclude_values nodata inta_chunk ndvi_chunk
                       resultados !! cat)
  = default [] (resultados !! cat)
    ++ flat_map (fun k => if (k =? cat) && negb (excluded exclude_values k)
                          then muestras nodata inta_chunk ndvi_chunk cat
                          else [])
                categorias.
Proof.
  unfold acumular. revert resultados.
  induction categorias as [|k l IH]; intros resultados; simpl.
  - now rewrite app_nil_r.
  - now rewrite IH, lookup_acumular_categoria, <- app_assoc.
Qed.

Section Script.
Context `{R : Rasterio}.
Variable src_inta : Dataset Z.
Variable src_ndvi : Dataset float.
Variable heap : Window -> Z -> Z -> float.
Variable categorias exclude_values : list Z.
Variable chunk_size : Z.

(** What the loop over the categories adds to the list of [cat] for
    chunk [ij]: the samples of the chunk once for every time the
    category is listed. *)
Abbreviation aporte ij cat :=
  (flat_map (fun k => if (k =? cat) && negb (excluded exclude_values k)
                      then muestras_ventana src_inta src_ndvi heap
                                            chunk_size ij cat
                      else [])
            categorias).

Lemma lookup_procesar_ventana (resultados : Resultados) (ij : Z * Z)
      (cat : Z) :
  default [] (procesar_ventana src_inta src_ndvi heap categorias
                               exclude_values chunk_size resultados ij
              !! cat)
  = default [] (resultados !! cat) ++ aporte ij cat.
Proof.
  unfold procesar_ventana, muestras_ventana.
  destruct (chunk_window _ _ _ _ _) as [window|].
  - destruct (leer_ventana _ _ _ _) as [[inta ndvi]|].
    + apply lookup_acumular.
    + replace (flat_map _ categorias) with ([] : list float);
        [now rewrite app_nil_r|].
      symmetry. clear. induction categorias as [|k l IH]; simpl;
        [reflexivity|]. now destruct (_ && _).
  - replace (flat_map _ categorias) with ([] : list float);
      [now rewrite app_nil_r|].
    symmetry. clear. induction categorias as [|k l IH]; simpl;
      [reflexivity|]. now destruct (_ && _).
Qed.

Lemma lookup_ventanas (l : list (Z * Z)) (resultados : Resultados)
      (cat : Z) :
  default [] (fold_left (procesar_ventana src_inta src_ndvi heap categorias
                                          exclude_values chunk_size)
                        l resultados !! cat)
  = default [] (resultados !! cat)
    ++ flat_map (fun ij => aporte ij cat) l.
Proof.
  revert resultados. induction l as [|ij l IH]; intros resultados; simpl.
  - now rewrite app_nil_r.
  - now rewrite IH, lookup_procesar_ventana, <- app_assoc.
Qed.

(** The list of a category at the end of the loop, when the category
    is listed once and not excluded. *)
Lemma lookup_acumular_ventanas (cat : Z) :
  count_occ Z.eq_dec categorias cat = 1%nat ->
  excluded exclude_values cat = false ->
  default [] (acumular_ventanas src_inta src_ndvi heap categorias
                                exclude_values chunk_size !! cat)
  = muestras_raster src_inta src_ndvi heap chunk_size cat.
Proof.
  intros Hone Hex. unfold acumular_ventanas, muestras_raster.
  rewrite lookup_ventanas, lookup_empty. simpl.
  apply flat_map_ext. intros ij.
  rewrite (flat_map_una_vez _ categorias cat Hone).
  - now rewrite Z.eqb_refl, Hex.
  - intros k Hk. destruct (Z.eqb_spec k cat); [contradiction | reflexivity].
Qed.

End Script.

(** X4.  With a chunk size other than zero, a category that is listed
    once (whatever else the list repeats) and is not excluded gets as
    its value [np.mean] of all its valid NDVI pixels: the [float32]
    values of the pixels of its class that are not NaN and not, in
    [float32], the nodata value, of every window that is read, each
    pixel once, the windows in the order of the loop and the pixels of
    a window in row-major order.  A window that is left unread
    contributes nothing, and a category without any such pixel has no
    key. *)
Theorem promedio_de_todas_las_muestras `{R : Rasterio}
        (src_inta : Dataset Z) (src_ndvi : Dataset float)
        (heap : Window -> Z -> Z -> float)
        (categorias exclude_values : list Z) (chunk_size cat : Z) :
  chunk_size <> 0 ->
  count_occ Z.eq_dec categorias cat = 1%nat ->
  excluded exclude_values cat = false ->
  exists promedios,
    procesar_ndvi_por_categoria src_inta src_ndvi heap categorias
                                exclude_values chunk_size
      = Py.Ok promedios /\
    promedios !! cat
    = match muestras_raster src_inta src_ndvi heap chunk_size cat with
      | [] => None
      | x :: l => Some (mean (x :: l))
      end.
Proof.
  intros Hc Hone Hex. eexists.
  split; [now apply Promedios.procesar_returns|].
  rewrite Promedios.finalizar_lookup.
  rewrite <- (lookup_acumular_ventanas src_inta src_ndvi heap categorias
                exclude_values chunk_size cat Hone Hex).
  destruct (acumulado_ventanas src_inta src_ndvi heap categorias
              exclude_values chunk_size cat) as [_ Hl].
  destruct (acumular_ventanas _ _ _ _ _ _ !! cat) as [l|]; [|reflexivity].
  destruct (Hl l eq_refl) as [Hne _]. simpl.
  destruct l as [|x l]; [contradiction | reflexivity].
Qed.

Lemma promedio_de_todas_las_muestras_witness :
  muestras_raster t_inta_8 t_ndvi_8 (fun _ _ _ => 0%float) 2000 1
    = [9007199254740992; 1; 1; 1; 1; 1; 1; 1]%float /\
  mean [9007199254740992; 1; 1; 1; 1; 1; 1; 1]%float
    = 1125899906842624.75%float /\
  exists promedios,
    procesar_ndvi_por_categoria t_inta_8 t_ndvi_8 (fun _ _ _ => 0%float)
                                [1; 2; 2] [255; 0] 2000
      = Py.Ok promedios /\
    promedios !! 1
    = match muestras_raster t_inta_8 t_ndvi_8 (fun _ _ _ => 0%float)
                            2000 1 with
      | [] => None
      | x :: l => Some (mean (x :: l))
      end.
Proof.
  split; [vm_compute; reflexivity|].
  split; [vm_compute; reflexivity|].
  apply (promedio_de_todas_las_muestras
           t_inta_8 t_ndvi_8 (fun _ _ _ => 0%float) [1; 2; 2] [255; 0]
           2000 1 ltac:(discriminate)).
  - reflexivity.
  - reflexivity.
Defined.

End Stage2Samples.


(** ** Script 2: the loops of [main] *)

Module Stage2MainFacts.
Import Stage2 Stage2Main UnitGrid Ejemplos Casos.

Lemma series_vacias_fuera (categorias : list Z) (d : Series) (k : Z) :
  ~ In k categorias ->
  fold_left (fun (d : Series) (cat : Z) => <[cat := []]> d) categorias d !! k = d !! k.
Proof.
  revert d. induction categorias as [|cat l IH]; intros d Hk; simpl;
    [reflexivity|].
  rewrite IH by (intros H; apply Hk; now right).
  apply lookup_insert_ne. intros ->. apply Hk. now left.
Qed.

Lemma series_vacias_lookup (categorias : list Z) (k : Z) :
  series_vacias categorias !! k
  = if in_dec Z.eq_dec k categorias then Some [] else None.
Proof.
  unfold series_vacias.
  assert (G : forall d, In k categorias ->
            fold_left (fun (d : Series) (cat : Z) => <[cat := []]> d) categorias d !! k
            = Some []).
  { induction categorias as [|cat l IH]; intros d Hk; [destruct Hk|].
    simpl. destruct (in_dec Z.eq_dec k l) as [Hl|Hl]; [now apply IH|].
    destruct Hk as [->|Hk]; [|contradiction].
    rewrite series_vacias_fuera by exact Hl. apply lookup_insert_eq. }
  destruct (in_dec Z.eq_dec k categorias) as [Hk|Hk].
  - now apply G.
  - rewrite series_vacias_fuera by exact Hk. apply lookup_empty.
Qed.

(** The loop that appends one value per category, on a dict that has
    every category as a key. *)
Lemma guardar_presentes (valor : Z -> float) (categorias : list Z)
      (d : Series) :
  (forall cat, In cat categorias -> is_Some (d !! cat)) ->
  exists d',
    guardar valor categorias d = (d', false) /\
    forall k,
      d' !! k
      = (fun l => l ++ flat_map (fun cat => if cat =? k then [valor cat]
                                            else []) categorias)
          <$> (d !! k).
Proof.
  revert d. induction categorias as [|cat l IH]; intros d Hd; simpl.
  - exists d. split; [reflexivity|]. intros k.
    destruct (d !! k); simpl; [now rewrite app_nil_r | reflexivity].
  - destruct (Hd cat (or_introl eq_refl)) as [x Hx]. rewrite Hx.
    destruct (IH (<[cat := x ++ [valor cat]]> d)) as (d' & Hg & Hl).
    { intros c Hc. destruct (Z.eq_dec cat c) as [->|Hne].
      - rewrite lookup_insert_eq. eauto.
      - rewrite lookup_insert_ne by exact Hne. apply Hd. now right. }
    exists d'. split; [exact Hg|]. intros k. rewrite Hl.
    destruct (Z.eqb_spec cat k) as [->|Hne].
    + rewrite lookup_insert_eq, Hx. simpl. now rewrite <- app_assoc.
    + now rewrite lookup_insert_ne by exact Hne.
Qed.

(** The values the months append to the series of [k]. *)
Abbreviation anexos categorias ps k :=
  (flat_map (fun p : gmap Z float =>
               flat_map (fun cat => if cat =? k
                                    then [default PrimFloat.nan (p !! cat)]
                                    else [])
                        categorias)
            ps).

(** The loop over the months, entered with [promedios] unbound: it ends
    normally exactly when every call returns, and otherwise on the
    [del promedios] of the first month whose call raises. *)
Lemma meses_spec (categorias : list Z)
      (llamadas : list (Py.exc (gmap Z float))) (d : Series) :
  (forall cat, In cat categorias -> is_Some (d !! cat)) ->
  match meses categorias llamadas (mkLocales d None) with
  | Sigue st =>
    promedios st = None /\
    exists ps, llamadas = map Py.Ok ps /\
               forall k, ndvi_por_categoria st !! k
                         = (fun l => l ++ anexos categorias ps k) <$> (d !! k)
  | Sale e =>
    e = UnboundLocalError /\
    List.Exists (fun c => exists x, c = Py.Raise x) llamadas
  end.
Proof.
  revert d. induction llamadas as [|c l IH]; intros d Hd; simpl.
  - split; [reflexivity|]. exists []. split; [reflexivity|]. intros k.
    destruct (d !! k); simpl; [now rewrite app_nil_r | reflexivity].
  - destruct c as [p|x]; unfold mes, intentar; simpl.
    + destruct (guardar_presentes
                  (fun cat => default PrimFloat.nan (p !! cat))
                  categorias d Hd) as (d' & Hg & Hl).
      rewrite Hg. simpl.
      assert (Hd' : forall cat, In cat categorias -> is_Some (d' !! cat)).
      { intros cat Hcat. rewrite Hl, fmap_is_Some. now apply Hd. }
      specialize (IH d' Hd').
      destruct (meses categorias l (mkLocales d' None)) as [st|e].
      * destruct IH as (Hp & ps & -> & Hst). split; [exact Hp|].
        exists (p :: ps). split; [reflexivity|]. intros k.
        rewrite Hst, Hl. destruct (d !! k); simpl; [|reflexivity].
        now rewrite <- app_assoc.
      * destruct IH as [-> Hex]. split; [reflexivity|].
        now apply List.Exists_cons_tl.
    + destruct (guardar_presentes (fun _ => PrimFloat.nan) categorias d Hd)
        as (d' & Hg & _).
      rewrite Hg. simpl. split; [reflexivity|].
      apply List.Exists_cons_hd. now exists x.
Qed.

Lemma series_vacias_presentes (categorias : list Z) (cat : Z) :
  In cat categorias -> is_Some (series_vacias categorias !! cat).
Proof.
  intros H. rewrite series_vacias_lookup.
  destruct (in_dec Z.eq_dec cat categorias); [eauto | contradiction].
Qed.

Lemma NoDup_categorias_validas (vals : list Z) :
  List.NoDup vals -> List.NoDup (categorias_validas vals).
Proof. apply List.NoDup_filter. Qed.

Lemma Exists_map_Ok {A : Type} (ps : list A) :
  ~ List.Exists (fun c => exists x, c = Py.Raise x) (map Py.Ok ps).
Proof.
  intros H. apply List.Exists_exists in H as (c & Hc & x & ->).
  apply in_map_iff in Hc as (p & Hp & _). discriminate.
Qed.

Section Main.
Context `{R : Rasterio}.

(** The loop of a season. *)
Lemma temporada_spec (categorias : list Z) (archivos : list Mes) :
  match temporada categorias archivos None with
  | Sigue st =>
    promedios st = None /\
    exists ps, map (llamada categorias) archivos = map Py.Ok ps /\
               forall k, ndvi_por_categoria st !! k
                         = (fun l => l ++ anexos categorias ps k)
                             <$> (series_vacias categorias !! k)
  | Sale e =>
    e = UnboundLocalError /\
    List.Exists (fun m => exists x, llamada categorias m = Py.Raise x)
                archivos
  end.
Proof.
  unfold temporada.
  pose proof (meses_spec categorias (map (llamada categorias) archivos)
                         (series_vacias categorias)
                         (series_vacias_presentes categorias)) as H.
  destruct (meses _ _ _) as [st|e]; [exact H|].
  destruct H as [-> H]. split; [reflexivity|].
  apply List.Exists_exists in H as (c & Hc & x & ->).
  apply in_map_iff in Hc as (m & Hm & Hin).
  apply List.Exists_exists. exists m. split; [exact Hin | now exists x].
Qed.

Lemma llamadas_Ok (categorias : list Z) (archivos : list Mes)
      (ps : list (gmap Z float)) (cat : Z) :
  map (llamada categorias) archivos = map Py.Ok ps ->
  map (fun p : gmap Z float => default PrimFloat.nan (p !! cat)) ps
  = map (valor_del_mes categorias cat) archivos.
Proof.
  revert ps. induction archivos as [|m l IH]; intros [|p ps] H;
    try discriminate; [reflexivity|].
  simpl in H. injection H as Hm Hl. simpl.
  unfold valor_del_mes at 1. rewrite Hm. f_equal. now apply IH.
Qed.

(** The series of a season that ends normally, for categories listed
    once. *)
Lemma series_de_temporada (categorias : list Z) (archivos : list Mes)
      (st : Locales) (k : Z) :
  List.NoDup categorias ->
  temporada categorias archivos None = Sigue st ->
  ndvi_por_categoria st !! k
  = if in_dec Z.eq_dec k categorias
    then Some (map (valor_del_mes categorias k) archivos)
    else None.
Proof.
  intros Hnd Hst. pose proof (temporada_spec categorias archivos) as H.
  rewrite Hst in H. destruct H as (_ & ps & Hps & Hl).
  rewrite Hl, series_vacias_lookup.
  destruct (in_dec Z.eq_dec k categorias) as [Hk|Hk]; [|reflexivity].
  simpl. f_equal. rewrite <- (llamadas_Ok categorias archivos ps k Hps).
  clear Hps Hl. induction ps as [|p ps IH]; simpl; [reflexivity|].
  rewrite IH. rewrite (flat_map_solo _ categorias k Hnd Hk).
  - now rewrite Z.eqb_refl.
  - intros x Hx. destruct (Z.eqb_spec x k); [contradiction | reflexivity].
Qed.

End Main.

(** X5.  The recovery of a failed month does not save the run.  When
    the call of a month raises, the [except] branch appends NaN for
    every category and the [del promedios] that follows finds the name
    unbound: [main] ends with [UnboundLocalError] at the first such
    month, of either season, and returns nothing.  It ends in no other
    way: it returns exactly when every call of both seasons returns. *)
Theorem failed_month_ends_main `{R : Rasterio}
        (vals_inv vals_ver : list Z) (archivos_inv archivos_ver : list Mes) :
  (List.Exists (fun m => exists x,
                  llamada (categorias_validas vals_inv) m = Py.Raise x)
               archivos_inv
   \/ List.Exists (fun m => exists x,
                     llamada (categorias_validas vals_ver) m = Py.Raise x)
                  archivos_ver
   <-> main vals_inv vals_ver archivos_inv archivos_ver
       = Sale UnboundLocalError)
  /\ (forall e, main vals_inv vals_ver archivos_inv archivos_ver = Sale e ->
                e = UnboundLocalError).
Proof.
  unfold main. cbv zeta.
  pose proof (temporada_spec (categorias_validas vals_inv) archivos_inv)
    as Hinv.
  destruct (temporada (categorias_validas vals_inv) archivos_inv None)
    as [st_inv|e_inv].
  - destruct Hinv as (-> & ps_inv & Hps_inv & _).
    pose proof (temporada_spec (categorias_validas vals_ver) archivos_ver)
      as Hver.
    assert (Hno : ~ List.Exists
                    (fun m => exists x,
                       llamada (categorias_validas vals_inv) m = Py.Raise x)
                    archivos_inv).
    { intros H. apply (Exists_map_Ok ps_inv). rewrite <- Hps_inv.
      apply List.Exists_exists in H as (m & Hm & x & Hx).
      apply List.Exists_exists. exists (Py.Raise x).
      split; [|now exists x]. rewrite <- Hx. now apply in_map. }
    destruct (temporada (categorias_validas vals_ver) archivos_ver None)
      as [st_ver|e_ver].
    + destruct Hver as (_ & ps_ver & Hps_ver & _).
      split; [|discriminate]. split; [|discriminate].
      intros [H|H]; [contradiction|].
      exfalso. apply (Exists_map_Ok ps_ver). rewrite <- Hps_ver.
      apply List.Exists_exists in H as (m & Hm & x & Hx).
      apply List.Exists_exists. exists (Py.Raise x).
      split; [|now exists x]. rewrite <- Hx. now apply in_map.
    + destruct Hver as [-> Hver]. split; [|now intros e [= <-]].
      split; [reflexivity | intros _; now right].
  - destruct Hinv as [-> Hinv]. split; [|now intros e [= <-]].
    split; [reflexivity | intros _; now left].
Qed.

(** X6.  When every call of both seasons returns, [main] returns, and
    the series of a category holds one value per month, in the order of
    the months: the mean the call of the month returned for the
    category, NaN when the call returned no key for it.  A value that
    is listed once in the category table and is not 0 or 255 has such a
    series; no other key exists. *)
Theorem one_value_per_month `{R : Rasterio}
        (vals_inv vals_ver : list Z) (archivos_inv archivos_ver : list Mes) :
  List.NoDup vals_inv -> List.NoDup vals_ver ->
  List.Forall (fun m => exists p,
                 llamada (categorias_validas vals_inv) m = Py.Ok p)
              archivos_inv ->
  List.Forall (fun m => exists p,
                 llamada (categorias_validas vals_ver) m = Py.Ok p)
              archivos_ver ->
  exists series_inv series_ver,
    main vals_inv vals_ver archivos_inv archivos_ver
      = Sigue (series_inv, series_ver) /\
    (forall cat,
        series_inv !! cat
        = if in_dec Z.eq_dec cat (categorias_validas vals_inv)
          then Some (map (valor_del_mes (categorias_validas vals_inv) cat)
                         archivos_inv)
          else None) /\
    (forall cat,
        series_ver !! cat
        = if in_dec Z.eq_dec cat (categorias_validas vals_ver)
          then Some (map (valor_del_mes (categorias_validas vals_ver) cat)
                         archivos_ver)
          else None).
Proof.
  intros Hnd_inv Hnd_ver Hinv Hver.
  apply NoDup_categorias_validas in Hnd_inv, Hnd_ver.
  assert (Hno : forall categorias (archivos : list Mes),
             List.Forall (fun m => exists p, llamada categorias m = Py.Ok p)
                         archivos ->
             ~ List.Exists (fun m => exists x,
                              llamada categorias m = Py.Raise x) archivos).
  { intros categorias archivos Hall Hex.
    apply List.Exists_exists in Hex as (m & Hm & x & Hx).
    destruct (proj1 (List.Forall_forall _ _) Hall m Hm) as [p Hp].
    congruence. }
  unfold main. cbv zeta.
  pose proof (temporada_spec (categorias_validas vals_inv) archivos_inv)
    as Sinv.
  destruct (temporada (categorias_validas vals_inv) archivos_inv None)
    as [st_inv|e_inv] eqn:Einv;
    [|destruct Sinv as [_ Sinv]; now apply Hno in Sinv].
  destruct Sinv as (Hp & _). rewrite Hp.
  pose proof (temporada_spec (categorias_validas vals_ver) archivos_ver)
    as Sver.
  destruct (temporada (categorias_validas vals_ver) archivos_ver None)
    as [st_ver|e_ver] eqn:Ever;
    [|destruct Sver as [_ Sver]; now apply Hno in Sver].
  exists (ndvi_por_categoria st_inv), (ndvi_por_categoria st_ver).
  split; [reflexivity|]. split; intros cat.
  - now apply series_de_temporada.
  - now apply series_de_temporada.
Qed.

Lemma one_value_per_month_witness :
  exists series_inv series_ver,
    main [0; 1; 2; 255] [1] [mes_bueno; mes_bueno] [mes_bueno]
      = Sigue (series_inv, series_ver) /\
    (forall cat,
        series_inv !! cat
        = if in_dec Z.eq_dec cat (categorias_validas [0; 1; 2; 255])
          then Some (map (valor_del_mes (categorias_validas [0; 1; 2; 255])
                                        cat)
                         [mes_bueno; mes_bueno])
          else None) /\
    (forall cat,
        series_ver !! cat
        = if in_dec Z.eq_dec cat (categorias_validas [1])
          then Some (map (valor_del_mes (categorias_validas [1]) cat)
                         [mes_bueno])
          else None).
Proof.
  apply (one_value_per_month (R := UnitGrid.rasterio)).
  - repeat constructor; simpl; intuition discriminate.
  - repeat constructor; simpl; intuition discriminate.
  - repeat constructor; eexists; reflexivity.
  - repeat constructor; eexists; reflexivity.
Defined.

Lemma failed_month_ends_main_witness :
  main [0; 1; 2; 255] [1] [mes_bueno; mes_roto; mes_bueno] [mes_bueno]
  = Sale UnboundLocalError.
Proof.
  apply (proj1 (failed_month_ends_main (R := UnitGrid.rasterio)
                  [0; 1; 2; 255] [1] [mes_bueno; mes_roto; mes_bueno]
                  [mes_bueno])).
  left. apply List.Exists_cons_tl, List.Exists_cons_hd.
  exists Py.IOError. reflexivity.
Defined.
End Stage2MainFacts.



(** ** Script 2: the category table *)

Module Stage2QmlFacts.
Import Stage2 Stage2Qml Casos.

Abbreviation por_valor := (fun t u : Fila => valor t <= valor u).

Lemma insertar_perm (t : Fila) (l : list Fila) :
  Permutation (insertar t l) (t :: l).
Proof.
  induction l as [|u l IH]; simpl; [reflexivity|].
  destruct (valor t <=? valor u); [reflexivity|].
  rewrite IH. apply perm_swap.
Qed.

Lemma sorted_perm (l : list Fila) : Permutation (sorted_por_valor l) l.
Proof.
  induction l as [|t l IH]; simpl; [reflexivity|].
  rewrite insertar_perm. now apply perm_skip.
Qed.

Lemma insertar_sorted (t : Fila) (l : list Fila) :
  StronglySorted por_valor l -> StronglySorted por_valor (insertar t l).
Proof.
  induction 1 as [|u l Hl IH Hu]; simpl.
  - constructor; constructor.
  - destruct (Z.leb_spec (valor t) (valor u)) as [Hle|Hgt].
    + constructor; [now constructor|].
      constructor; [exact Hle|].
      eapply List.Forall_impl; [|exact Hu]. simpl. intros; lia.
    + constructor; [exact IH|].
      eapply Permutation_Forall; [symmetry; apply insertar_perm|].
      constructor; [lia | exact Hu].
Qed.

Lemma sorted_sorted (l : list Fila) :
  StronglySorted por_valor (sorted_por_valor l).
Proof.
  induction l as [|t l IH]; simpl; [constructor | now apply insertar_sorted].
Qed.

(** The sort is stable: the rows of one value keep their order. *)
Lemma insertar_filter (t : Fila) (l : list Fila) (v : Z) :
  List.filter (fun u => valor u =? v) (insertar t l)
  = List.filter (fun u => valor u =? v) (t :: l).
Proof.
  induction l as [|u l IH]; [reflexivity|]. cbn [insertar].
  destruct (Z.leb_spec (valor t) (valor u)) as [Hle|Hgt]; [reflexivity|].
  cbn [List.filter]. rewrite IH. cbn [List.filter].
  destruct (Z.eqb_spec (valor u) v), (Z.eqb_spec (valor t) v);
    try reflexivity. lia.
Qed.

Lemma sorted_filter (l : list Fila) (v : Z) :
  List.filter (fun u => valor u =? v) (sorted_por_valor l)
  = List.filter (fun u => valor u =? v) l.
Proof.
  induction l as [|t l IH]; [reflexivity|].
  cbn [sorted_por_valor fold_right].
  rewrite insertar_filter. cbn [List.filter].
  fold (sorted_por_valor l). now rewrite IH.
Qed.

Lemma sorted_values (z : list Fila) :
  StronglySorted por_valor z -> StronglySorted Z.le (map valor z).
Proof.
  induction 1 as [|u l Hl IH Hu]; simpl; constructor; [exact IH|].
  apply List.Forall_map. exact Hu.
Qed.

Lemma combine_filas (z : list Fila) :
  combine (combine (map valor z) (map (fun t => snd (fst t)) z)) (map snd z)
  = z.
Proof.
  induction z as [|[[v h] l] z IH]; simpl; [reflexivity | now rewrite IH].
Qed.

Lemma filter_sorted (f : Z -> bool) (l : list Z) :
  StronglySorted Z.le l -> StronglySorted Z.le (List.filter f l).
Proof.
  induction 1 as [|x l Hl IH Hx]; simpl; [constructor|].
  destruct (f x); [|exact IH]. constructor; [exact IH|].
  apply List.Forall_forall. intros y Hy. apply filter_In in Hy as [Hy _].
  exact (proj1 (List.Forall_forall _ _) Hx y Hy).
Qed.

Section Parser.
Variable int_float : string -> Py.exc Z.
Variable hex_de_rgb : list string -> option string.

(** The loop keeps the items that have a label and a value, in their
    order, one row for each. *)
Lemma leer_items_spec (items : list Item) (filas : list Fila) :
  leer_items int_float hex_de_rgb items = Py.Ok filas ->
  Forall2 (fila_de int_float hex_de_rgb) (List.filter con_datos items) filas.
Proof.
  revert filas. induction items as [|it items IH]; intros filas H.
  - injection H as <-. constructor.
  - simpl in H. simpl List.filter.
    destruct (label it) as [l|] eqn:El.
    + destruct (value it) as [v|] eqn:Ev.
      * destruct (con_datos it); [|now apply IH].
        apply bind_Ok in H as (n & Hn & H).
        apply bind_Ok in H as (rest & Hrest & H). injection H as <-.
        constructor; [|now apply IH].
        exists l, v. repeat split; assumption.
      * assert (E : con_datos it = false)
          by (unfold con_datos; rewrite Ev; apply andb_false_r).
        rewrite E. now apply IH.
    + assert (E : con_datos it = false)
        by (unfold con_datos; now rewrite El).
      rewrite E. now apply IH.
Qed.

Lemma leer_items_sin_datos (items : list Item) :
  List.Forall (fun it => con_datos it = false) items ->
  leer_items int_float hex_de_rgb items = Py.Ok [].
Proof.
  induction 1 as [|it items Hit _ IH]; simpl; [reflexivity|].
  rewrite Hit. destruct (label it); [|exact IH].
  destruct (value it); exact IH.
Qed.

End Parser.

(** X7.  When the parser returns, its three lists have one length and,
    read side by side, are the rows of the items that have a label and
    a value (the value converted to an integer, the colour normalised),
    sorted by value: the values ascend, every row is there once with
    its own label and colour, and rows of one value keep the order of
    the file. *)
Theorem qml_table_sorted_by_value
        (int_float : string -> Py.exc Z)
        (hex_de_rgb : list string -> option string)
        (arbol : Py.exc (list Item))
        (vals : list Z) (labels hex_colors : list string) :
  parsear_categorias_qml int_float hex_de_rgb arbol
    = Py.Ok (vals, labels, hex_colors) ->
  exists items filas,
    arbol = Py.Ok items /\
    Forall2 (fila_de int_float hex_de_rgb)
            (List.filter con_datos items) filas /\
    filas <> [] /\
    StronglySorted Z.le vals /\
    List.length labels = List.length vals /\
    List.length hex_colors = List.length vals /\
    Permutation (combine (combine vals hex_colors) labels) filas /\
    forall v,
      List.filter (fun t => valor t =? v)
                  (combine (combine vals hex_colors) labels)
      = List.filter (fun t => valor t =? v) filas.
Proof.
  unfold parsear_categorias_qml. intros H.
  apply bind_Ok in H as (items & Harbol & H).
  apply bind_Ok in H as (filas & Hfilas & H).
  exists items, filas. split; [exact Harbol|].
  split; [now apply leer_items_spec|].
  pose proof (sorted_perm filas) as Hperm.
  pose proof (sorted_sorted filas) as Hsorted.
  pose proof (sorted_filter filas) as Hstable.
  destruct (sorted_por_valor filas) as [|t z] eqn:E; [discriminate|].
  assert (Hv : vals = map valor (t :: z) /\ labels = map snd (t :: z) /\
               hex_colors = map (fun u : Fila => snd (fst u)) (t :: z))
    by (injection H; auto).
  destruct Hv as (-> & -> & ->).
  split; [intros ->; discriminate|].
  split; [now apply sorted_values|].
  split; [now rewrite !List.length_map|].
  split; [now rewrite !List.length_map|].
  rewrite combine_filas. split; [exact Hperm | exact Hstable].
Qed.

Lemma qml_table_sorted_by_value_witness :
  parsear_categorias_qml int_float_qml hex_de_rgb_qml (Py.Ok items_qml)
    = Py.Ok ([1; 2; 2], ["Maiz"; "Soja"; "Trigo"],
             ["#888888"; "#00ff00"; "#ff0000"])%string /\
  exists items filas,
    Py.Ok items_qml = Py.Ok items /\
    Forall2 (fila_de int_float_qml hex_de_rgb_qml)
            (List.filter con_datos items) filas /\
    filas <> [] /\
    StronglySorted Z.le [1; 2; 2] /\
    List.length ["Maiz"; "Soja"; "Trigo"]%string = List.length [1; 2; 2] /\
    List.length ["#888888"; "#00ff00"; "#ff0000"]%string
      = List.length [1; 2; 2] /\
    Permutation (combine (combine [1; 2; 2]
                                  ["#888888"; "#00ff00"; "#ff0000"]%string)
                         ["Maiz"; "Soja"; "Trigo"]%string) filas /\
    forall v,
      List.filter (fun t => valor t =? v)
                  (combine (combine [1; 2; 2]
                                    ["#888888"; "#00ff00"; "#ff0000"]%string)
                           ["Maiz"; "Soja"; "Trigo"]%string)
      = List.filter (fun t => valor t =? v) filas.
Proof.
  split; [reflexivity|].
  exact (qml_table_sorted_by_value int_float_qml hex_de_rgb_qml
           (Py.Ok items_qml) _ _ _ eq_refl).
Defined.

(** X8.  A category table in which no item has both a label and a
    value (an empty table among them) makes the parser raise
    [ValueError]: the sorted list of rows is empty and cannot be
    unpacked into three lists. *)
Theorem qml_without_rows_raises
        (int_float : string -> Py.exc Z)
        (hex_de_rgb : list string -> option string)
        (items : list Item) :
  List.Forall (fun it => truthy (label it) && truthy (value it) = false)
              items ->
  parsear_categorias_qml int_float hex_de_rgb (Py.Ok items)
  = Py.Raise Py.ValueError.
Proof.
  intros H. unfold parsear_categorias_qml. simpl.
  now rewrite (leer_items_sin_datos int_float hex_de_rgb items H).
Qed.

Lemma qml_without_rows_raises_witness :
  parsear_categorias_qml int_float_qml hex_de_rgb_qml (Py.Ok items_sin_datos)
  = Py.Raise Py.ValueError
  /\ parsear_categorias_qml int_float_qml hex_de_rgb_qml (Py.Ok [])
     = Py.Raise Py.ValueError.
Proof.
  split.
  - apply (qml_without_rows_raises int_float_qml hex_de_rgb_qml
                                   items_sin_datos).
    repeat constructor.
  - apply (qml_without_rows_raises int_float_qml hex_de_rgb_qml []).
    constructor.
Defined.

(** X9.  The categories [main] processes: when the parser returns, the
    list filtered at lines 296-297 ascends, and it holds exactly the
    values of the table that are neither 255 nor 0. *)
Theorem categorias_validas_en_orden
        (int_float : string -> Py.exc Z)
        (hex_de_rgb : list string -> option string)
        (arbol : Py.exc (list Item))
        (vals : list Z) (labels hex_colors : list string) :
  parsear_categorias_qml int_float hex_de_rgb arbol
    = Py.Ok (vals, labels, hex_colors) ->
  StronglySorted Z.le (categorias_validas vals) /\
  forall v, In v (categorias_validas vals) <->
            In v vals /\ v <> 255 /\ v <> 0.
Proof.
  intros H. split.
  - apply filter_sorted.
    unfold parsear_categorias_qml in H.
    apply bind_Ok in H as (items & _ & H).
    apply bind_Ok in H as (filas & _ & H).
    pose proof (sorted_sorted filas) as Hsorted.
    destruct (sorted_por_valor filas) as [|t z]; [discriminate|].
    injection H as <- _ _. exact (sorted_values (t :: z) Hsorted).
  - intros v. unfold categorias_validas. rewrite filter_In.
    unfold excluded, EXCLUDE_VALUES. simpl.
    destruct (Z.eqb_spec v 255), (Z.eqb_spec v 0); simpl;
      intuition (try discriminate; try lia).
Qed.

Lemma categorias_validas_en_orden_witness :
  StronglySorted Z.le (categorias_validas [1; 2; 2]) /\
  forall v, In v (categorias_validas [1; 2; 2]) <->
            In v [1; 2; 2] /\ v <> 255 /\ v <> 0.
Proof.
  exact (categorias_validas_en_orden int_float_qml hex_de_rgb_qml
           (Py.Ok items_qml) _ _ _ eq_refl).
Defined.

End Stage2QmlFacts.


(** ** Script 5: files that cannot be read, and nodata *)

Module Stage5Reading.
Import Np Stage5 Stage5Facts Stage5Datos Estadisticos UnitGrid Ejemplos Casos.

Lemma along_axis0_px (reducer : list float -> float) (b : ndarray float)
      (bs : list (ndarray float)) (r c : Z) :
  px (along_axis0 reducer (b :: bs)) r c
  = reducer (map (fun a => px a r c) (b :: bs)).
Proof. reflexivity. Qed.

Lemma nanstd_axis0_px (b : ndarray float) (bs : list (ndarray float))
      (r c : Z) :
  px (nanstd_axis0 (b :: bs)) r c
  = nanstd (suma_axis0 (nrows b) (ncols b))
           (map (fun a => px a r c) (b :: bs)).
Proof. reflexivity. Qed.

Section Script.
Context `{R : Rasterio}.

Lemma legibles_app (l1 l2 : list (string * Py.exc Archivo)) :
  legibles (l1 ++ l2) = legibles l1 ++ legibles l2.
Proof.
  induction l1 as [|[nombre [a|e]] l1 IH]; simpl;
    [reflexivity | now rewrite IH | exact IH].
Qed.

Lemma px_bandas (primero : Archivo) (l : list (string * Archivo))
      (r c : Z) :
  map (fun b => px b r c)
      (map fst (map (banda_de (m_nodata (a_meta primero))) l))
  = valores_pixel primero l r c.
Proof.
  unfold valores_pixel. rewrite !map_map. apply map_ext.
  intros f. apply px_banda.
Qed.

(** The values of the stack at a pixel that are not NaN are the data of
    the pixel. *)
Lemma dropna_valores_pixel (primero : Archivo)
      (l : list (string * Archivo)) (r c : Z) :
  dropna (valores_pixel primero l r c) = datos_pixel primero l r c.
Proof.
  unfold valores_pixel, datos_pixel, dropna.
  induction l as [|f l IH]; [reflexivity|]. cbn [map flat_map List.filter].
  rewrite IH.
  destruct (es_dato _ _) eqn:E; [|reflexivity].
  unfold es_dato in E. apply andb_true_iff in E as [E _].
  now rewrite E.
Qed.

(** The four statistics of a pixel of the file the script writes, as
    reducers over the pixel across the stack. *)
Lemma estadisticos_de_bandas (nombre : string) (a : Archivo)
      (rest : list (string * Py.exc Archivo)) (out : Combinado) (r c : Z) :
  combinar_rasters_ndvi ((nombre, Py.Ok a) :: rest) = Py.Ok out ->
  exists mediana minimo maximo desviacion otras,
    bandas out = [("mediana", mediana); ("min", minimo); ("max", maximo);
                  ("sd", desviacion)]%string ++ otras /\
    px mediana r c
    = nanmedian (valores_pixel a (legibles ((nombre, Py.Ok a) :: rest))
                               r c) /\
    px minimo r c
    = nanmin (valores_pixel a (legibles ((nombre, Py.Ok a) :: rest)) r c) /\
    px maximo r c
    = nanmax (valores_pixel a (legibles ((nombre, Py.Ok a) :: rest)) r c) /\
    px desviacion r c
    = nanstd (suma_axis0 (m_height (a_meta a)) (m_width (a_meta a)))
             (valores_pixel a (legibles ((nombre, Py.Ok a) :: rest)) r c).
Proof.
  rewrite combinar_first_legible. cbv zeta.
  destruct (forallb (misma_forma a) rest); [|discriminate].
  intros [= <-]. rewrite leer_rasters_legibles.
  rewrite <- !px_bandas.
  change (legibles ((nombre, Py.Ok a) :: rest))
    with ((nombre, a) :: legibles rest).
  cbn [map].
  set (b0 := fst (banda_de (m_nodata (a_meta a)) (nombre, a))).
  set (bs := map fst (map (banda_de (m_nodata (a_meta a))) (legibles rest))).
  assert (Hs : nrows b0 = m_height (a_meta a) /\
               ncols b0 = m_width (a_meta a))
    by apply manejar_nodata_shape.
  destruct Hs as [Hr Hc].
  exists (along_axis0 nanmedian (b0 :: bs)), (along_axis0 nanmin (b0 :: bs)),
         (along_axis0 nanmax (b0 :: bs)), (nanstd_axis0 (b0 :: bs)).
  eexists. split; [reflexivity|].
  rewrite !along_axis0_px, nanstd_axis0_px, Hr, Hc.
  repeat split.
Qed.

End Script.

(** X10.  A file that cannot be read is left out, unless it is the
    first.  After a first file that can be read, a file on which
    opening or reading raises changes nothing: the script produces what
    it produces for the list without that file.  When the first file
    cannot be read the script ends with that exception, whatever the
    other files are, and with no file at all it ends with
    [IndexError]. *)
Theorem unreadable_file_is_left_out `{R : Rasterio} :
  (forall (nombre nombre' : string) (a : Archivo) (e : Py.exn)
          (l1 l2 : list (string * Py.exc Archivo)),
      combinar_rasters_ndvi
        ((nombre, Py.Ok a) :: l1 ++ (nombre', Py.Raise e) :: l2)
      = combinar_rasters_ndvi ((nombre, Py.Ok a) :: l1 ++ l2))
  /\ (forall (nombre : string) (e : Py.exn)
             (rest : list (string * Py.exc Archivo)),
         combinar_rasters_ndvi ((nombre, Py.Raise e) :: rest) = Py.Raise e)
  /\ combinar_rasters_ndvi [] = Py.Raise Py.IndexError.
Proof.
  split; [|split; reflexivity].
  intros nombre nombre' a e l1 l2.
  rewrite !combinar_first_legible. cbv zeta.
  rewrite !leer_rasters_legibles.
  assert (E : legibles ((nombre, Py.Ok a) :: l1 ++ (nombre', Py.Raise e) :: l2)
              = legibles ((nombre, Py.Ok a) :: l1 ++ l2)).
  { simpl. f_equal. now rewrite !legibles_app. }
  rewrite E. rewrite !forallb_app. simpl forallb.
  reflexivity.
Qed.



(** X12.  A pixel without data is NaN in the four statistics.  When, in
    every file that could be read, the value of the pixel is NaN or the
    nodata value applied to the file, the bands 'mediana', 'min', 'max'
    and 'sd' hold NaN at that pixel: not zero, and no exception. *)
Theorem pixel_without_data_is_nan `{R : Rasterio}
        (nombre : string) (a : Archivo)
        (rest : list (string * Py.exc Archivo)) (out : Combinado) (r c : Z) :
  combinar_rasters_ndvi ((nombre, Py.Ok a) :: rest) = Py.Ok out ->
  List.Forall (fun f => es_dato (nodata_aplicado a (snd f))
                                (a_px (snd f) r c) = false)
              (legibles ((nombre, Py.Ok a) :: rest)) ->
  forall k banda,
    (k < 4)%nat -> nth_error (bandas out) k = Some banda ->
    isnan (px (snd banda) r c) = true.
Proof.
  intros Hout Hall k banda Hk Hnth.
  destruct (estadisticos_de_bandas nombre a rest out r c Hout)
    as (b0 & b1 & b2 & b3 & otras & Hb & E0 & E1 & E2 & E3).
  assert (D : datos_pixel a (legibles ((nombre, Py.Ok a) :: rest)) r c = []).
  { unfold datos_pixel. clear -Hall.
    induction Hall as [|f l Hf _ IH]; simpl; [reflexivity|].
    rewrite Hf. exact IH. }
  pose proof (dropna_valores_pixel a (legibles ((nombre, Py.Ok a) :: rest))
                                   r c) as E.
  rewrite D in E.
  set (valores := valores_pixel a (legibles ((nombre, Py.Ok a) :: rest)) r c)
    in *.
  pose proof (Reducers.nanmedian_spec valores) as H0.
  pose proof (Reducers.nanmin_spec valores) as H1.
  pose proof (Reducers.nanmax_spec valores) as H2.
  pose proof (Reducers.nanstd_spec
                (suma_axis0 (m_height (a_meta a)) (m_width (a_meta a)))
                valores) as H3.
  rewrite E in H0, H1, H2, H3.
  rewrite Hb in Hnth.
  destruct k as [|[|[|[|k]]]]; [| | | |lia];
    injection Hnth as <-; simpl;
    [rewrite E0 | rewrite E1 | rewrite E2 | rewrite E3]; assumption.
Qed.

Lemma pixel_without_data_is_nan_witness :
  exists out banda,
    combinar_rasters_ndvi [("2023-01", Py.Ok banda_con_nodata);
                           ("2023-02", Py.Ok banda_2)]%string = Py.Ok out /\
    nth_error (bandas out) 1 = Some banda /\
    isnan (px (snd banda) 1 0) = true.
Proof.
  eexists. eexists. split; [reflexivity|]. split; [reflexivity|].
  apply (pixel_without_data_is_nan (R := UnitGrid.rasterio)
           "2023-01"%string banda_con_nodata
           [("2023-02", Py.Ok banda_2)]%string _ 1 0 eq_refl
           ltac:(repeat constructor) 1%nat _ ltac:(lia) eq_refl).
Defined.

End Stage5Reading.

(** ** Script 9: the bands of the output *)

Module Stage9Facts.
Import Np Stage9 Stage9Bandas UnitGrid Ejemplos Casos.

Lemma range_first (n : Z) :
  1 <= n -> exists l, Py.range n = 0 :: l.
Proof.
  intros Hn. unfold Py.range.
  destruct (Z.to_nat n) as [|m] eqn:E; [lia|].
  simpl. eauto.
Qed.

(** The rows of a band the script keeps. *)
Lemma to_lists_guardada (nodata : option float) (raw banda : ndarray float) :
  banda_guardada nodata raw banda ->
  to_lists banda
  = to_lists (mkArr (nrows raw) (ncols raw)
                    (fun r c => guardado nodata (px raw r c))).
Proof.
  intros [Hs Hpx]. unfold shape in Hs. injection Hs as Hr Hc.
  unfold to_lists. cbn [nrows ncols px]. rewrite Hr, Hc.
  apply map_ext. intros r. apply map_ext. intros c. apply Hpx.
Qed.

Section Script.
Context `{R : Rasterio}.
Variable src_ndvi : Dataset float.

Lemma leer_bandas_ndvi_spec (idxs : list Z) (bs : list (ndarray float)) :
  leer_bandas_ndvi src_ndvi idxs = Py.Ok bs ->
  Forall2 (banda_leida src_ndvi) idxs bs.
Proof.
  revert bs. induction idxs as [|i idxs IH]; intros bs H; simpl in H.
  - injection H as <-. constructor.
  - apply bind_Ok in H as (raw & Hraw & H).
    apply bind_Ok in H as (banda & Hb & H).
    apply bind_Ok in H as (rest & Hrest & H). injection H as <-.
    constructor; [|now apply IH].
    destruct (ds_nodata src_ndvi) as [nd|] eqn:End; [|discriminate].
    injection Hb as <-. exists nd, raw.
    split; [exact End|]. split; [exact Hraw|]. split; reflexivity.
Qed.

Lemma leer_bandas_ndvi_sin_nodata (idxs : list Z) :
  ds_nodata src_ndvi = None -> idxs <> [] ->
  forall bs, leer_bandas_ndvi src_ndvi idxs <> Py.Ok bs.
Proof.
  intros Hnd Hne bs H. destruct idxs as [|i idxs]; [contradiction|].
  apply leer_bandas_ndvi_spec in H.
  inversion H as [|? ? ? ? (nd & _ & E & _)]. congruence.
Qed.

Lemma read_all_shape (src : Dataset float) (i : Z) (b : ndarray float) :
  read_all src i = Py.Ok b ->
  nrows b = ds_height src /\ ncols b = ds_width src.
Proof.
  unfold read_all, read. intros H. apply bind_Ok in H as (f & _ & H).
  injection H as <-. split; reflexivity.
Qed.

Lemma leer_recorte_spec (src : Dataset float) (b : ndarray float) :
  leer_recorte src = Py.Ok b ->
  exists raw, read_all src 1 = Py.Ok raw /\
              banda_guardada (ds_nodata src) raw b.
Proof.
  unfold leer_recorte. intros H. apply bind_Ok in H as (raw & Hraw & H).
  exists raw. split; [exact Hraw|].
  destruct (ds_nodata src); injection H as <-; split; reflexivity.
Qed.

Lemma leer_recorte_shape (src : Dataset float) (b : ndarray float) :
  leer_recorte src = Py.Ok b ->
  nrows b = ds_height src /\ ncols b = ds_width src.
Proof.
  unfold leer_recorte. intros H. apply bind_Ok in H as (raw & Hraw & H).
  apply read_all_shape in Hraw.
  destruct (ds_nodata src); injection H as <-; exact Hraw.
Qed.

End Script.

(** X13.  An NDVI raster that declares no nodata value stops the
    script.  With at least one band and [src_ndvi.nodata] equal to
    [None], the script never reaches its output; when the three files
    exist, the geometry checks pass and the two clipped rasters and
    band 1 can be read, it ends with the [TypeError] of
    [np.isnan(None)]. *)
Theorem missing_nodata_stops_the_script `{R : Rasterio}
        (existe_ndvi existe_invierno existe_verano : bool)
        (src_ndvi src_inv src_ver : Dataset float)
        (nombre_banda : Z -> string) :
  ds_nodata src_ndvi = None -> 1 <= ds_count src_ndvi ->
  (forall out,
      combinar_recortes_con_ndvi existe_ndvi existe_invierno existe_verano
                                 src_ndvi src_inv src_ver nombre_banda
      <> Py.Ok out)
  /\ (forall banda_invierno banda_verano banda,
         existe_ndvi = true -> existe_invierno = true ->
         existe_verano = true ->
         dimensiones_distintas src_ndvi src_inv src_ver = false ->
         crs_distintos src_ndvi src_inv src_ver = false ->
         leer_recorte src_inv = Py.Ok banda_invierno ->
         leer_recorte src_ver = Py.Ok banda_verano ->
         read_all src_ndvi 1 = Py.Ok banda ->
         combinar_recortes_con_ndvi existe_ndvi existe_invierno existe_verano
                                    src_ndvi src_inv src_ver nombre_banda
         = Py.Raise Py.TypeError).
Proof.
  intros Hnd Hcount.
  destruct (range_first (ds_count src_ndvi) Hcount) as (l & Hl).
  split.
  - intros out H. unfold combinar_recortes_con_ndvi in H.
    destruct (_ || _); [discriminate|].
    destruct (dimensiones_distintas _ _ _); [discriminate|].
    destruct (crs_distintos _ _ _); [discriminate|].
    apply bind_Ok in H as (bi & _ & H). apply bind_Ok in H as (bv & _ & H).
    apply bind_Ok in H as (bs & Hbs & _).
    apply (leer_bandas_ndvi_sin_nodata src_ndvi _ Hnd) in Hbs; [exact Hbs|].
    unfold band_range. rewrite Hl. discriminate.
  - intros bi bv b -> -> -> Hd Hc Hi Hv Hb.
    unfold combinar_recortes_con_ndvi. cbn [negb orb].
    rewrite Hd, Hc, Hi, Hv. cbn [Py.bind].
    unfold band_range. rewrite Hl. cbn [map leer_bandas_ndvi].
    change (0 + 1) with 1. rewrite Hb. cbn [Py.bind].
    now rewrite Hnd.
Qed.

Lemma missing_nodata_stops_the_script_witness :
  combinar_recortes_con_ndvi true true true t_ndvi t_ndvi t_ndvi
                             (fun _ => "NDVI"%string)
  = Py.Raise Py.TypeError.
Proof.
  apply (proj2 (missing_nodata_stops_the_script
                  true true true t_ndvi t_ndvi t_ndvi
                  (fun _ => "NDVI"%string) eq_refl
                  ltac:(vm_compute; discriminate))
               _ _ _ eq_refl eq_refl eq_refl eq_refl eq_refl
               eq_refl eq_refl eq_refl).
Defined.

(** X14.  The file the script writes.  When the script reaches its
    output, the bands are 'invierno', 'verano' and then the bands of
    the NDVI raster in their order, each under its name and none
    without one; a season band holds band 1 of its clipped raster and
    an NDVI band the band read from the NDVI raster, each value as the
    [float32] number nearest to it and NaN in the place of a value that
    is then equal to the nodata value of its raster as a [float32]
    number; and every band has the height and the width of the NDVI
    raster. *)
Theorem output_bands_of_script9 `{R : Rasterio}
        (existe_ndvi existe_invierno existe_verano : bool)
        (src_ndvi src_inv src_ver : Dataset float)
        (nombre_banda : Z -> string)
        (out : list (string * ndarray float)) :
  combinar_recortes_con_ndvi existe_ndvi existe_invierno existe_verano
                             src_ndvi src_inv src_ver nombre_banda
    = Py.Ok out ->
  exists banda_invierno banda_verano bandas_ndvi raw_inv raw_ver,
    out = [("invierno", banda_invierno); ("verano", banda_verano)]%string
          ++ combine (map nombre_banda (band_range src_ndvi)) bandas_ndvi /\
    read_all src_inv 1 = Py.Ok raw_inv /\
    banda_guardada (ds_nodata src_inv) raw_inv banda_invierno /\
    read_all src_ver 1 = Py.Ok raw_ver /\
    banda_guardada (ds_nodata src_ver) raw_ver banda_verano /\
    Forall2 (banda_leida src_ndvi) (band_range src_ndvi) bandas_ndvi /\
    List.length out = (2 + List.length (band_range src_ndvi))%nat /\
    List.Forall (fun b => nrows (snd b) = ds_height src_ndvi /\
                          ncols (snd b) = ds_width src_ndvi) out.
Proof.
  unfold combinar_recortes_con_ndvi. intros H.
  destruct (_ || _); [discriminate|].
  destruct (dimensiones_distintas _ _ _) eqn:Hd; [discriminate|].
  destruct (crs_distintos _ _ _); [discriminate|].
  apply bind_Ok in H as (bi & Hi & H). apply bind_Ok in H as (bv & Hv & H).
  apply bind_Ok in H as (bs & Hbs & H). injection H as <-.
  pose proof (leer_bandas_ndvi_spec src_ndvi _ _ Hbs) as Hspec.
  destruct (leer_recorte_spec src_inv bi Hi) as (raw_inv & Hri & Hgi).
  destruct (leer_recorte_spec src_ver bv Hv) as (raw_ver & Hrv & Hgv).
  exists bi, bv, bs, raw_inv, raw_ver. split; [reflexivity|].
  split; [exact Hri|]. split; [exact Hgi|].
  split; [exact Hrv|]. split; [exact Hgv|]. split; [exact Hspec|].
  assert (Hlen : List.length bs = List.length (band_range src_ndvi))
    by (symmetry; eapply Forall2_length; exact Hspec).
  unfold dimensiones_distintas in Hd.
  rewrite !orb_false_iff, !negb_false_iff, !Z.eqb_eq in Hd.
  destruct Hd as (((Hiw & Hih) & Hvw) & Hvh).
  apply leer_recorte_shape in Hi, Hv.
  split.
  - simpl. rewrite List.length_combine, List.length_map, Hlen. lia.
  - simpl. constructor; [simpl; lia|]. constructor; [simpl; lia|].
    apply List.Forall_forall. intros [nombre b] Hin.
    apply in_combine_r in Hin.
    clear -Hspec Hin. induction Hspec as [|i x idxs xs Hx _ IH];
      [destruct Hin|].
    destruct Hin as [<-|Hin]; [|now apply IH].
    destruct Hx as (nd & raw & _ & Hraw & Hs & _).
    apply read_all_shape in Hraw. unfold shape in Hs.
    injection Hs as Hr Hc. cbn [snd]. rewrite Hr, Hc. exact Hraw.
Qed.

Lemma output_bands_of_script9_witness :
  exists banda_invierno banda_verano bandas_ndvi raw_inv,
    combinar_recortes_con_ndvi true true true t_ndvi_nan t_recorte t_recorte
                               (fun _ => "mediana"%string)
    = Py.Ok ([("invierno", banda_invierno); ("verano", banda_verano)]%string
             ++ combine (map (fun _ => "mediana"%string)
                             (band_range t_ndvi_nan))
                        bandas_ndvi) /\
    read_all t_recorte 1 = Py.Ok raw_inv /\
    banda_guardada (ds_nodata t_recorte) raw_inv banda_invierno /\
    Forall2 (banda_leida t_ndvi_nan) (band_range t_ndvi_nan) bandas_ndvi /\
    to_lists raw_inv = [[16777217%float; 5%float]] /\
    to_lists banda_invierno = [[PrimFloat.nan; 5%float]] /\
    map to_lists bandas_ndvi = [[[0.5%float; 0.5%float]]].
Proof.
  destruct (output_bands_of_script9
              true true true t_ndvi_nan t_recorte t_recorte
              (fun _ => "mediana"%string) _ eq_refl)
    as (bi & bv & bs & ri & rv & E & Hri & Hgi & _ & _ & Hbs & _).
  exists bi, bv, bs, ri. rewrite <- E.
  split; [reflexivity|]. split; [exact Hri|]. split; [exact Hgi|].
  split; [exact Hbs|].
  injection Hri as <-.
  assert (Hn : exists b, bs = [b] /\ banda_leida t_ndvi_nan 1 b).
  { inversion Hbs as [|i b is' bs' Hb Hrest]; subst.
    inversion Hrest; subst. now exists b. }
  destruct Hn as (b & -> & nd & raw & Hnd & Hraw & Hg).
  injection Hnd as <-. injection Hraw as <-.
  split; [vm_compute; reflexivity|]. split.
  - rewrite (to_lists_guardada _ _ _ Hgi). vm_compute. reflexivity.
  - cbn [map]. rewrite (to_lists_guardada _ _ _ Hg). vm_compute. reflexivity.
Defined.

End Stage9Facts.

(** ** Script 2 on aligned rasters *)

Module AlignedRasters.
Import Np Partition Stage2 UnitGrid Ejemplos Casos.

(** X19.  On aligned rasters nothing of [np.empty] reaches the means.
    When the two rasters have the same CRS, height and width, the
    result of [procesar_ndvi_por_categoria] is the same whatever the
    content of the blocks [np.empty] hands out: the NDVI chunk is read
    through the window of the category chunk and no destination block
    is used. *)
Theorem aligned_rasters_ignore_np_empty `{R : Rasterio}
        (src_inta : Dataset Z) (src_ndvi : Dataset float)
        (heap1 heap2 : Window -> Z -> Z -> float)
        (categorias exclude_values : list Z) (chunk_size : Z) :
  necesita_reproyeccion src_inta src_ndvi = false ->
  procesar_ndvi_por_categoria src_inta src_ndvi heap1 categorias
                              exclude_values chunk_size
  = procesar_ndvi_por_categoria src_inta src_ndvi heap2 categorias
                                exclude_values chunk_size.
Proof.
  intros H. unfold procesar_ndvi_por_categoria, acumular_ventanas.
  destruct (chunk_size =? 0); [reflexivity|]. do 2 f_equal.
  apply fold_left_same. intros resultados ij. unfold Stage2.procesar_ventana.
  destruct (chunk_window _ _ _ _ _) as [window|]; [|reflexivity].
  assert (E : leer_ventana src_inta src_ndvi heap1 window
              = leer_ventana src_inta src_ndvi heap2 window).
  { unfold leer_ventana. now rewrite H. }
  now rewrite E.
Qed.

Lemma aligned_rasters_ignore_np_empty_witness :
  procesar_ndvi_por_categoria t_inta t_ndvi heap_ceros [1; 2] [255; 0] 2000
  = procesar_ndvi_por_categoria t_inta t_ndvi heap_sietes [1; 2] [255; 0] 2000.
Proof.
  exact (aligned_rasters_ignore_np_empty
           t_inta t_ndvi heap_ceros heap_sietes [1; 2] [255; 0] 2000 eq_refl).
Defined.

End AlignedRasters.

Module Stage2QmlColours.
Import Stage2 Stage2Qml Casos.

Section Parser.
Variable int_float : string -> Py.exc Z.
Variable hex_de_rgb : list string -> option string.
Hypothesis hex_con_numeral :
  forall parts h, hex_de_rgb parts = Some h -> String.prefix "#" h = true.

Lemma color_hex_numeral (color : option string) :
  String.prefix "#" (color_hex hex_de_rgb color) = true.
Proof.
  unfold color_hex. destruct color as [c|]; [|reflexivity].
  destruct (String.prefix "#" c) eqn:E; [exact E|].
  destruct (contiene _ c); [|reflexivity].
  destruct (hex_de_rgb _) as [h|] eqn:Eh; [|reflexivity].
  now apply hex_con_numeral in Eh.
Qed.

End Parser.

(** X16.  Every colour the parser returns starts with a hash sign: the
    colour of the item when it has that form, the formatted colour when
    the item gives numbers that convert, and "#888888" in every other
    case, a missing colour and numbers that do not convert among them.
    The formatted colour starts with the hash sign of its format
    string, which is a hypothesis on the formatting of Python. *)
Theorem qml_colours_start_with_hash
        (int_float : string -> Py.exc Z)
        (hex_de_rgb : list string -> option string)
        (arbol : Py.exc (list Item))
        (vals : list Z) (labels hex_colors : list string) :
  (forall parts h, hex_de_rgb parts = Some h ->
                   String.prefix "#" h = true) ->
  parsear_categorias_qml int_float hex_de_rgb arbol
    = Py.Ok (vals, labels, hex_colors) ->
  List.Forall (fun h => String.prefix "#" h = true) hex_colors.
Proof.
  intros Hhex H. unfold parsear_categorias_qml in H.
  apply bind_Ok in H as (items & _ & H).
  apply bind_Ok in H as (filas & Hfilas & H).
  apply Stage2QmlFacts.leer_items_spec in Hfilas.
  assert (Hall : List.Forall
                   (fun t : Fila => String.prefix "#" (snd (fst t)) = true)
                   filas).
  { clear H. induction Hfilas as [|it t its ts Ht _ IH]; constructor;
      [|exact IH].
    destruct Ht as (l & v & _ & _ & _ & _ & ->).
    now apply color_hex_numeral. }
  pose proof (Stage2QmlFacts.sorted_perm filas) as Hperm.
  destruct (sorted_por_valor filas) as [|t z]; [discriminate|].
  assert (E : hex_colors = map (fun u : Fila => snd (fst u)) (t :: z))
    by (injection H; auto).
  rewrite E. apply List.Forall_map.
  eapply Permutation_Forall; [symmetry; exact Hperm | exact Hall].
Qed.

Lemma qml_colours_start_with_hash_witness :
  List.Forall (fun h => String.prefix "#" h = true)
              ["#888888"; "#00ff00"; "#ff0000"]%string.
Proof.
  apply (qml_colours_start_with_hash int_float_qml hex_de_rgb_qml
           (Py.Ok items_qml) [1; 2; 2] ["Maiz"; "Soja"; "Trigo"]%string).
  - intros parts h Hh. unfold hex_de_rgb_qml in Hh.
    destruct parts as [|a [|b [|c [|d l]]]]; try discriminate.
    destruct (_ && _); [|discriminate]. now injection Hh as <-.
  - reflexivity.
Defined.

End Stage2QmlColours.
